(** * GCO golf league dashboard: loader and aggregation layer

    A shallow embedding of [streamlit_app.py]: the data loader
    ([load_gco_data], [create_sample_data]) and the aggregation functions
    ([calculate_player_stats], [create_tournament_leaderboard] and the
    comparison rows built by [create_comparison_chart]), followed by the
    properties the specification states about them.  The data that the two
    figures plot ([create_player_performance_chart],
    [create_comparison_chart]) and the computations of the five pages of
    [main] are embedded after them, with further properties of the code.

    Conventions of the embedding.
    - A pandas DataFrame is a list of column labels and a list of rows; a
      cell is a number, a string or NaN.  Numbers are exact rationals: the
      int64 and float64 dtypes are not told apart and float rounding error
      is not modelled.  A square root that pandas returns ([Series.std]) is
      kept symbolic and read in the reals.
    - A Python exception is the [Raise] branch of [result]; [try]/[except]
      is a match on it.
    - The file system, the network, [pd.read_csv] and numpy's global random
      generator are the fields of a [World] record, over which the loader's
      properties quantify. *)

From Stdlib Require Import String Ascii Bool Arith ZArith QArith Qround Qabs Lia List.
From Stdlib Require Import Sorting.Sorted Sorting.Permutation.
From Stdlib Require Import Reals Qreals Psatz.
Import ListNotations.

Local Open Scope string_scope.
Local Open Scope Z_scope.

(** ** Exceptions *)

Module Py.

(** The exceptions the modelled code can meet.  [OutOfModel] marks a
    pandas behaviour on data outside section 3 of the specification (a
    numeric reduction over a string column, a group key that is a
    number); no theorem below relies on it. *)
Inductive exn : Type :=
| KeyError (key : string)
| ValueError
| IOError
| RequestException
| HTTPError
| ParserError
| OutOfModel.

Inductive result (A : Type) : Type :=
| Ok (a : A)
| Raise (e : exn).

Arguments Ok {A} a.
Arguments Raise {A} e.

Definition bind {A B : Type} (m : result A) (k : A -> result B) : result B :=
  match m with
  | Ok a => k a
  | Raise e => Raise e
  end.

Fixpoint mapM {A B : Type} (f : A -> result B) (l : list A) : result (list B) :=
  match l with
  | [] => Ok []
  | x :: xs =>
      bind (f x) (fun y => bind (mapM f xs) (fun ys => Ok (y :: ys)))
  end.

End Py.

Import Py.

Notation "x <- m ;; k" := (Py.bind m (fun x => k))
  (at level 61, m at next level, right associativity).

(** ** Cells, series and frames *)

Inductive value : Type :=
| VNum (q : Q)
| VStr (s : string)
| VNaN.

Definition Series : Type := list value.

Record DataFrame : Type := mkDataFrame {
  columns : list string;
  rows : list (list value)
}.

(** Position of a column label. *)
Fixpoint index_of (name : string) (cols : list string) : option nat :=
  match cols with
  | [] => None
  | c :: cs =>
      if String.eqb c name then Some O
      else match index_of name cs with
           | Some i => Some (S i)
           | None => None
           end
  end.

(** [col in df.columns] *)
Definition has_column (df : DataFrame) (name : string) : bool :=
  match index_of name (columns df) with
  | Some _ => true
  | None => false
  end.

(** A row shorter than the header reads as NaN, as [read_csv] fills it. *)
Definition cell (i : nat) (row : list value) : value := nth i row VNaN.

(** [df[name]]: raises KeyError when the label is absent. *)
Definition getitem (df : DataFrame) (name : string) : result Series :=
  match index_of name (columns df) with
  | Some i => Ok (map (cell i) (rows df))
  | None => Raise (KeyError name)
  end.

(** [series == s] for a string [s]: NaN and numbers compare unequal. *)
Definition value_eq_str (s : string) (v : value) : bool :=
  match v with
  | VStr s' => String.eqb s' s
  | _ => false
  end.

Definition series_eq (ser : Series) (s : string) : list bool :=
  map (value_eq_str s) ser.

(** Boolean-mask selection [df[mask]]; the mask has one entry per row. *)
Fixpoint select {A : Type} (mask : list bool) (l : list A) : list A :=
  match mask, l with
  | b :: bs, x :: xs => if b then x :: select bs xs else select bs xs
  | _, _ => []
  end.

Definition getitem_mask (df : DataFrame) (mask : list bool) : DataFrame :=
  mkDataFrame (columns df) (select mask (rows df)).

(** [len(df)] *)
Definition len (df : DataFrame) : nat := length (rows df).

(** [df.empty]: some axis has length zero. *)
Definition empty (df : DataFrame) : bool :=
  match rows df, columns df with
  | [], _ => true
  | _, [] => true
  | _, _ => false
  end.

(** ** Numeric reductions (pandas defaults: [skipna=True], [ddof=1]) *)

(** A number kept for display: NaN, a rational, or the (real) square root
    of a rational. *)
Inductive number : Type :=
| NaN
| Num (q : Q)
| Sqrt (q : Q).

(** The numeric view of a series; [None] is a missing value. *)
Definition to_numeric (ser : Series) : result (list (option Q)) :=
  mapM (fun v => match v with
                 | VNum q => Ok (Some q)
                 | VNaN => Ok None
                 | VStr _ => Raise OutOfModel
                 end) ser.

(** The values that are not missing. *)
Fixpoint dropna (l : list (option Q)) : list Q :=
  match l with
  | [] => []
  | Some q :: xs => q :: dropna xs
  | None :: xs => dropna xs
  end.

Definition Qsum (l : list Q) : Q := fold_right Qplus 0%Q l.

Definition Qmin_list (l : list Q) : option Q :=
  match l with
  | [] => None
  | x :: xs => Some (fold_left (fun a b => if Qle_bool b a then b else a) xs x)
  end.

Definition Qmax_list (l : list Q) : option Q :=
  match l with
  | [] => None
  | x :: xs => Some (fold_left (fun a b => if Qle_bool a b then b else a) xs x)
  end.

Definition Qlen (l : list Q) : Q := inject_Z (Z.of_nat (length l)).

Definition of_option (o : option Q) : number :=
  match o with
  | Some q => Num q
  | None => NaN
  end.

(** [Series.sum()]: the empty sum is 0. *)
Definition Series_sum (ser : Series) : result Q :=
  xs <- to_numeric ser ;;
  Ok (Qred (Qsum (dropna xs))).

(** [Series.count()]: the number of values that are not missing. *)
Definition Series_count (ser : Series) : result nat :=
  xs <- to_numeric ser ;;
  Ok (length (dropna xs)).

(** [Series.mean()]: NaN when nothing is left after dropping NaN. *)
Definition mean (l : list Q) : number :=
  match l with
  | [] => NaN
  | _ => Num (Qred (Qsum l / Qlen l)%Q)
  end.

Definition Series_mean (ser : Series) : result number :=
  xs <- to_numeric ser ;;
  Ok (mean (dropna xs)).

Definition Series_min (ser : Series) : result number :=
  xs <- to_numeric ser ;;
  Ok (of_option (Qmin_list (dropna xs))).

Definition Series_max (ser : Series) : result number :=
  xs <- to_numeric ser ;;
  Ok (of_option (Qmax_list (dropna xs))).

(** [nanops.nanvar]: with [count] valid values and [d = count - ddof], the
    result is NaN when [count <= ddof]; otherwise the squared deviations
    from the mean are summed and divided by [d]. *)
Definition nanvar (ddof : nat) (l : list Q) : option Q :=
  let count := length l in
  if (count <=? ddof)%nat then None
  else
    let avg := (Qsum l / Qlen l)%Q in
    let sqr := Qsum (map (fun x => (avg - x) * (avg - x))%Q l) in
    Some (Qred (sqr / inject_Z (Z.of_nat (count - ddof)))).

(** [Series.std()] is the square root of [nanvar] with [ddof=1]. *)
Definition Series_std (ser : Series) : result number :=
  xs <- to_numeric ser ;;
  Ok (match nanvar 1 (dropna xs) with
      | Some v => Sqrt v
      | None => NaN
      end).

(** ** [calculate_player_stats] *)

Record Stats : Type := mkStats {
  total_games : nat;
  avg_net_score : number;
  best_score : number;
  worst_score : number;
  total_birdies : Q;
  total_pars : Q;
  total_bogeys : Q;
  total_double_bogeys : Q;
  birdie_rate : number;
  consistency : number
}.

Definition calculate_player_stats (df : DataFrame) (player_name : string)
  : result (option Stats) :=
  player_col <- getitem df "Player" ;;
  let player_data := getitem_mask df (series_eq player_col player_name) in
  if empty player_data then Ok None
  else
    net <- getitem player_data "Net_Score" ;;
    avg <- Series_mean net ;;
    best <- Series_min net ;;
    worst <- Series_max net ;;
    birdies <- getitem player_data "Birdies" ;;
    tb <- Series_sum birdies ;;
    pars <- getitem player_data "Pars" ;;
    tp <- Series_sum pars ;;
    bogeys <- getitem player_data "Bogeys" ;;
    tbo <- Series_sum bogeys ;;
    doubles <- getitem player_data "Double_Bogeys" ;;
    td <- Series_sum doubles ;;
    rate <- Series_mean birdies ;;
    std <- Series_std net ;;
    Ok (Some (mkStats (len player_data) avg best worst tb tp tbo td rate std)).

Definition test_player_data : DataFrame :=
  let n (z : Z) := VNum (inject_Z z) in
  mkDataFrame
    ["Player"; "Tournament"; "Game"; "Net_Score"; "Birdies"; "Pars"; "Bogeys";
     "Double_Bogeys"]
    [ [VStr "TestPlayer"; VStr "提提卡卡杯"; VStr "Game1"; n (-2); n 2; n 10; n 3; n 1];
      [VStr "TestPlayer"; VStr "提提卡卡杯"; VStr "Game2"; n 1; n 1; n 12; n 2; n 1];
      [VStr "TestPlayer"; VStr "提提卡卡杯"; VStr "Game3"; n 0; n 0; n 14; n 2; n 0];
      [VStr "TestPlayer"; VStr "提提卡卡杯"; VStr "Game4"; n 3; n 0; n 11; n 4; n 1];
      [VStr "TestPlayer"; VStr "提提卡卡杯"; VStr "Game5"; n (-1); n 1; n 13; n 1; n 1] ].

(** ** [create_tournament_leaderboard] *)

(** Half-to-even rounding to an integer, as [numpy.rint]. *)
Definition rint (q : Q) : Z :=
  let f := Qfloor q in
  match Qcompare (q - inject_Z f) (1 # 2) with
  | Lt => f
  | Gt => f + 1
  | Eq => if Z.even f then f else f + 1
  end.

(** [numpy.round(q, 2)] *)
Definition round2 (q : Q) : Q := Qred (inject_Z (rint (q * 100)) / 100).

(** [DataFrame.round(2)] on one cell: strings and NaN are left alone. *)
Definition round_value (v : value) : value :=
  match v with
  | VNum q => VNum (round2 q)
  | other => other
  end.

(** The result of [groupby(key).agg(...)]: the group keys form the index,
    one row of aggregates per key.  [L] is the type of the column labels:
    pairs (column, function) out of [agg], strings once renamed. *)
Record Grouped (L : Type) : Type := mkGrouped {
  index_name : string;
  labels : list L;
  entries : list (string * list value)
}.

Arguments mkGrouped {L} index_name labels entries.
Arguments index_name {L} g.
Arguments labels {L} g.
Arguments entries {L} g.

Inductive aggfunc : Type := AggSum | AggMean | AggCount.

Definition value_of_number (n : number) : result value :=
  match n with
  | NaN => Ok VNaN
  | Num q => Ok (VNum q)
  | Sqrt _ => Raise OutOfModel
  end.

Definition aggregate (f : aggfunc) (ser : Series) : result value :=
  match f with
  | AggSum => s <- Series_sum ser ;; Ok (VNum s)
  | AggMean => m <- Series_mean ser ;; value_of_number m
  | AggCount => c <- Series_count ser ;; Ok (VNum (inject_Z (Z.of_nat c)))
  end.

(** Insertion of a group key into the sorted list of distinct keys. *)
Fixpoint insert_key (k : string) (ks : list string) : list string :=
  match ks with
  | [] => [k]
  | k' :: rest =>
      match String.compare k k' with
      | Lt => k :: ks
      | Eq => ks
      | Gt => k' :: insert_key k rest
      end
  end.

(** The group keys of [groupby]: distinct, ascending ([sort=True]), NaN
    dropped ([dropna=True]). *)
Fixpoint group_keys (ser : Series) : result (list string) :=
  match ser with
  | [] => Ok []
  | VStr s :: rest => ks <- group_keys rest ;; Ok (insert_key s ks)
  | VNaN :: rest => group_keys rest
  | VNum _ :: rest => Raise OutOfModel
  end.

(** The columns an [agg] dictionary asks for, each looked up once. *)
Definition agg_labels (spec : list (string * list aggfunc))
  : list (string * aggfunc) :=
  flat_map (fun cf => map (fun f => (fst cf, f)) (snd cf)) spec.

(** [df.groupby(key).agg(spec)] *)
Definition groupby_agg (df : DataFrame) (key : string)
    (spec : list (string * list aggfunc)) : result (Grouped (string * aggfunc)) :=
  key_col <- getitem df key ;;
  ks <- group_keys key_col ;;
  _ <- mapM (fun cf => getitem df (fst cf)) spec ;;
  es <- mapM (fun k =>
                let group := getitem_mask df (series_eq key_col k) in
                cells <- mapM (fun lf => ser <- getitem group (fst lf) ;;
                                         aggregate (snd lf) ser)
                              (agg_labels spec) ;;
                Ok (k, cells)) ks ;;
  Ok (mkGrouped key (agg_labels spec) es).

(** [.round(2)] *)
Definition round_frame {L : Type} (g : Grouped L) : Grouped L :=
  mkGrouped (index_name g) (labels g)
            (map (fun e => (fst e, map round_value (snd e))) (entries g)).

(** [g.columns = names]: the lengths must agree. *)
Definition set_columns {L : Type} (g : Grouped L) (names : list string)
  : result (Grouped string) :=
  if (length names =? length (labels g))%nat
  then Ok (mkGrouped (index_name g) names (entries g))
  else Raise ValueError.

(** Order of the sort keys: ascending, missing values last. *)
Definition key_le (a b : option Q) : bool :=
  match a, b with
  | Some x, Some y => Qle_bool x y
  | _, None => true
  | None, Some _ => false
  end.

Section InsertionSort.
Context {A : Type} (key : A -> option Q).

Fixpoint insert_sorted (x : A) (l : list A) : list A :=
  match l with
  | [] => [x]
  | y :: ys =>
      if key_le (key x) (key y) then x :: y :: ys
      else y :: insert_sorted x ys
  end.

Definition sort_by (l : list A) : list A :=
  fold_right insert_sorted [] l.
End InsertionSort.

Definition numeric_key (v : value) : result (option Q) :=
  match v with
  | VNum q => Ok (Some q)
  | VNaN => Ok None
  | VStr _ => Raise OutOfModel
  end.

Definition sort_key (i : nat) (e : string * list value) : option Q :=
  match cell i (snd e) with
  | VNum q => Some q
  | _ => None
  end.

(** [g.sort_values(by)], ascending with NaN last.  numpy's default
    quicksort leaves the order of equal keys unspecified; the stable
    insertion sort used here is one of the orders it may produce. *)
Definition sort_values (g : Grouped string) (by_ : string)
  : result (Grouped string) :=
  match index_of by_ (labels g) with
  | None => Raise (KeyError by_)
  | Some i =>
      _ <- mapM (fun e => numeric_key (cell i (snd e))) (entries g) ;;
      Ok (mkGrouped (index_name g) (labels g) (sort_by (sort_key i) (entries g)))
  end.

(** [g.reset_index()]: the index becomes the first column; pandas refuses
    the insertion when the label is already a column. *)
Definition reset_index (g : Grouped string) : result DataFrame :=
  match index_of (index_name g) (labels g) with
  | Some _ => Raise ValueError
  | None =>
      Ok (mkDataFrame (index_name g :: labels g)
                      (map (fun e => VStr (fst e) :: snd e) (entries g)))
  end.

(** [range(1, n + 1)] as cells. *)
Definition range1 (n : nat) : list value :=
  map (fun i => VNum (inject_Z (Z.of_nat i))) (seq 1 n).

Fixpoint replace_nth {A : Type} (i : nat) (x : A) (d : A) (l : list A) : list A :=
  match i, l with
  | O, [] => [x]
  | O, _ :: ys => x :: ys
  | S j, [] => d :: replace_nth j x d []
  | S j, y :: ys => y :: replace_nth j x d ys
  end.

(** [df[name] = values], the values being as many as the rows: an existing
    column is overwritten, a new one is appended on the right. *)
Definition setitem (df : DataFrame) (name : string) (vals : list value)
  : DataFrame :=
  match index_of name (columns df) with
  | Some i =>
      mkDataFrame (columns df)
        (map (fun rv => replace_nth i (snd rv) VNaN (fst rv))
             (combine (rows df) vals))
  | None =>
      mkDataFrame (columns df ++ [name])%list
        (map (fun rv =>
                let r : list value := fst rv in
                (r ++ repeat VNaN (length (columns df) - length r)
                   ++ [snd rv])%list)
             (combine (rows df) vals))
  end.

Definition leaderboard_agg : list (string * list aggfunc) :=
  [ ("Net_Score", [AggSum; AggMean; AggCount]);
    ("Birdies", [AggSum]);
    ("Pars", [AggSum]);
    ("Bogeys", [AggSum]);
    ("Double_Bogeys", [AggSum]) ].

Definition leaderboard_columns : list string :=
  [ "Total_Score"; "Avg_Score"; "Games_Played";
    "Total_Birdies"; "Total_Pars"; "Total_Bogeys"; "Total_Double_Bogeys" ].

Definition create_tournament_leaderboard (df : DataFrame)
    (tournament_name : string) : result DataFrame :=
  tournament_col <- getitem df "Tournament" ;;
  let tournament_data :=
    getitem_mask df (series_eq tournament_col tournament_name) in
  grouped <- groupby_agg tournament_data "Player" leaderboard_agg ;;
  leaderboard <- set_columns (round_frame grouped) leaderboard_columns ;;
  leaderboard <- sort_values leaderboard "Total_Score" ;;
  leaderboard <- reset_index leaderboard ;;
  Ok (setitem leaderboard "Rank" (range1 (len leaderboard))).

Definition tournament_data : DataFrame :=
  let n (z : Z) := VNum (inject_Z z) in
  let t := VStr "提提卡卡杯" in
  mkDataFrame
    ["Player"; "Tournament"; "Game"; "Net_Score"; "Birdies"; "Pars"; "Bogeys";
     "Double_Bogeys"]
    [ [VStr "Player1"; t; VStr "Game1"; n 2; n 1; n 10; n 2; n 1];
      [VStr "Player1"; t; VStr "Game2"; n (-1); n 2; n 11; n 1; n 0];
      [VStr "Player2"; t; VStr "Game1"; n 0; n 1; n 12; n 1; n 0];
      [VStr "Player2"; t; VStr "Game2"; n 3; n 0; n 9; n 3; n 2];
      [VStr "Player3"; t; VStr "Game1"; n (-2); n 3; n 8; n 1; n 0];
      [VStr "Player3"; t; VStr "Game2"; n 1; n 1; n 10; n 2; n 1] ].


(** ** The comparison rows of [create_comparison_chart] *)

Record ComparisonRow : Type := mkComparisonRow {
  Player : string;
  Avg_Net_Score : number;
  Total_Birdies : Q;
  Birdie_Rate : number;
  Consistency : number
}.

(** The list [comparison_data] that the loop of [create_comparison_chart]
    builds, one dictionary per player whose statistics exist.  A statistics
    dictionary always has ten keys, so [if stats:] tests it against [None]
    only.  The figure drawn from the list afterwards is presentation and is
    not modelled. *)
Fixpoint comparison_data (df : DataFrame) (players_to_compare : list string)
  : result (list ComparisonRow) :=
  match players_to_compare with
  | [] => Ok []
  | player :: rest =>
      stats <- calculate_player_stats df player ;;
      tail <- comparison_data df rest ;;
      Ok (match stats with
          | Some st =>
              mkComparisonRow player (avg_net_score st) (total_birdies st)
                              (birdie_rate st) (consistency st) :: tail
          | None => tail
          end)
  end.

(** ** [create_sample_data] *)

(** numpy's global generator: the raw draws still to come. *)
Definition RandomState : Type := nat -> Z.

(** [np.random.randint(low, high)]: an integer of [[low, high)], here the
    next raw draw reduced into the interval; every call below has
    [low < high]. *)
Definition randint (low high : Z) (rs : RandomState) : Z * RandomState :=
  (low + rs O mod (high - low), fun n => rs (S n)).

(** A loop that appends one item per element while threading the
    generator. *)
Fixpoint for_each {A B : Type} (body : A -> RandomState -> list B * RandomState)
    (l : list A) (rs : RandomState) : list B * RandomState :=
  match l with
  | [] => ([], rs)
  | x :: xs =>
      let (ys, rs1) := body x rs in
      let (zs, rs2) := for_each body xs rs1 in
      ((ys ++ zs)%list, rs2)
  end.

Definition players : list string :=
  ["刘北南"; "Jacky"; "赵鲲"; "杨子初"; "Neo"; "徐峥"; "杨明";
   "曹振波"; "李扬"; "王文龙"; "曾诚"; "Justin"].

(** The [tournaments] dictionary in insertion order: name, period, games. *)
Definition tournaments : list (string * (string * list string)) :=
  [ ("提提卡卡杯", ("01/04 - 31/05", ["Game 1"; "Game 2"; "Game 3"; "Game 4"]));
    ("暖男杯", ("01/06 - 31/07", ["Game 5"; "Game 6"; "Game 7"; "Game 8"]));
    ("凯尔特人杯", ("01/08 - 15/09", ["Game 9"; "Game 10"; "Game 11"; "Game 12"])) ].

(** A dictionary literal, keys in insertion order. *)
Definition record : Type := list (string * value).

Definition sample_record (player tournament game : string) (rs : RandomState)
  : list record * RandomState :=
  let (net, rs1) := randint (-15) 20 rs in
  let (birdies, rs2) := randint 0 5 rs1 in
  let (pars, rs3) := randint 5 15 rs2 in
  let (bogeys, rs4) := randint 0 8 rs3 in
  let (doubles, rs5) := randint 0 4 rs4 in
  ([ [ ("Player", VStr player);
       ("Tournament", VStr tournament);
       ("Game", VStr game);
       ("Net_Score", VNum (inject_Z net));
       ("Birdies", VNum (inject_Z birdies));
       ("Pars", VNum (inject_Z pars));
       ("Bogeys", VNum (inject_Z bogeys));
       ("Double_Bogeys", VNum (inject_Z doubles)) ] ], rs5).

Definition sample_records (rs : RandomState) : list record * RandomState :=
  for_each (fun player =>
    for_each (fun tournament =>
      for_each (fun game => sample_record player (fst tournament) game)
               (snd (snd tournament)))
      tournaments)
    players rs.

Fixpoint lookup (k : string) (r : record) : option value :=
  match r with
  | [] => None
  | (k', v) :: rest => if String.eqb k' k then Some v else lookup k rest
  end.

(** The column labels of [pd.DataFrame(records)]: every key, in the order
    of first appearance. *)
Fixpoint union_keys (seen : list string) (rs : list record) : list string :=
  match rs with
  | [] => seen
  | r :: rest =>
      union_keys
        (fold_left (fun acc kv =>
                      match index_of (fst kv) acc with
                      | Some _ => acc
                      | None => (acc ++ [fst kv])%list
                      end) r seen)
        rest
  end.

(** [pd.DataFrame(records)]: a key a record lacks reads as NaN. *)
Definition DataFrame_of_records (rs : list record) : DataFrame :=
  let cols := union_keys [] rs in
  mkDataFrame cols
    (map (fun r => map (fun c => match lookup c r with
                                 | Some v => v
                                 | None => VNaN
                                 end) cols) rs).

Definition create_sample_data (rs : RandomState) : DataFrame * RandomState :=
  let (data, rs') := sample_records rs in
  (DataFrame_of_records data, rs').

(** ** [load_gco_data] *)

(** The body of an HTTP response: a Python [str], as its code points. *)
Definition text : Type := list N.

(** [str.isspace] for one character. *)
Definition isspace (c : N) : bool :=
  (((9 <=? c) && (c <=? 13)) || ((28 <=? c) && (c <=? 32))
   || (c =? 133) || (c =? 160) || (c =? 5760)
   || ((8192 <=? c) && (c <=? 8202))
   || (c =? 8232) || (c =? 8233) || (c =? 8239) || (c =? 8287)
   || (c =? 12288))%N.

Fixpoint lstrip (t : text) : text :=
  match t with
  | c :: rest => if isspace c then lstrip rest else t
  | [] => []
  end.

(** [t.strip()] *)
Definition strip (t : text) : text := rev (lstrip (rev (lstrip t))).

(** [t.startswith(prefix)] *)
Fixpoint startswith (prefix t : text) : bool :=
  match prefix, t with
  | [], _ => true
  | p :: ps, c :: cs => (p =? c)%N && startswith ps cs
  | _ :: _, [] => false
  end.

(** ['<!DOCTYPE'] *)
Definition doctype : text := [60; 33; 68; 79; 67; 84; 89; 80; 69]%N.

Record Response : Type := mkResponse {
  status_ok : bool;
  response_text : text
}.

(** [response.raise_for_status()] *)
Definition raise_for_status (r : Response) : result unit :=
  if status_ok r then Ok tt else Raise HTTPError.

(** Everything outside the program that one call of the loader observes. *)
Record World : Type := mkWorld {
  (** [os.path.exists(path)] *)
  path_exists : string -> bool;
  (** [pd.read_csv(path)] *)
  read_csv_file : string -> result DataFrame;
  (** [requests.get(url, headers=..., timeout=10)] *)
  requests_get : string -> result Response;
  (** [pd.read_csv(StringIO(text))] *)
  read_csv_text : text -> result DataFrame;
  (** [df.to_csv(path, index=False)] *)
  to_csv : DataFrame -> string -> result unit;
  (** the state of numpy's generator *)
  random_state : RandomState
}.

(** The notices shown through [st.success], [st.warning] and [st.info]. *)
Inductive notice : Type :=
| LoadedLocalFile
| CouldNotReadLocalFile (e : exn)
| LoadedGoogleSheets
| CouldNotAccessGoogleSheets
| UsingSampleData.

(** What one call leaves behind: the frame returned, the frame written to
    the cache file if any, and the notices in order. *)
Record Outcome : Type := mkOutcome {
  returned : DataFrame;
  cache_written : option DataFrame;
  notices : list notice
}.

Definition required_columns : list string :=
  ["Player"; "Tournament"; "Game"; "Net_Score"].

(** [all(col in df.columns for col in required_columns) and not df.empty] *)
Definition validate (df : DataFrame) : bool :=
  forallb (has_column df) required_columns && negb (empty df).

Definition local_file : string := "gco_data.csv".

Definition sheet_id : string := "1ZvtWd8zHMI0k2GQGMWhtFHl5xuDbciOW".

Definition urls_to_try : list string :=
  [ "https://docs.google.com/spreadsheets/d/" ++ sheet_id ++ "/export?format=csv&gid=0";
    "https://docs.google.com/spreadsheets/d/" ++ sheet_id ++ "/export?format=csv";
    "https://docs.google.com/spreadsheets/d/" ++ sheet_id ++ "/gviz/tq?tqx=out:csv&gid=0" ].

(** The first [try] block: [Ok (Some df)] is [return df], [Ok None] is
    falling out of the [if]. *)
Definition try_local_file (w : World) : result (option DataFrame) :=
  df <- read_csv_file w local_file ;;
  if validate df then Ok (Some df) else Ok None.

(** The body of the [try] inside the loop over the URLs. *)
Definition try_url (w : World) (url : string) : result (option DataFrame) :=
  response <- requests_get w url ;;
  _ <- raise_for_status response ;;
  match response_text response with
  | [] => Ok None
  | _ :: _ =>
      if negb (startswith doctype (strip (response_text response))) then
        df <- read_csv_text w (response_text response) ;;
        if validate df then
          _ <- to_csv w df local_file ;;
          Ok (Some df)
        else Ok None
      else Ok None
  end.

(** The [for url in urls_to_try] loop; [except Exception: continue] and a
    body that ends without returning both go on to the next URL. *)
Fixpoint try_urls (w : World) (urls : list string) : option DataFrame :=
  match urls with
  | [] => None
  | url :: rest =>
      match try_url w url with
      | Ok (Some df) => Some df
      | Ok None => try_urls w rest
      | Raise _ => try_urls w rest
      end
  end.

(** The part of the loader after the local file: the Google Sheets block
    and the final fallback.  Nothing in the outer [try] can raise once the
    loop has caught its own exceptions, so its handler is never entered;
    [create_sample_data] runs outside every handler. *)
Definition load_remote_or_sample (w : World) (shown : list notice)
  : result Outcome :=
  match try_urls w urls_to_try with
  | Some df => Ok (mkOutcome df (Some df) (shown ++ [LoadedGoogleSheets]))
  | None =>
      let (df, _) := create_sample_data (random_state w) in
      Ok (mkOutcome df None
            (shown ++ [CouldNotAccessGoogleSheets; UsingSampleData]))
  end.

(** One run of the body of [load_gco_data]; the memoisation that
    [st.cache_data] wraps around it is not part of the body. *)
Definition load_gco_data (w : World) : result Outcome :=
  if path_exists w local_file then
    match try_local_file w with
    | Ok (Some df) => Ok (mkOutcome df None [LoadedLocalFile])
    | Ok None => load_remote_or_sample w []
    | Raise e => load_remote_or_sample w [CouldNotReadLocalFile e]
    end
  else load_remote_or_sample w [].

(** ** The data model of the specification *)

Definition is_numeric (v : value) : bool :=
  match v with
  | VStr _ => false
  | _ => true
  end.

Definition is_label (v : value) : bool :=
  match v with
  | VNum _ => false
  | _ => true
  end.

(** The column is present and holds numbers or missing values only. *)
Definition numeric_column (df : DataFrame) (name : string) : bool :=
  match index_of name (columns df) with
  | Some i => forallb (fun r => is_numeric (cell i r)) (rows df)
  | None => false
  end.

(** The column is present and holds strings or missing values only. *)
Definition label_column (df : DataFrame) (name : string) : bool :=
  match index_of name (columns df) with
  | Some i => forallb (fun r => is_label (cell i r)) (rows df)
  | None => false
  end.

(** A Dataset of section 3: the three identifier columns and the five
    score and count columns, each of its kind. *)
Definition conforms (df : DataFrame) : bool :=
  forallb (label_column df) ["Player"; "Tournament"; "Game"]
  && forallb (numeric_column df)
       ["Net_Score"; "Birdies"; "Pars"; "Bogeys"; "Double_Bogeys"].

(** The rows of [df] whose field [name] is the string [s]. *)
Definition rows_where (df : DataFrame) (name s : string) : list (list value) :=
  match index_of name (columns df) with
  | Some i => filter (fun r => value_eq_str s (cell i r)) (rows df)
  | None => []
  end.

(** The values of a numeric field over some rows, missing ones dropped. *)
Definition field_values (df : DataFrame) (name : string)
    (rs : list (list value)) : list Q :=
  match index_of name (columns df) with
  | Some i =>
      flat_map (fun r => match cell i r with
                         | VNum q => [q]
                         | _ => []
                         end) rs
  | None => []
  end.

(** Equality of displayed numbers, up to the representation of the
    rational. *)
Definition number_eq (a b : number) : Prop :=
  match a, b with
  | NaN, NaN => True
  | Num x, Num y => (x == y)%Q
  | Sqrt x, Sqrt y => (x == y)%Q
  | _, _ => False
  end.

(** The value in the reals of a displayed number (0 for NaN). *)
Definition real_of (n : number) : R :=
  match n with
  | NaN => 0%R
  | Num q => Q2R q
  | Sqrt q => sqrt (Q2R q)
  end.

(** The sample standard deviation as section 4.2 words it: the squared
    deviations from the arithmetic mean, summed, over [n - 1]; undefined
    below two values. *)
Definition arithmetic_mean (l : list Q) : Q := (Qsum l / Qlen l)%Q.

Definition sample_variance (l : list Q) : Q :=
  (Qsum (map (fun x => (x - arithmetic_mean l) ^ 2) l) / (Qlen l - 1))%Q.

Definition sample_std (l : list Q) : number :=
  match l with
  | [] | [_] => NaN
  | _ => Sqrt (sample_variance l)
  end.

(** ** Definitions used by the statements *)

(** The statistics of a player with at least one row, field by field. *)
Definition stats_of (df : DataFrame) (p : string) : Stats :=
  let rs := rows_where df "Player" p in
  let net := field_values df "Net_Score" rs in
  let birdies := field_values df "Birdies" rs in
  mkStats (length rs)
          (mean net) (of_option (Qmin_list net)) (of_option (Qmax_list net))
          (Qred (Qsum birdies))
          (Qred (Qsum (field_values df "Pars" rs)))
          (Qred (Qsum (field_values df "Bogeys" rs)))
          (Qred (Qsum (field_values df "Double_Bogeys" rs)))
          (mean birdies)
          (match nanvar 1 net with
           | Some v => Sqrt v
           | None => NaN
           end).

(** The frame of [test_calculate_player_stats_empty_dataframe]. *)
Definition empty_df : DataFrame :=
  mkDataFrame ["Player"; "Net_Score"; "Birdies"; "Pars"; "Bogeys"; "Double_Bogeys"] [].

(** The frame of [test_duplicate_games_handling]. *)
Definition data_with_duplicates : DataFrame :=
  let n (z : Z) := VNum (inject_Z z) in
  mkDataFrame
    ["Player"; "Tournament"; "Game"; "Net_Score"; "Birdies"; "Pars"; "Bogeys";
     "Double_Bogeys"]
    [ [VStr "Player1"; VStr "提提卡卡杯"; VStr "Game1"; n 2; n 1; n 10; n 2; n 1];
      [VStr "Player1"; VStr "提提卡卡杯"; VStr "Game1"; n 3; n 2; n 11; n 1; n 0] ].

(** The order the sort establishes between the rows. *)
Definition ordered {A : Type} (key : A -> option Q) (x y : A) : Prop :=
  key_le (key x) (key y) = true.

Definition value_of (n : number) : value :=
  match n with
  | Num q => VNum q
  | _ => VNaN
  end.

(** The seven aggregates of one group, before rounding. *)
Definition agg_cells (df : DataFrame) (rs : list (list value)) : list value :=
  let net := field_values df "Net_Score" rs in
  [ VNum (Qred (Qsum net));
    value_of (mean net);
    VNum (inject_Z (Z.of_nat (length net)));
    VNum (Qred (Qsum (field_values df "Birdies" rs)));
    VNum (Qred (Qsum (field_values df "Pars" rs)));
    VNum (Qred (Qsum (field_values df "Bogeys" rs)));
    VNum (Qred (Qsum (field_values df "Double_Bogeys" rs))) ].

(** The index entry of one player in the aggregated frame. *)
Definition group_entry (td : DataFrame) (k : string) : string * list value :=
  (k, agg_cells td (rows_where td "Player" k)).

(** The entry of one player once rounded. *)
Definition rounded_entry (td : DataFrame) (k : string) : string * list value :=
  (k, map round_value (agg_cells td (rows_where td "Player" k))).

(** A row of the finished leaderboard. *)
Definition leaderboard_row (er : (string * list value) * value) : list value :=
  VStr (fst (fst er)) :: (snd (fst er) ++ [snd er])%list.

Definition final_columns : list string :=
  ("Player" :: leaderboard_columns ++ ["Rank"])%list.

(** The rows of the leaderboard, from the entries in sorted order. *)
Definition ranked (sorted : list (string * list value)) : list (list value) :=
  map leaderboard_row (combine sorted (range1 (length sorted))).

Definition seven_cells (e : string * list value) : Prop :=
  length (snd e) = 7%nat /\ exists q, cell 0 (snd e) = VNum q.

(** The total of an entry, read from its first aggregate. *)
Definition total_of (e : string * list value) : Q :=
  match sort_key 0 e with
  | Some q => q
  | None => 0%Q
  end.


(** A dataset with a single record. *)
Definition single_record_data : DataFrame :=
  let n (z : Z) := VNum (inject_Z z) in
  mkDataFrame
    ["Player"; "Tournament"; "Game"; "Net_Score"; "Birdies"; "Pars"; "Bogeys";
     "Double_Bogeys"]
    [ [VStr "Solo"; VStr "暖男杯"; VStr "Game 5"; n 4; n 1; n 9; n 6; n 2] ].

(** The row of one player as the specification describes it: the mean net
    score, the total of birdies, the birdies per game and the consistency,
    over the rows of that player. *)
Definition comparison_row (df : DataFrame) (p : string) : ComparisonRow :=
  let rs := rows_where df "Player" p in
  let net := field_values df "Net_Score" rs in
  let birdies := field_values df "Birdies" rs in
  mkComparisonRow p (mean net) (Qred (Qsum birdies)) (mean birdies)
                  (match nanvar 1 net with
                   | Some v => Sqrt v
                   | None => NaN
                   end).

Definition has_rows (df : DataFrame) (p : string) : bool :=
  match rows_where df "Player" p with
  | [] => false
  | _ :: _ => true
  end.

Definition sample_columns : list string :=
  ["Player"; "Tournament"; "Game"; "Net_Score"; "Birdies"; "Pars"; "Bogeys";
   "Double_Bogeys"].

(** The combinations the three loops enumerate, in their order. *)
Definition combinations : list (string * string * string) :=
  flat_map (fun player =>
    flat_map (fun tournament =>
      map (fun game => (player, fst tournament, game)) (snd (snd tournament)))
      tournaments)
    players.

Definition in_range (lo hi : Z) (v : value) : Prop :=
  exists z : Z, v = VNum (inject_Z z) /\ lo <= z < hi.

(** A generated record: the eight keys in order, with every score and
    count inside the interval it was drawn from. *)
Definition generated (r : record) : Prop :=
  map fst r = sample_columns
  /\ in_range (-15) 20 (cell 3 (map snd r))
  /\ in_range 0 5 (cell 4 (map snd r))
  /\ in_range 5 15 (cell 5 (map snd r))
  /\ in_range 0 8 (cell 6 (map snd r))
  /\ in_range 0 4 (cell 7 (map snd r)).

Definition key_of (r : record) : value * value * value :=
  (cell 0 (map snd r), cell 1 (map snd r), cell 2 (map snd r)).

(** Decidable checks on the fixed lists. *)
Fixpoint nodupb {A : Type} (eqb : A -> A -> bool) (l : list A) : bool :=
  match l with
  | [] => true
  | x :: xs => negb (existsb (eqb x) xs) && nodupb eqb xs
  end.

Definition inclb (l1 l2 : list string) : bool :=
  forallb (fun x => existsb (String.eqb x) l2) l1.

Definition combination_eqb (a b : string * string * string) : bool :=
  String.eqb (fst (fst a)) (fst (fst b))
  && String.eqb (snd (fst a)) (snd (fst b))
  && String.eqb (snd a) (snd b).

(** The notices that can precede the Google Sheets block. *)
Definition only_warnings (shown : list notice) : Prop :=
  shown = [] \/ exists e, shown = [CouldNotReadLocalFile e].

(** Where a call of the loader ends. *)
Inductive load_case (w : World) (out : Outcome) : Prop :=
| FromLocalFile :
    path_exists w local_file = true ->
    try_local_file w = Ok (Some (returned out)) ->
    notices out = [LoadedLocalFile] ->
    load_case w out
| FromGoogleSheets (shown : list notice) :
    only_warnings shown ->
    try_urls w urls_to_try = Some (returned out) ->
    notices out = (shown ++ [LoadedGoogleSheets])%list ->
    load_case w out
| FromSampleData (shown : list notice) :
    only_warnings shown ->
    (path_exists w local_file = false
     \/ forall df, try_local_file w <> Ok (Some df)) ->
    try_urls w urls_to_try = None ->
    returned out = fst (create_sample_data (random_state w)) ->
    notices out = (shown ++ [CouldNotAccessGoogleSheets; UsingSampleData])%list ->
    load_case w out.

(** A machine without the cache file and without network. *)
Definition offline_world : World :=
  mkWorld (fun _ => false)
          (fun _ => Raise IOError)
          (fun _ => Raise RequestException)
          (fun _ => Raise ParserError)
          (fun _ _ => Ok tt)
          (fun _ => 0).

(** The response of [test_load_gco_data_success]: a CSV text with the four
    required columns and one record. *)
Definition four_column_text : text :=
  [
    80; 108; 97; 121; 101; 114; 44; 84; 111; 117; 114; 110; 97; 109; 101;
    110; 116; 44; 71; 97; 109; 101; 44; 78; 101; 116; 95; 83; 99; 111; 114;
    101; 10; 80; 108; 97; 121; 101; 114; 49; 44; 25552; 25552; 21345;
    21345; 26479; 44; 71; 97; 109; 101; 49; 44; 50
  ]%N.

Definition four_column_frame : DataFrame :=
  mkDataFrame ["Player"; "Tournament"; "Game"; "Net_Score"]
    [ [VStr "Player1"; VStr "提提卡卡杯"; VStr "Game1"; VNum (inject_Z 2)] ].

(** A machine without the cache file whose every request is answered with
    that text. *)
Definition sheets_world : World :=
  mkWorld (fun _ => false)
          (fun _ => Raise IOError)
          (fun _ => Ok (mkResponse true four_column_text))
          (fun _ => Ok four_column_frame)
          (fun _ _ => Ok tt)
          (fun _ => 0).

(** ["  <!DOCTYPE html>"], the start of an error page. *)
Definition html_text : text :=
  [32; 32; 60; 33; 68; 79; 67; 84; 89; 80; 69; 32; 104; 116; 109; 108; 62]%N.

(** A machine without the cache file whose every request is answered with
    an error page that would parse as a valid sheet. *)
Definition html_world : World :=
  mkWorld (fun _ => false)
          (fun _ => Raise IOError)
          (fun _ => Ok (mkResponse true html_text))
          (fun _ => Ok four_column_frame)
          (fun _ _ => Ok tt)
          (fun _ => 0).

Definition count_columns : list string :=
  ["Net_Score"; "Birdies"; "Pars"; "Bogeys"; "Double_Bogeys"].

(** What the loader leaves behind on [sheets_world]. *)
Definition sheets_outcome : Outcome :=
  mkOutcome four_column_frame (Some four_column_frame) [LoadedGoogleSheets].

(** ** Further definitions used by the statements *)

(** The columns [calculate_player_stats] reads once a player has rows, in
    the order in which it first reads them. *)
Definition stat_columns : list string :=
  ["Net_Score"; "Birdies"; "Pars"; "Bogeys"; "Double_Bogeys"].

(** A column that is absent, or holds numbers and missing values only. *)
Definition numeric_if_present (df : DataFrame) (name : string) : bool :=
  match index_of name (columns df) with
  | Some i => forallb (fun r => is_numeric (cell i r)) (rows df)
  | None => true
  end.

(** The first of the statistic columns that the frame lacks. *)
Definition first_missing (df : DataFrame) : option string :=
  find (fun c => negb (has_column df c)) stat_columns.

(** A frame with the player and the net score only. *)
Definition two_column_frame : DataFrame :=
  mkDataFrame ["Player"; "Net_Score"]
    [ [VStr "Player1"; VNum (inject_Z 2)]; [VStr "Player1"; VNaN] ].

(** The frame of [test_missing_values_handling]. *)
Definition data_with_nan : DataFrame :=
  let n (z : Z) := VNum (inject_Z z) in
  mkDataFrame
    ["Player"; "Tournament"; "Game"; "Net_Score"; "Birdies"; "Pars"; "Bogeys";
     "Double_Bogeys"]
    [ [VStr "Player1"; VStr "提提卡卡杯"; VStr "Game1"; n 2; n 1; n 10; n 2; n 1];
      [VStr "Player2"; VStr "暖男杯"; VStr "Game2"; VNaN; n 2; n 11; n 1; n 0] ].

(** A machine without the cache file whose sheet is valid but whose disk
    refuses the cache file. *)
Definition read_only_world : World :=
  mkWorld (fun _ => false)
          (fun _ => Raise IOError)
          (fun _ => Ok (mkResponse true four_column_text))
          (fun _ => Ok four_column_frame)
          (fun _ _ => Raise IOError)
          (fun _ => 0).

(** A machine whose first URL fails and whose other URLs answer with the
    four-column sheet. *)
Definition second_url_world : World :=
  mkWorld (fun _ => false)
          (fun _ => Raise IOError)
          (fun url => if String.eqb url (hd "" urls_to_try)
                      then Raise RequestException
                      else Ok (mkResponse true four_column_text))
          (fun _ => Ok four_column_frame)
          (fun _ _ => Ok tt)
          (fun _ => 0).

(** Python compares strings by code point, which on UTF-8 bytes is the
    order of [String.compare]. *)
Definition string_lt (a b : string) : Prop := String.compare a b = Lt.

(** The player [p] has a record in the tournament [t]. *)
Definition has_record (df : DataFrame) (p t : string) : Prop :=
  exists r, In r (rows_where df "Player" p) /\ In r (rows_where df "Tournament" t).

(** ** [create_player_performance_chart] *)

(** The sort key of a cell of a string column; [None] is a missing
    value. *)
Definition label_key (v : value) : option string :=
  match v with
  | VStr s => Some s
  | _ => None
  end.

(** Order of the string keys: ascending, missing values last. *)
Definition label_le (a b : option string) : bool :=
  match a, b with
  | Some x, Some y => String.leb x y
  | _, None => true
  | None, Some _ => false
  end.

Section SortOn.
Context {A K : Type} (le : K -> K -> bool) (key : A -> K).

Fixpoint insert_on (x : A) (l : list A) : list A :=
  match l with
  | [] => [x]
  | y :: ys =>
      if le (key x) (key y) then x :: y :: ys
      else y :: insert_on x ys
  end.

Definition sort_on (l : list A) : list A :=
  fold_right insert_on [] l.
End SortOn.

(** [df.sort_values(by)] on a frame: ascending, NaN last.  A column of
    strings is sorted as strings and a column of numbers as numbers; a
    column that mixes the two is outside the data model.  As for
    [sort_values] above, the order of equal keys is that of a stable
    sort. *)
Definition DataFrame_sort_values (df : DataFrame) (by_ : string)
  : result DataFrame :=
  match index_of by_ (columns df) with
  | None => Raise (KeyError by_)
  | Some i =>
      let keys := map (cell i) (rows df) in
      if forallb is_label keys then
        Ok (mkDataFrame (columns df)
              (sort_on label_le (fun r => label_key (cell i r)) (rows df)))
      else if forallb is_numeric keys then
        Ok (mkDataFrame (columns df)
              (sort_by (fun r => match cell i r with
                                 | VNum q => Some q
                                 | _ => None
                                 end) (rows df)))
      else Raise OutOfModel
  end.

(** The data of a [go.Scatter] trace. *)
Record Scatter : Type := mkScatter {
  scatter_x : Series;
  scatter_y : Series;
  scatter_name : string
}.

(** What a figure shows: its traces, the horizontal reference lines and
    the title.  Colours, markers and layout are not kept. *)
Record Figure : Type := mkFigure {
  traces : list Scatter;
  hlines : list Q;
  title : string
}.

(** [.copy()] is the identity on values; the plotting calls raise
    nothing. *)
Definition create_player_performance_chart (df : DataFrame)
    (player_name : string) : result Figure :=
  player_col <- getitem df "Player" ;;
  let player_data := getitem_mask df (series_eq player_col player_name) in
  player_data <- DataFrame_sort_values player_data "Game" ;;
  x <- getitem player_data "Game" ;;
  y <- getitem player_data "Net_Score" ;;
  Ok (mkFigure [mkScatter x y "Net Score"] [0%Q]
               (player_name ++ " - Performance Trend")).

(** The cell of a row under a column label (NaN without the column). *)
Definition field (df : DataFrame) (name : string) (r : list value) : value :=
  match index_of name (columns df) with
  | Some i => cell i r
  | None => VNaN
  end.

(** A series in ascending order of its strings, missing values last. *)
Definition label_sorted (ser : Series) : Prop :=
  StronglySorted (fun a b => label_le (label_key a) (label_key b) = true) ser.

(** The games of the sample data in the order of Python strings. *)
Definition games_in_string_order : list string :=
  ["Game 1"; "Game 10"; "Game 11"; "Game 12"; "Game 2"; "Game 3"; "Game 4";
   "Game 5"; "Game 6"; "Game 7"; "Game 8"; "Game 9"].

(** The three identifiers of a generated record are strings. *)
Definition labelled (r : record) : Prop :=
  exists p t g, map snd (firstn 3 r) = [VStr p; VStr t; VStr g].

(** ** [create_comparison_chart] *)

(** The column labels of [pd.DataFrame(comparison_data)]: the keys of the
    dictionaries, hence none when the list is empty. *)
Definition comparison_columns (data : list ComparisonRow) : list string :=
  match data with
  | [] => []
  | _ :: _ => ["Player"; "Avg_Net_Score"; "Total_Birdies"; "Birdie_Rate";
               "Consistency"]
  end.

(** [comparison_df[name]], the column being read through [proj]. *)
Definition comparison_getitem {X : Type} (data : list ComparisonRow)
    (name : string) (proj : ComparisonRow -> X) : result (list X) :=
  match index_of name (comparison_columns data) with
  | Some _ => Ok (map proj data)
  | None => Raise (KeyError name)
  end.

(** The data of a [go.Bar] trace. *)
Record Bar : Type := mkBar {
  bar_x : list string;
  bar_y : list number;
  bar_name : string
}.

(** The four bar traces of the comparison figure, in the order in which
    they are added; each reads the Player column, then its own. *)
Definition create_comparison_chart (df : DataFrame)
    (players_to_compare : list string) : result (list Bar) :=
  data <- comparison_data df players_to_compare ;;
  x1 <- comparison_getitem data "Player" Player ;;
  y1 <- comparison_getitem data "Avg_Net_Score" Avg_Net_Score ;;
  x2 <- comparison_getitem data "Player" Player ;;
  y2 <- comparison_getitem data "Total_Birdies" (fun r => Num (Total_Birdies r)) ;;
  x3 <- comparison_getitem data "Player" Player ;;
  y3 <- comparison_getitem data "Birdie_Rate" Birdie_Rate ;;
  x4 <- comparison_getitem data "Player" Player ;;
  y4 <- comparison_getitem data "Consistency" Consistency ;;
  Ok [ mkBar x1 y1 "Avg Net Score"; mkBar x2 y2 "Total Birdies";
       mkBar x3 y3 "Birdie Rate"; mkBar x4 y4 "Consistency" ].

(** ** [main] *)

(** Equality of cells as pandas hashes them: numbers by value, NaN equal
    to NaN. *)
Definition value_eqb (a b : value) : bool :=
  match a, b with
  | VNum x, VNum y => Qeq_bool x y
  | VStr x, VStr y => String.eqb x y
  | VNaN, VNaN => true
  | _, _ => false
  end.

Fixpoint unique_from (seen : list value) (ser : Series) : list value :=
  match ser with
  | [] => []
  | v :: rest =>
      if existsb (value_eqb v) seen then unique_from seen rest
      else v :: unique_from (v :: seen) rest
  end.

(** [series.unique()]: the distinct values in order of first appearance,
    NaN included. *)
Definition unique (ser : Series) : list value := unique_from [] ser.

Definition notna (v : value) : bool :=
  match v with
  | VNaN => false
  | _ => true
  end.

(** [series.nunique()]: the number of distinct values, NaN left out. *)
Definition nunique (ser : Series) : nat := length (filter notna (unique ser)).

(** [sorted(values)] for a list of strings.  A list holding anything else
    is outside the data model (Python refuses to compare a string with a
    float). *)
Definition sorted (l : list value) : result (list string) :=
  ks <- mapM (fun v => match v with
                       | VStr s => Ok s
                       | _ => Raise OutOfModel
                       end) l ;;
  Ok (sort_on String.leb (fun s => s) ks).

(** [series.isin(values)] *)
Definition isin (ser : Series) (vals : list value) : list bool :=
  map (fun v => existsb (value_eqb v) vals) ser.

(** [mask1 & mask2] *)
Definition mask_and (a b : list bool) : list bool :=
  map (fun p => andb (fst p) (snd p)) (combine a b).

(** [df.head(n)] *)
Definition head (n : nat) (df : DataFrame) : DataFrame :=
  mkDataFrame (columns df) (firstn n (rows df)).

(** [sorted(df['Player'].unique())], the options of the player widgets. *)
Definition player_options (df : DataFrame) : result (list string) :=
  player_col <- getitem df "Player" ;;
  sorted (unique player_col).

Definition tournament_names : list string :=
  ["提提卡卡杯"; "暖男杯"; "凯尔特人杯"].

(** The four key metrics of the overview. *)
Record Metrics : Type := mkMetrics {
  metric_players : nat;
  metric_games : nat;
  metric_avg_score : number;
  metric_birdies : Q
}.

Definition overview_page (df : DataFrame) : result (Metrics * list DataFrame) :=
  player_col <- getitem df "Player" ;;
  game_col <- getitem df "Game" ;;
  net <- getitem df "Net_Score" ;;
  avg_score <- Series_mean net ;;
  birdies <- getitem df "Birdies" ;;
  total_birdies <- Series_sum birdies ;;
  leaderboards <- mapM (create_tournament_leaderboard df) tournament_names ;;
  Ok (mkMetrics (nunique player_col) (nunique game_col) avg_score total_birdies,
      leaderboards).

(** [if selected:] on the answer of a select box: [None] and the empty
    string are false. *)
Definition truthy (selected : option string) : option string :=
  match selected with
  | Some "" => None
  | other => other
  end.

Definition player_statistics_page (df : DataFrame)
    (selectbox : list string -> option string) : result (option (Stats * Figure)) :=
  players <- player_options df ;;
  match truthy (selectbox players) with
  | None => Ok None
  | Some selected_player =>
      stats <- calculate_player_stats df selected_player ;;
      match stats with
      | None => Ok None
      | Some st =>
          fig <- create_player_performance_chart df selected_player ;;
          Ok (Some (st, fig))
      end
  end.

(** The leaderboard and the two columns of its first ten rows that
    [px.bar] draws; the drawing itself is taken to raise nothing. *)
Definition tournament_analysis_page (df : DataFrame)
    (selectbox : list string -> option string)
  : result (option (DataFrame * (Series * Series))) :=
  match truthy (selectbox tournament_names) with
  | None => Ok None
  | Some tournament =>
      leaderboard <- create_tournament_leaderboard df tournament ;;
      let top := head 10 leaderboard in
      x <- getitem top "Player" ;;
      y <- getitem top "Total_Score" ;;
      Ok (Some (leaderboard, (x, y)))
  end.

(** A row of the comparison table; the numbers are kept as they are, the
    one-decimal formatting of the display is not modelled. *)
Record TableRow : Type := mkTableRow {
  row_player : string;
  row_avg_score : number;
  row_best_score : number;
  row_total_birdies : Q;
  row_birdie_rate : number;
  row_games_played : nat
}.

Fixpoint comparison_table (df : DataFrame) (selected_players : list string)
  : result (list TableRow) :=
  match selected_players with
  | [] => Ok []
  | player :: rest =>
      stats <- calculate_player_stats df player ;;
      tail <- comparison_table df rest ;;
      Ok (match stats with
          | Some st =>
              mkTableRow player (avg_net_score st) (best_score st)
                         (total_birdies st) (birdie_rate st) (total_games st)
              :: tail
          | None => tail
          end)
  end.

(** [multiselect options default] is the answer of [st.multiselect]. *)
Definition player_comparison_page (df : DataFrame)
    (multiselect : list string -> list string -> list string)
  : result (option (list Bar * list TableRow)) :=
  players <- player_options df ;;
  let default := if (3 <=? length players)%nat then firstn 3 players
                 else players in
  let selected_players := multiselect players default in
  if (2 <=? length selected_players)%nat then
    fig <- create_comparison_chart df selected_players ;;
    table <- comparison_table df selected_players ;;
    Ok (Some (fig, table))
  else Ok None.

(** The filtered frame of the live data view; the download button, which
    only serialises it, is not modelled. *)
Definition live_data_page (df : DataFrame)
    (tournament_multiselect : list value -> list value -> list value)
    (player_multiselect : list string -> list string -> list string)
  : result DataFrame :=
  tournament_col <- getitem df "Tournament" ;;
  let tournament_options := unique tournament_col in
  let tournament_filter :=
    tournament_multiselect tournament_options tournament_options in
  players <- player_options df ;;
  let player_filter := player_multiselect players players in
  player_col <- getitem df "Player" ;;
  Ok (getitem_mask df (mask_and (isin tournament_col tournament_filter)
                                (isin player_col (map VStr player_filter)))).

Inductive Page : Type :=
| Overview
| PlayerStatistics
| TournamentAnalysis
| PlayerComparison
| LiveData.

(** What the user answers to the widgets of one run. *)
Record Widgets : Type := mkWidgets {
  page : Page;
  player_selectbox : list string -> option string;
  tournament_selectbox : list string -> option string;
  players_multiselect : list string -> list string -> list string;
  tournament_filter_multiselect : list value -> list value -> list value;
  player_filter_multiselect : list string -> list string -> list string
}.

(** What one run of [main] displays. *)
Inductive Screen : Type :=
| NoDataAvailable
| OverviewScreen (metrics : Metrics) (leaderboards : list DataFrame)
| PlayerStatisticsScreen (shown : option (Stats * Figure))
| TournamentAnalysisScreen (shown : option (DataFrame * (Series * Series)))
| PlayerComparisonScreen (shown : option (list Bar * list TableRow))
| LiveDataScreen (filtered : DataFrame).

Definition main (w : World) (ui : Widgets) : result Screen :=
  out <- load_gco_data w ;;
  let df := returned out in
  if empty df then Ok NoDataAvailable
  else
    match page ui with
    | Overview =>
        r <- overview_page df ;; Ok (OverviewScreen (fst r) (snd r))
    | PlayerStatistics =>
        r <- player_statistics_page df (player_selectbox ui) ;;
        Ok (PlayerStatisticsScreen r)
    | TournamentAnalysis =>
        r <- tournament_analysis_page df (tournament_selectbox ui) ;;
        Ok (TournamentAnalysisScreen r)
    | PlayerComparison =>
        r <- player_comparison_page df (players_multiselect ui) ;;
        Ok (PlayerComparisonScreen r)
    | LiveData =>
        r <- live_data_page df (tournament_filter_multiselect ui)
                            (player_filter_multiselect ui) ;;
        Ok (LiveDataScreen r)
    end.

(** The column is present and has no missing value. *)
Definition no_missing (df : DataFrame) (name : string) : bool :=
  match index_of name (columns df) with
  | Some i => forallb (fun r => notna (cell i r)) (rows df)
  | None => false
  end.

(** The widgets answer with options they were given (the defaults of a
    multiselect being options themselves). *)
Definition widgets_sound (ui : Widgets) : Prop :=
  (forall options p, player_selectbox ui options = Some p -> In p options)
  /\ (forall options default,
        incl default options ->
        incl (players_multiselect ui options default) options).

(** A user who takes the first option and keeps every default. *)
Definition default_widgets (p : Page) : Widgets :=
  mkWidgets p (fun options => List.hd_error options)
            (fun options => List.hd_error options)
            (fun _ default => default) (fun _ default => default)
            (fun _ default => default).

(** The first occurrences of the strings of a list, those of [seen]
    left out. *)
Fixpoint dedupe_from (seen : list string) (ss : list string) : list string :=
  match ss with
  | [] => []
  | s :: rest =>
      if existsb (String.eqb s) seen then dedupe_from seen rest
      else s :: dedupe_from (s :: seen) rest
  end.

(** The strings of a series, when it holds nothing else. *)
Fixpoint strings_of (ser : Series) : list string :=
  match ser with
  | VStr s :: rest => s :: strings_of rest
  | _ :: rest => strings_of rest
  | [] => []
  end.

(** A machine whose cache file holds the frame of the leaderboard test. *)
Definition cached_world : World :=
  mkWorld (fun _ => true)
          (fun _ => Ok tournament_data)
          (fun _ => Raise RequestException)
          (fun _ => Raise ParserError)
          (fun _ _ => Ok tt)
          (fun _ => 0).

Definition cached_outcome : Outcome :=
  mkOutcome tournament_data None [LoadedLocalFile].

(** A cell that holds a whole number or is missing. *)
Definition is_whole (v : value) : bool :=
  match v with
  | VNum q => Qeq_bool q (inject_Z (Qfloor q))
  | VNaN => true
  | VStr _ => false
  end.

(** The column is present and holds whole numbers and missing values
    only. *)
Definition whole_column (df : DataFrame) (name : string) : bool :=
  match index_of name (columns df) with
  | Some i => forallb (fun r => is_whole (cell i r)) (rows df)
  | None => false
  end.

(** ** The leaderboard against the records *)

(** The total net score of player [p] in tournament [t]: the sum of the
    recorded net scores of the rows of that player and tournament. *)
Definition total_net_score (df : DataFrame) (t p : string) : Q :=
  let td := mkDataFrame (columns df) (rows_where df "Tournament" t) in
  Qsum (field_values td "Net_Score" (rows_where td "Player" p)).

(** Order of two rows after a sort that keeps equal keys in their incoming
    order [R]: the keys ascend, and rows with equal keys are in the order
    [R]. *)
Definition tie_ordered {A : Type} (key : A -> option Q) (R : A -> A -> Prop)
    (x y : A) : Prop :=
  ordered key x y /\ (ordered key y x -> R x y).

(** The order of the group keys, on the entries of the aggregated frame. *)
Definition by_player (x y : string * list value) : Prop :=
  string_lt (fst x) (fst y).


(** * Properties *)

(** ** The embedding on the inputs of the test suite *)

(** [test_create_tournament_leaderboard]: three players, Player3 first. *)
Example leaderboard_of_test_data :
  let n (z : Z) := VNum (inject_Z z) in
  create_tournament_leaderboard tournament_data "提提卡卡杯"
  = Ok (mkDataFrame
          ["Player"; "Total_Score"; "Avg_Score"; "Games_Played";
           "Total_Birdies"; "Total_Pars"; "Total_Bogeys";
           "Total_Double_Bogeys"; "Rank"]
          [ [VStr "Player3"; n (-1); VNum (-1 # 2); n 2; n 4; n 18; n 3; n 1; n 1];
            [VStr "Player1"; n 1; VNum (1 # 2); n 2; n 3; n 21; n 3; n 1; n 2];
            [VStr "Player2"; n 3; VNum (3 # 2); n 2; n 1; n 21; n 4; n 2; n 3] ]).
Proof. vm_compute. reflexivity. Qed.

(** A missing column is a [KeyError], as in pandas. *)
Example stats_without_birdies :
  calculate_player_stats four_column_frame "Player1" = Raise (KeyError "Birdies").
Proof. vm_compute. reflexivity. Qed.

(** Ties go to the even neighbour. *)
Example round2_examples :
  round2 (1 # 3) = (33 # 100)%Q /\ round2 (1 # 8) = (3 # 25)%Q
  /\ round2 (3 # 8) = (19 # 50)%Q /\ round2 (- (1 # 8)) = (- (3 # 25))%Q.
Proof. repeat split; vm_compute; reflexivity. Qed.

(** An HTML page is not parsed: every URL is passed over and nothing is
    written to the cache. *)
Example html_answer_is_skipped :
  try_url html_world (hd "" urls_to_try) = Ok None
  /\ try_urls html_world urls_to_try = None.
Proof. split; vm_compute; reflexivity. Qed.

(** A failing [to_csv] is caught by the handler of the loop, which then
    goes on to the next URL. *)
Example failed_cache_write_is_skipped :
  try_urls (mkWorld (fun _ => false) (fun _ => Raise IOError)
                    (fun _ => Ok (mkResponse true four_column_text))
                    (fun _ => Ok four_column_frame)
                    (fun _ _ => Raise IOError)
                    (fun _ => 0))
           urls_to_try
  = None.
Proof. vm_compute. reflexivity. Qed.

(** ** Frames *)

Lemma select_map {A : Type} (f : A -> bool) (l : list A) :
  select (map f l) l = filter f l.
Proof.
  induction l as [|x xs IH]; simpl; [reflexivity|].
  now destruct (f x); rewrite IH.
Qed.

Lemma select_mask_rows (df : DataFrame) (i : nat) (s : string) :
  select (series_eq (map (cell i) (rows df)) s) (rows df)
  = filter (fun r => value_eq_str s (cell i r)) (rows df).
Proof.
  unfold series_eq. rewrite map_map.
  apply (select_map (fun r => value_eq_str s (cell i r))).
Qed.

Lemma index_of_nonempty (name : string) (cols : list string) (i : nat) :
  index_of name cols = Some i -> cols <> [].
Proof. destruct cols; simpl; congruence. Qed.

Lemma has_column_index (df : DataFrame) (name : string) :
  has_column df name = true -> exists i, index_of name (columns df) = Some i.
Proof.
  unfold has_column. destruct (index_of name (columns df)) as [i|]; [|discriminate].
  now exists i.
Qed.

Lemma empty_filtered (df : DataFrame) (rs : list (list value)) :
  columns df <> [] ->
  empty (mkDataFrame (columns df) rs) = match rs with [] => true | _ => false end.
Proof.
  unfold empty; simpl. intros H.
  destruct rs; [reflexivity|]. destruct (columns df); congruence.
Qed.

(** The masked frame of [calculate_player_stats], as a filter. *)
Lemma player_data_rows (df : DataFrame) (p : string) (i : nat) :
  index_of "Player" (columns df) = Some i ->
  getitem df "Player" = Ok (map (cell i) (rows df))
  /\ getitem_mask df (series_eq (map (cell i) (rows df)) p)
     = mkDataFrame (columns df) (rows_where df "Player" p).
Proof.
  intros Hi. unfold getitem, getitem_mask, rows_where. rewrite Hi.
  now rewrite select_mask_rows.
Qed.

(** ** Reductions over a numeric column *)

Lemma to_numeric_ok (ser : Series) :
  forallb is_numeric ser = true -> exists xs, to_numeric ser = Ok xs.
Proof.
  unfold to_numeric. induction ser as [|v vs IH]; simpl; intros H.
  - now exists [].
  - apply andb_prop in H as [Hv Hvs]. destruct (IH Hvs) as [xs Hxs].
    rewrite Hxs. destruct v; simpl in *; try discriminate; eauto.
Qed.

Lemma forallb_filter {A : Type} (f g : A -> bool) (l : list A) :
  forallb f l = true -> forallb f (filter g l) = true.
Proof.
  induction l as [|x xs IH]; simpl; [reflexivity|].
  intros H. apply andb_prop in H as [Hx Hxs].
  destruct (g x); simpl; [rewrite Hx|]; auto.
Qed.

Lemma forallb_over_map {A B : Type} (f : B -> bool) (g : A -> B) (l : list A) :
  forallb f (map g l) = forallb (fun x => f (g x)) l.
Proof. induction l as [|x xs IH]; simpl; [reflexivity|now rewrite IH]. Qed.

Lemma numeric_column_series (df : DataFrame) (name : string)
    (g : list value -> bool) :
  numeric_column df name = true ->
  exists i xs,
    index_of name (columns df) = Some i
    /\ getitem (mkDataFrame (columns df) (filter g (rows df))) name
       = Ok (map (cell i) (filter g (rows df)))
    /\ to_numeric (map (cell i) (filter g (rows df))) = Ok xs.
Proof.
  unfold numeric_column, getitem; simpl.
  destruct (index_of name (columns df)) as [i|]; [|discriminate].
  intros H. destruct (to_numeric_ok (map (cell i) (filter g (rows df)))) as [xs Hxs].
  - rewrite forallb_over_map. now apply forallb_filter.
  - now exists i, xs.
Qed.

Lemma dropna_to_numeric (ser : Series) (xs : list (option Q)) :
  to_numeric ser = Ok xs ->
  dropna xs = flat_map (fun v => match v with VNum q => [q] | _ => [] end) ser.
Proof.
  unfold to_numeric. revert xs.
  induction ser as [|v vs IH]; simpl; intros xs H.
  - now inversion H.
  - destruct v as [q|s|]; simpl in H; try discriminate;
      destruct (mapM _ vs) as [ys|e]; simpl in H; try discriminate;
      inversion H; subst; simpl; now rewrite (IH ys).
Qed.

Lemma flat_map_over_map {A B C : Type} (f : B -> list C) (g : A -> B) (l : list A) :
  flat_map f (map g l) = flat_map (fun x => f (g x)) l.
Proof. induction l as [|x xs IH]; simpl; [reflexivity|now rewrite IH]. Qed.

(** What every reduction of a conforming column works on. *)
Lemma numeric_column_values (df : DataFrame) (name : string)
    (g : list value -> bool) :
  numeric_column df name = true ->
  exists ser xs,
    getitem (mkDataFrame (columns df) (filter g (rows df))) name = Ok ser
    /\ to_numeric ser = Ok xs
    /\ dropna xs = field_values df name (filter g (rows df)).
Proof.
  intros H. destruct (numeric_column_series df name g H) as (i & xs & Hi & Hget & Hnum).
  exists (map (cell i) (filter g (rows df))), xs. repeat split; auto.
  rewrite (dropna_to_numeric _ _ Hnum). unfold field_values. rewrite Hi.
  now rewrite flat_map_over_map.
Qed.

Lemma conforms_numeric (df : DataFrame) :
  conforms df = true ->
  numeric_column df "Net_Score" = true /\ numeric_column df "Birdies" = true
  /\ numeric_column df "Pars" = true /\ numeric_column df "Bogeys" = true
  /\ numeric_column df "Double_Bogeys" = true.
Proof.
  unfold conforms. intros H. apply andb_prop in H as [_ H]. simpl in H.
  repeat (apply andb_prop in H as [? H]). auto.
Qed.

Lemma conforms_label (df : DataFrame) :
  conforms df = true ->
  label_column df "Player" = true /\ label_column df "Tournament" = true
  /\ label_column df "Game" = true.
Proof.
  unfold conforms. intros H. apply andb_prop in H as [H _]. simpl in H.
  repeat (apply andb_prop in H as [? H]). auto.
Qed.

Lemma label_column_index (df : DataFrame) (name : string) :
  label_column df name = true -> exists i, index_of name (columns df) = Some i.
Proof.
  unfold label_column. destruct (index_of name (columns df)) as [i|]; [|discriminate].
  now exists i.
Qed.

(** ** [calculate_player_stats] *)

Lemma calculate_player_stats_none (df : DataFrame) (p : string) :
  has_column df "Player" = true ->
  rows_where df "Player" p = [] ->
  calculate_player_stats df p = Ok None.
Proof.
  intros Hc Hr. destruct (has_column_index _ _ Hc) as [i Hi].
  destruct (player_data_rows df p i Hi) as [Hget Hmask].
  unfold calculate_player_stats. rewrite Hget; simpl. rewrite Hmask, Hr.
  reflexivity.
Qed.

Lemma calculate_player_stats_some (df : DataFrame) (p : string) :
  conforms df = true ->
  rows_where df "Player" p <> [] ->
  calculate_player_stats df p = Ok (Some (stats_of df p)).
Proof.
  intros Hc Hr.
  destruct (conforms_numeric df Hc) as (Hn & Hb & Hp & Hbo & Hd).
  destruct (conforms_label df Hc) as (Hl & _).
  destruct (label_column_index _ _ Hl) as [i Hi].
  destruct (player_data_rows df p i Hi) as [Hget Hmask].
  unfold calculate_player_stats. rewrite Hget; simpl. rewrite Hmask.
  rewrite empty_filtered by (eapply index_of_nonempty; eauto).
  unfold stats_of. destruct (rows_where df "Player" p) as [|r rs] eqn:Hrs;
    [congruence|]. clear Hr. rewrite <- Hrs.
  unfold rows_where in *. rewrite Hi in *.
  set (g := fun r0 : list value => value_eq_str p (cell i r0)) in *.
  destruct (numeric_column_values df "Net_Score" g Hn) as (s1 & x1 & G1 & N1 & D1).
  destruct (numeric_column_values df "Birdies" g Hb) as (s2 & x2 & G2 & N2 & D2).
  destruct (numeric_column_values df "Pars" g Hp) as (s3 & x3 & G3 & N3 & D3).
  destruct (numeric_column_values df "Bogeys" g Hbo) as (s4 & x4 & G4 & N4 & D4).
  destruct (numeric_column_values df "Double_Bogeys" g Hd) as (s5 & x5 & G5 & N5 & D5).
  rewrite G1, G2, G3, G4, G5; simpl.
  unfold Series_mean, Series_min, Series_max, Series_sum, Series_std.
  rewrite N1, N2, N3, N4, N5; simpl.
  rewrite D1, D2, D3, D4, D5. reflexivity.
Qed.

Ltac inspect_binds H :=
  repeat match type of H with
         | Py.bind ?m _ = _ => destruct m; simpl in H; try discriminate
         end.

(** C3: [calculate_player_stats] answers [None] exactly when no row of the
    dataset has the requested player in its Player field; in particular it
    answers [None] for every player on a dataset without rows. *)
Theorem player_stats_absent_iff_no_rows (df : DataFrame) (p : string) :
  has_column df "Player" = true ->
  (calculate_player_stats df p = Ok None <-> rows_where df "Player" p = [])
  /\ (rows df = [] -> calculate_player_stats df p = Ok None).
Proof.
  intros Hc. split; [split|].
  - intros H. destruct (has_column_index _ _ Hc) as [i Hi].
    destruct (player_data_rows df p i Hi) as [Hget Hmask].
    unfold calculate_player_stats in H. rewrite Hget in H; simpl in H.
    rewrite Hmask in H.
    rewrite empty_filtered in H by (eapply index_of_nonempty; eauto).
    destruct (rows_where df "Player" p) as [|r rs]; [reflexivity|].
    exfalso. inspect_binds H.
  - now apply calculate_player_stats_none.
  - intros Hrows. apply calculate_player_stats_none; [assumption|].
    unfold rows_where. rewrite Hrows. now destruct (index_of _ _).
Qed.

Lemma player_stats_absent_iff_no_rows_witness :
  has_column empty_df "Player" = true
  /\ ((calculate_player_stats empty_df "AnyPlayer" = Ok None
       <-> rows_where empty_df "Player" "AnyPlayer" = [])
      /\ (rows empty_df = [] -> calculate_player_stats empty_df "AnyPlayer" = Ok None)).
Proof.
  split; [reflexivity|].
  apply (player_stats_absent_iff_no_rows empty_df "AnyPlayer"). reflexivity.
Defined.

(** C5: for a player with at least one row, [total_games] is the number of
    rows of the dataset whose Player field is that player; rows that repeat
    a (player, game) pair are all counted. *)
Theorem total_games_counts_rows (df : DataFrame) (p : string) :
  conforms df = true ->
  rows_where df "Player" p <> [] ->
  (exists st, calculate_player_stats df p = Ok (Some st)
              /\ total_games st = length (rows_where df "Player" p))
  /\ (exists st, calculate_player_stats data_with_duplicates "Player1" = Ok (Some st)
                 /\ total_games st = 2%nat).
Proof.
  intros Hc Hr. split.
  - exists (stats_of df p). split; [now apply calculate_player_stats_some|reflexivity].
  - eexists. split; [vm_compute; reflexivity|reflexivity].
Qed.

Lemma total_games_counts_rows_witness :
  conforms test_player_data = true
  /\ rows_where test_player_data "Player" "TestPlayer" <> []
  /\ exists st, calculate_player_stats test_player_data "TestPlayer" = Ok (Some st)
                /\ total_games st = 5%nat.
Proof.
  split; [reflexivity|]. split; [discriminate|].
  destruct (total_games_counts_rows test_player_data "TestPlayer" eq_refl
              ltac:(discriminate)) as [[st [H1 H2]] _].
  exists st. split; [exact H1|exact H2].
Defined.

(** ** The consistency measure *)

Lemma Qsum_map_ext (f g : Q -> Q) (l : list Q) :
  (forall x, f x == g x)%Q -> (Qsum (map f l) == Qsum (map g l))%Q.
Proof.
  intros H. induction l as [|x xs IH]; simpl; [reflexivity|].
  now rewrite IH, (H x).
Qed.

Lemma nanvar_sample_std (l : list Q) :
  number_eq (match nanvar 1 l with Some v => Sqrt v | None => NaN end)
            (sample_std l).
Proof.
  destruct l as [|a [|b l]]; try exact I.
  unfold nanvar, sample_std. change (length (a :: b :: l) <=? 1)%nat with false.
  cbv beta iota zeta. unfold number_eq, sample_variance, arithmetic_mean.
  rewrite Qred_correct.
  set (m := (Qsum (a :: b :: l) / Qlen (a :: b :: l))%Q).
  assert (Hd : (inject_Z (Z.of_nat (length (a :: b :: l) - 1))
                == Qlen (a :: b :: l) - 1)%Q).
  { unfold Qlen. rewrite Nat2Z.inj_sub by (simpl; lia).
    unfold Z.sub. rewrite inject_Z_plus. reflexivity. }
  rewrite Hd.
  rewrite (Qsum_map_ext (fun x => (m - x) * (m - x))%Q (fun x => (x - m) ^ 2)%Q).
  - reflexivity.
  - intros x. simpl. ring.
Qed.

Lemma field_values_length (df : DataFrame) (name : string) (rs : list (list value)) :
  (length (field_values df name rs) <= length rs)%nat.
Proof.
  unfold field_values. destruct (index_of name (columns df)) as [i|]; [|simpl; lia].
  induction rs as [|r rs IH]; simpl; [lia|].
  rewrite length_app. destruct (cell i r); simpl; lia.
Qed.

Lemma sqrt_3_7_bounds :
  (Rabs (sqrt (Q2R (37 # 10)) - 1924 / 1000) < 1 / 1000)%R.
Proof.
  assert (Hq : Q2R (37 # 10) = (37 / 10)%R) by (unfold Q2R; simpl; lra).
  rewrite Hq.
  assert (Hlo : (19235 / 10000 < sqrt (37 / 10))%R).
  { rewrite <- (sqrt_square (19235 / 10000)) at 1 by lra.
    apply sqrt_lt_1_alt. lra. }
  assert (Hhi : (sqrt (37 / 10) < 19245 / 10000)%R).
  { rewrite <- (sqrt_square (19245 / 10000)) by lra.
    apply sqrt_lt_1_alt. lra. }
  apply Rabs_def1; lra.
Qed.

(** C4: on the five scores -2, 1, 0, 3, -1 of one player the average is
    0.2, the best score -2, the worst 3 and the consistency the square root
    of 3.7, within a thousandth of 1.924; for every player with a row the
    consistency is the sample standard deviation (divisor n-1) of the
    player's net scores, and it is NaN when the player has one row only. *)
Theorem consistency_is_sample_std (df : DataFrame) (p : string) :
  conforms df = true ->
  rows_where df "Player" p <> [] ->
  (exists st,
      calculate_player_stats test_player_data "TestPlayer" = Ok (Some st)
      /\ number_eq (avg_net_score st) (Num (2 # 10))
      /\ number_eq (best_score st) (Num (-2 # 1))
      /\ number_eq (worst_score st) (Num (3 # 1))
      /\ number_eq (consistency st) (Sqrt (37 # 10))
      /\ (Rabs (real_of (consistency st) - 1924 / 1000) < 1 / 1000)%R)
  /\ (exists st,
         calculate_player_stats df p = Ok (Some st)
         /\ number_eq (consistency st)
                      (sample_std (field_values df "Net_Score"
                                     (rows_where df "Player" p)))
         /\ (length (rows_where df "Player" p) = 1%nat -> consistency st = NaN)).
Proof.
  intros Hc Hr. split.
  - eexists. split; [vm_compute; reflexivity|].
    repeat split; try (vm_compute; reflexivity).
    cbn [consistency real_of]. apply sqrt_3_7_bounds.
  - exists (stats_of df p). split; [now apply calculate_player_stats_some|].
    split.
    + apply nanvar_sample_std.
    + intros Hone. cbn [stats_of consistency].
      pose proof (field_values_length df "Net_Score" (rows_where df "Player" p)) as Hl.
      rewrite Hone in Hl. unfold nanvar.
      destruct (field_values df "Net_Score" (rows_where df "Player" p)) as [|a [|b l]];
        simpl in *; try reflexivity; lia.
Qed.

Lemma consistency_is_sample_std_witness :
  conforms single_record_data = true
  /\ rows_where single_record_data "Player" "Solo" <> []
  /\ length (rows_where single_record_data "Player" "Solo") = 1%nat
  /\ exists st,
       calculate_player_stats single_record_data "Solo" = Ok (Some st)
       /\ consistency st = NaN.
Proof.
  split; [reflexivity|]. split; [discriminate|]. split; [reflexivity|].
  destruct (consistency_is_sample_std single_record_data "Solo" eq_refl
              ltac:(discriminate)) as [_ (st & H1 & _ & H3)].
  exists st. split; [exact H1|apply H3; reflexivity].
Defined.

(** ** Sorting *)

Lemma key_le_total (a b : option Q) : key_le a b = false -> key_le b a = true.
Proof.
  destruct a as [x|], b as [y|]; simpl; try congruence.
  intros H. apply Qle_bool_iff.
  destruct (Qlt_le_dec x y) as [Hlt|Hle]; [|assumption].
  apply Qlt_le_weak, Qle_bool_iff in Hlt. congruence.
Qed.

Lemma key_le_trans (a b c : option Q) :
  key_le a b = true -> key_le b c = true -> key_le a c = true.
Proof.
  destruct a as [x|], b as [y|], c as [z|]; simpl; try congruence.
  rewrite !Qle_bool_iff. apply Qle_trans.
Qed.

Section SortFacts.
Context {A : Type} (key : A -> option Q).

Lemma insert_sorted_perm (x : A) (l : list A) :
  Permutation (x :: l) (insert_sorted key x l).
Proof.
  induction l as [|y ys IH]; simpl; [reflexivity|].
  destruct (key_le (key x) (key y)); [reflexivity|].
  rewrite perm_swap. now constructor.
Qed.

Lemma sort_by_perm (l : list A) : Permutation l (sort_by key l).
Proof.
  induction l as [|x xs IH]; simpl; [constructor|].
  rewrite <- insert_sorted_perm. now constructor.
Qed.

Lemma sort_by_length (l : list A) : length (sort_by key l) = length l.
Proof. symmetry. apply Permutation_length, sort_by_perm. Qed.

Lemma insert_sorted_ordered (x : A) (l : list A) :
  StronglySorted (ordered key) l ->
  StronglySorted (ordered key) (insert_sorted key x l).
Proof.
  induction 1 as [|y ys Hs IH Hy]; simpl.
  - repeat constructor.
  - destruct (key_le (key x) (key y)) eqn:Hxy.
    + constructor; [now constructor|].
      constructor; [exact Hxy|].
      eapply Forall_impl; [|exact Hy].
      intros z Hz. unfold ordered in *. eapply key_le_trans; eauto.
    + constructor; [exact IH|].
      apply (Permutation_Forall (insert_sorted_perm x ys)).
      constructor; [|exact Hy].
      now apply key_le_total.
Qed.

Lemma sort_by_ordered (l : list A) : StronglySorted (ordered key) (sort_by key l).
Proof.
  induction l as [|x xs IH]; simpl; [constructor|].
  now apply insert_sorted_ordered.
Qed.

Lemma sort_by_Forall (P : A -> Prop) (l : list A) :
  Forall P l -> Forall P (sort_by key l).
Proof. apply Permutation_Forall, sort_by_perm. Qed.
End SortFacts.

(** ** [create_tournament_leaderboard] *)

Lemma mapM_total {A B : Type} (f : A -> result B) (f' : A -> B) (l : list A) :
  (forall x, In x l -> f x = Ok (f' x)) -> mapM f l = Ok (map f' l).
Proof.
  induction l as [|x xs IH]; simpl; intros H; [reflexivity|].
  rewrite (H x) by now left. simpl.
  rewrite IH by (intros y Hy; apply H; now right). reflexivity.
Qed.

Lemma group_keys_ok (ser : Series) :
  forallb is_label ser = true -> exists ks, group_keys ser = Ok ks.
Proof.
  induction ser as [|v vs IH]; simpl; intros H; [now exists []|].
  apply andb_prop in H as [Hv Hvs]. destruct (IH Hvs) as [ks Hks].
  destruct v; simpl in Hv; try discriminate; rewrite Hks; simpl; eauto.
Qed.

(** The frame left by a boolean mask keeps the kind of every column. *)
Lemma numeric_column_filter (df : DataFrame) (name : string)
    (g : list value -> bool) :
  numeric_column df name = true ->
  numeric_column (mkDataFrame (columns df) (filter g (rows df))) name = true.
Proof.
  unfold numeric_column; simpl.
  destruct (index_of name (columns df)); [|discriminate]. apply forallb_filter.
Qed.

Lemma label_column_filter (df : DataFrame) (name : string)
    (g : list value -> bool) :
  label_column df name = true ->
  label_column (mkDataFrame (columns df) (filter g (rows df))) name = true.
Proof.
  unfold label_column; simpl.
  destruct (index_of name (columns df)); [|discriminate]. apply forallb_filter.
Qed.

Lemma conforms_filter (df : DataFrame) (g : list value -> bool) :
  conforms df = true ->
  conforms (mkDataFrame (columns df) (filter g (rows df))) = true.
Proof.
  intros H. destruct (conforms_numeric df H) as (H1 & H2 & H3 & H4 & H5).
  destruct (conforms_label df H) as (L1 & L2 & L3).
  unfold conforms; simpl.
  rewrite !label_column_filter, !numeric_column_filter by assumption.
  reflexivity.
Qed.

Lemma value_of_number_mean (l : list Q) :
  value_of_number (mean l) = Ok (value_of (mean l)).
Proof. now destruct l. Qed.

Lemma aggregate_group (df : DataFrame) (g : list value -> bool) :
  conforms df = true ->
  mapM (fun lf => ser <- getitem (mkDataFrame (columns df) (filter g (rows df)))
                                 (fst lf) ;;
                  aggregate (snd lf) ser)
       (agg_labels leaderboard_agg)
  = Ok (agg_cells df (filter g (rows df))).
Proof.
  intros Hc. destruct (conforms_numeric df Hc) as (Hn & Hb & Hp & Hbo & Hd).
  destruct (numeric_column_values df "Net_Score" g Hn) as (s1 & x1 & G1 & N1 & D1).
  destruct (numeric_column_values df "Birdies" g Hb) as (s2 & x2 & G2 & N2 & D2).
  destruct (numeric_column_values df "Pars" g Hp) as (s3 & x3 & G3 & N3 & D3).
  destruct (numeric_column_values df "Bogeys" g Hbo) as (s4 & x4 & G4 & N4 & D4).
  destruct (numeric_column_values df "Double_Bogeys" g Hd) as (s5 & x5 & G5 & N5 & D5).
  cbn [agg_labels leaderboard_agg flat_map map fst snd app mapM].
  rewrite G1, G2, G3, G4, G5. cbn [Py.bind aggregate].
  unfold Series_mean, Series_sum, Series_count.
  rewrite N1, N2, N3, N4, N5. cbn [Py.bind].
  rewrite D1, D2, D3, D4, D5, value_of_number_mean. reflexivity.
Qed.

Lemma groupby_agg_conforming (td : DataFrame) :
  conforms td = true ->
  exists i ks,
    index_of "Player" (columns td) = Some i
    /\ group_keys (map (cell i) (rows td)) = Ok ks
    /\ groupby_agg td "Player" leaderboard_agg
       = Ok (mkGrouped "Player" (agg_labels leaderboard_agg)
                       (map (group_entry td) ks)).
Proof.
  intros Hc. destruct (conforms_label td Hc) as (Hl & _).
  destruct (conforms_numeric td Hc) as (Hn & Hb & Hp & Hbo & Hd).
  pose proof Hl as Hl'. unfold label_column in Hl'.
  destruct (index_of "Player" (columns td)) as [i|] eqn:Hi; [|discriminate].
  destruct (group_keys_ok (map (cell i) (rows td))) as [ks Hks].
  { now rewrite forallb_over_map. }
  exists i, ks. repeat split; auto.
  unfold groupby_agg, getitem at 1. rewrite Hi. cbn [Py.bind]. rewrite Hks. cbn [Py.bind].
  assert (Hcols : exists sers,
             mapM (fun cf : string * list aggfunc => getitem td (fst cf))
                  leaderboard_agg = Ok sers).
  { unfold numeric_column in Hn, Hb, Hp, Hbo, Hd.
    cbn [leaderboard_agg mapM fst]. unfold getitem.
    destruct (index_of "Net_Score" (columns td)); [|discriminate].
    destruct (index_of "Birdies" (columns td)); [|discriminate].
    destruct (index_of "Pars" (columns td)); [|discriminate].
    destruct (index_of "Bogeys" (columns td)); [|discriminate].
    destruct (index_of "Double_Bogeys" (columns td)); [|discriminate].
    cbn [Py.bind]. eauto. }
  destruct Hcols as [sers Hsers]. rewrite Hsers. cbn [Py.bind].
  rewrite (mapM_total _ (group_entry td)); [reflexivity|].
  intros k _. unfold getitem_mask. rewrite select_mask_rows.
  destruct td as [cols rws]; cbn [columns rows] in *.
  rewrite (aggregate_group (mkDataFrame cols rws) _ Hc). cbn [Py.bind].
  unfold group_entry, rows_where. cbn [columns rows]. now rewrite Hi.
Qed.

Lemma combine_map_l {A B C : Type} (f : A -> B) (l : list A) (l' : list C) :
  combine (map f l) l' = map (fun p => (f (fst p), snd p)) (combine l l').
Proof.
  revert l'. induction l as [|x xs IH]; intros [|y ys]; simpl; try reflexivity.
  now rewrite IH.
Qed.

Lemma map_ext_Forall {A B : Type} (f g : A -> B) (l : list A) :
  Forall (fun x => f x = g x) l -> map f l = map g l.
Proof. induction 1; simpl; congruence. Qed.

Lemma Forall_combine_l {A B : Type} (P : A -> Prop) (l : list A) (l' : list B) :
  Forall P l -> Forall (fun p => P (fst p)) (combine l l').
Proof.
  intros H. revert l'. induction H as [|x xs Hx Hxs IH]; intros [|y ys]; simpl;
    constructor; auto.
Qed.

Lemma rounded_entry_seven (td : DataFrame) (k : string) :
  seven_cells (rounded_entry td k).
Proof. split; [reflexivity|]. eexists. reflexivity. Qed.

Lemma leaderboard_closed_form (df : DataFrame) (t : string) :
  conforms df = true ->
  let td := mkDataFrame (columns df) (rows_where df "Tournament" t) in
  exists i ks,
    index_of "Player" (columns df) = Some i
    /\ group_keys (map (cell i) (rows td)) = Ok ks
    /\ create_tournament_leaderboard df t
       = Ok (mkDataFrame final_columns
               (ranked (sort_by (sort_key 0) (map (rounded_entry td) ks)))).
Proof.
  intros Hc td.
  destruct (conforms_label df Hc) as (_ & Ht & _).
  destruct (label_column_index _ _ Ht) as [it Hit].
  assert (Htd : td = mkDataFrame (columns df)
                       (filter (fun r => value_eq_str t (cell it r)) (rows df))).
  { unfold td, rows_where. now rewrite Hit. }
  assert (Hctd : conforms td = true) by (rewrite Htd; now apply conforms_filter).
  destruct (groupby_agg_conforming td Hctd) as (i & ks & Hi & Hks & Hg).
  exists i, ks. repeat split; auto.
  unfold create_tournament_leaderboard, getitem at 1. rewrite Hit. cbn [Py.bind].
  unfold getitem_mask. rewrite select_mask_rows, <- Htd, Hg. cbn [Py.bind].
  unfold set_columns, round_frame. cbn [labels index_name entries].
  change (length leaderboard_columns =? length (agg_labels leaderboard_agg))%nat
    with true. cbn [Py.bind].
  unfold sort_values. cbn [labels index_name entries].
  change (index_of "Total_Score" leaderboard_columns) with (Some 0%nat).
  rewrite map_map.
  change (fun x : string => (fst (group_entry td x),
                             map round_value (snd (group_entry td x))))
    with (rounded_entry td).
  rewrite (mapM_total _ (sort_key 0)).
  2:{ intros e He. apply in_map_iff in He as (k & <- & _). reflexivity. }
  cbn [Py.bind]. unfold reset_index. cbn [labels index_name entries].
  change (index_of "Player" leaderboard_columns) with (@None nat).
  cbn [Py.bind]. unfold setitem, len. cbn [columns rows].
  change (index_of "Rank" ("Player" :: leaderboard_columns)) with (@None nat).
  unfold final_columns, ranked. cbn [columns rows].
  f_equal. f_equal.
  rewrite length_map, combine_map_l, map_map.
  apply map_ext_Forall, Forall_forall. intros [e r] Hin.
  apply in_combine_l in Hin.
  apply (Permutation_in _ (Permutation_sym (sort_by_perm _ _))) in Hin.
  apply in_map_iff in Hin as (k & <- & _). reflexivity.
Qed.

Lemma StronglySorted_map {A B : Type} (R : A -> A -> Prop) (R' : B -> B -> Prop)
    (P : A -> Prop) (f : A -> B) (l : list A) :
  (forall x y, P x -> P y -> R x y -> R' (f x) (f y)) ->
  Forall P l -> StronglySorted R l -> StronglySorted R' (map f l).
Proof.
  intros Hf HP Hs. induction Hs as [|x xs Hs IH Hx]; simpl; constructor.
  - apply IH. now inversion HP.
  - inversion HP as [|? ? Px Pxs]; subst. rewrite Forall_forall in *.
    intros y Hy. apply in_map_iff in Hy as (z & <- & Hz). auto.
Qed.

Lemma StronglySorted_nth {A : Type} (R : A -> A -> Prop) (d : A) (l : list A) :
  StronglySorted R l ->
  forall i j, (i < j)%nat -> (j < length l)%nat -> R (nth i l d) (nth j l d).
Proof.
  induction 1 as [|x xs Hs IH Hx]; intros i j Hij Hj; simpl in Hj; [lia|].
  destruct j as [|j]; [lia|]. destruct i as [|i]; simpl.
  - rewrite Forall_forall in Hx. apply Hx, nth_In. lia.
  - apply IH; lia.
Qed.

Lemma ranked_length (sorted : list (string * list value)) :
  length (ranked sorted) = length sorted.
Proof.
  unfold ranked, range1.
  rewrite length_map, length_combine, length_map, length_seq. lia.
Qed.

Lemma ranked_totals (sorted : list (string * list value)) :
  Forall seven_cells sorted ->
  map (cell 1) (ranked sorted) = map VNum (map total_of sorted).
Proof.
  unfold ranked.
  assert (Hlen : length (range1 (length sorted)) = length sorted)
    by (unfold range1; now rewrite length_map, length_seq).
  revert Hlen. generalize (range1 (length sorted)).
  intros rs Hlen H. revert rs Hlen.
  induction H as [|e es [_ [q He]] Hes IH]; intros [|r rs] Hlen;
    simpl in *; try discriminate; [reflexivity|].
  rewrite IH by lia. f_equal.
  unfold total_of, sort_key. unfold cell in *. destruct e as [k cells].
  simpl in *. destruct cells as [|c cells]; simpl in *; [discriminate|].
  now rewrite He.
Qed.

Lemma ranked_ranks (sorted : list (string * list value)) :
  Forall seven_cells sorted ->
  map (cell 8) (ranked sorted) = range1 (length sorted).
Proof.
  unfold ranked.
  assert (Hlen : length (range1 (length sorted)) = length sorted)
    by (unfold range1; now rewrite length_map, length_seq).
  revert Hlen. generalize (range1 (length sorted)).
  intros rs Hlen H. revert rs Hlen.
  induction H as [|e es [He _] Hes IH]; intros [|r rs] Hlen;
    simpl in *; try discriminate; [reflexivity|].
  rewrite IH by lia. f_equal.
  destruct e as [k cells]. simpl in *.
  do 8 (destruct cells as [|? cells]; simpl in He; try discriminate).
  reflexivity.
Qed.

Lemma sorted_entries_seven (td : DataFrame) (ks : list string) :
  Forall seven_cells (sort_by (sort_key 0) (map (rounded_entry td) ks)).
Proof.
  apply sort_by_Forall, Forall_forall. intros e He.
  apply in_map_iff in He as (k & <- & _). apply rounded_entry_seven.
Qed.

Lemma sorted_totals (td : DataFrame) (ks : list string) :
  StronglySorted Qle
    (map total_of (sort_by (sort_key 0) (map (rounded_entry td) ks))).
Proof.
  apply (StronglySorted_map (ordered (sort_key 0)) Qle seven_cells).
  - intros x y [_ [qx Hx]] [_ [qy Hy]]. unfold ordered, total_of, sort_key.
    rewrite Hx, Hy. simpl. apply Qle_bool_iff.
  - apply sorted_entries_seven.
  - apply sort_by_ordered.
Qed.

(** C6: when no row matches the tournament the leaderboard is returned, not
    an error: it has no rows and still carries the nine columns Player,
    Total_Score, Avg_Score, Games_Played, Total_Birdies, Total_Pars,
    Total_Bogeys, Total_Double_Bogeys and Rank. *)
Theorem leaderboard_empty_keeps_columns (df : DataFrame) (t : string) :
  conforms df = true ->
  rows_where df "Tournament" t = [] ->
  create_tournament_leaderboard df t
  = Ok (mkDataFrame
          ["Player"; "Total_Score"; "Avg_Score"; "Games_Played";
           "Total_Birdies"; "Total_Pars"; "Total_Bogeys";
           "Total_Double_Bogeys"; "Rank"] []).
Proof.
  intros Hc Hr. destruct (leaderboard_closed_form df t Hc) as (i & ks & _ & Hks & Hlb).
  cbn [rows] in Hks. rewrite Hr in Hks. simpl in Hks. inversion Hks; subst ks.
  exact Hlb.
Qed.

Lemma leaderboard_empty_keeps_columns_witness :
  conforms tournament_data = true
  /\ rows_where tournament_data "Tournament" "不存在的比赛" = []
  /\ create_tournament_leaderboard tournament_data "不存在的比赛"
     = Ok (mkDataFrame
             ["Player"; "Total_Score"; "Avg_Score"; "Games_Played";
              "Total_Birdies"; "Total_Pars"; "Total_Bogeys";
              "Total_Double_Bogeys"; "Rank"] []).
Proof.
  split; [reflexivity|]. split; [reflexivity|].
  apply (leaderboard_empty_keeps_columns tournament_data "不存在的比赛");
    reflexivity.
Defined.

(** ** Rounding *)






(** ** The comparison rows *)

(** C9: the comparison holds one row for each requested player with at
    least one record, in the order of the request, with that player's mean
    net score, total birdies, birdie rate and consistency; a player without
    records is skipped and raises nothing. *)
Theorem comparison_rows_in_request_order (df : DataFrame) (ps : list string) :
  conforms df = true ->
  comparison_data df ps = Ok (map (comparison_row df) (filter (has_rows df) ps)).
Proof.
  intros Hc. induction ps as [|p ps IH]; [reflexivity|].
  cbn [comparison_data filter]. rewrite IH. unfold has_rows at 2.
  destruct (rows_where df "Player" p) as [|r rs] eqn:Hr.
  - rewrite calculate_player_stats_none; [reflexivity| |exact Hr].
    destruct (conforms_label df Hc) as (Hl & _).
    destruct (label_column_index _ _ Hl) as [i Hi].
    unfold has_column. now rewrite Hi.
  - rewrite calculate_player_stats_some by (auto; congruence).
    reflexivity.
Qed.

Lemma comparison_rows_in_request_order_witness :
  conforms tournament_data = true
  /\ exists r3 r1,
       comparison_data tournament_data ["Player3"; "Ghost"; "Player1"]
       = Ok [r3; r1]
       /\ Player r3 = "Player3" /\ Player r1 = "Player1".
Proof.
  split; [reflexivity|].
  exists (comparison_row tournament_data "Player3"),
         (comparison_row tournament_data "Player1").
  split; [|split; reflexivity].
  apply (comparison_rows_in_request_order tournament_data
           ["Player3"; "Ghost"; "Player1"]).
  reflexivity.
Defined.

(** ** The synthetic fallback *)

Section ForEach.
Context {A B : Type} (body : A -> RandomState -> list B * RandomState).

Lemma for_each_Forall (P : B -> Prop) :
  (forall x rs, Forall P (fst (body x rs))) ->
  forall l rs, Forall P (fst (for_each body l rs)).
Proof.
  intros H. induction l as [|x xs IH]; intros rs; simpl; [constructor|].
  specialize (H x rs). destruct (body x rs) as [ys rs1].
  specialize (IH rs1). destruct (for_each body xs rs1) as [zs rs2].
  simpl in *. apply Forall_app. now split.
Qed.

Lemma for_each_map {C : Type} (f : B -> C) (g : A -> list C) :
  (forall x rs, map f (fst (body x rs)) = g x) ->
  forall l rs, map f (fst (for_each body l rs)) = flat_map g l.
Proof.
  intros H. induction l as [|x xs IH]; intros rs; simpl; [reflexivity|].
  specialize (H x rs). destruct (body x rs) as [ys rs1].
  specialize (IH rs1). destruct (for_each body xs rs1) as [zs rs2].
  simpl in *. now rewrite map_app, H, IH.
Qed.
End ForEach.

Lemma randint_in_range (lo hi : Z) (rs : RandomState) :
  lo < hi -> in_range lo hi (VNum (inject_Z (fst (randint lo hi rs)))).
Proof.
  intros H. eexists; split; [reflexivity|]. simpl.
  pose proof (Z.mod_pos_bound (rs O) (hi - lo)). lia.
Qed.

Lemma sample_record_generated (p t g : string) (rs : RandomState) :
  Forall generated (fst (sample_record p t g rs)).
Proof.
  constructor; [|constructor]. unfold generated. split; [reflexivity|].
  repeat split;
    (eexists; split; [reflexivity|];
     match goal with
     | |- _ <= _ + ?x mod ?m < _ => pose proof (Z.mod_pos_bound x m); lia
     end).
Qed.

Lemma sample_records_generated (rs : RandomState) :
  Forall generated (fst (sample_records rs)).
Proof.
  unfold sample_records.
  apply for_each_Forall. intros p rs1.
  apply for_each_Forall. intros t rs2.
  apply for_each_Forall. intros g rs3.
  apply sample_record_generated.
Qed.

Lemma map_flat_map {A B C : Type} (h : B -> C) (F : A -> list B) (l : list A) :
  map h (flat_map F l) = flat_map (fun x => map h (F x)) l.
Proof.
  induction l as [|x xs IH]; simpl; [reflexivity|]. now rewrite map_app, IH.
Qed.

Lemma map_as_flat_map {A B : Type} (f : A -> B) (l : list A) :
  map f l = flat_map (fun x => [f x]) l.
Proof. induction l as [|x xs IH]; simpl; [reflexivity|]. now rewrite IH. Qed.

Lemma sample_records_keys (rs : RandomState) :
  map key_of (fst (sample_records rs))
  = map (fun c => (VStr (fst (fst c)), VStr (snd (fst c)), VStr (snd c)))
        combinations.
Proof.
  unfold sample_records, combinations. rewrite map_flat_map.
  apply for_each_map. intros p rs1. rewrite map_flat_map.
  apply for_each_map. intros t rs2.
  rewrite map_map, (map_as_flat_map _ (snd (snd t))).
  apply for_each_map. intros g rs3. reflexivity.
Qed.

Lemma generated_shape (r : record) :
  map fst r = sample_columns ->
  exists v0 v1 v2 v3 v4 v5 v6 v7,
    r = [ ("Player", v0); ("Tournament", v1); ("Game", v2); ("Net_Score", v3);
          ("Birdies", v4); ("Pars", v5); ("Bogeys", v6); ("Double_Bogeys", v7) ].
Proof.
  intros H. unfold sample_columns in H.
  do 8 (destruct r as [|[? ?] r]; simpl in H; [discriminate|];
        injection H as <- H).
  destruct r; [|discriminate]. repeat eexists.
Qed.

Lemma union_keys_generated (data : list record) :
  Forall (fun r => map fst r = sample_columns) data ->
  union_keys sample_columns data = sample_columns.
Proof.
  induction 1 as [|r rest Hr Hrest IH]; simpl; [reflexivity|].
  destruct (generated_shape r Hr) as (v0 & v1 & v2 & v3 & v4 & v5 & v6 & v7 & ->).
  exact IH.
Qed.

Lemma DataFrame_of_generated (data : list record) :
  data <> [] ->
  Forall (fun r => map fst r = sample_columns) data ->
  DataFrame_of_records data = mkDataFrame sample_columns (map (map snd) data).
Proof.
  intros Hne H. unfold DataFrame_of_records.
  assert (Hcols : union_keys [] data = sample_columns).
  { destruct data as [|r rest]; [congruence|]. inversion H as [|? ? Hr Hrest]; subst.
    destruct (generated_shape r Hr) as (v0 & v1 & v2 & v3 & v4 & v5 & v6 & v7 & ->).
    exact (union_keys_generated rest Hrest). }
  rewrite Hcols. f_equal. apply map_ext_Forall.
  eapply Forall_impl; [|exact H]. intros r Hr.
  destruct (generated_shape r Hr) as (v0 & v1 & v2 & v3 & v4 & v5 & v6 & v7 & ->).
  reflexivity.
Qed.

Lemma sample_records_nonempty (rs : RandomState) : fst (sample_records rs) <> [].
Proof.
  intros H. pose proof (sample_records_keys rs) as Hk. rewrite H in Hk.
  discriminate Hk.
Qed.

Lemma create_sample_data_frame (rs : RandomState) :
  fst (create_sample_data rs)
  = mkDataFrame sample_columns (map (map snd) (fst (sample_records rs))).
Proof.
  unfold create_sample_data.
  pose proof (sample_records_nonempty rs) as Hne.
  pose proof (sample_records_generated rs) as Hg.
  destruct (sample_records rs) as [data rs']. cbn [fst] in *.
  apply DataFrame_of_generated; [exact Hne|].
  eapply Forall_impl; [|exact Hg]. now intros r [Hr _].
Qed.

Lemma nodupb_sound {A : Type} (eqb : A -> A -> bool) (l : list A) :
  (forall x y, x = y -> eqb x y = true) ->
  nodupb eqb l = true -> NoDup l.
Proof.
  intros Heq. induction l as [|x xs IH]; simpl; intros H; constructor.
  - apply andb_prop in H as [H _]. intros Hin.
    apply negb_true_iff in H. rewrite <- not_true_iff_false in H. apply H.
    apply existsb_exists. exists x. split; [exact Hin|now apply Heq].
  - apply andb_prop in H as [_ H]. now apply IH.
Qed.

Lemma inclb_sound (l1 l2 : list string) : inclb l1 l2 = true -> incl l1 l2.
Proof.
  unfold inclb. rewrite forallb_forall. intros H x Hx.
  apply H, existsb_exists in Hx as (y & Hy & Hxy).
  apply String.eqb_eq in Hxy. now subst.
Qed.

Lemma combinations_NoDup : NoDup combinations.
Proof.
  apply (nodupb_sound combination_eqb).
  - intros x y <-. unfold combination_eqb. now rewrite !String.eqb_refl.
  - vm_compute. reflexivity.
Qed.

Lemma players_NoDup : NoDup players.
Proof.
  apply (nodupb_sound String.eqb).
  - intros x y <-. apply String.eqb_refl.
  - vm_compute. reflexivity.
Qed.

Lemma tournaments_NoDup : NoDup (map fst tournaments).
Proof.
  apply (nodupb_sound String.eqb).
  - intros x y <-. apply String.eqb_refl.
  - vm_compute. reflexivity.
Qed.

Lemma In_VStr_map {A : Type} (f : A -> string) (l : list A) (s : string) :
  In (VStr s) (map (fun c => VStr (f c)) l) <-> In s (map f l).
Proof.
  rewrite !in_map_iff. split; intros (c & Hc & Hin); exists c; split; auto;
    congruence.
Qed.

Lemma combination_players (s : string) :
  In s (map (fun c => fst (fst c)) combinations) <-> In s players.
Proof.
  split; apply inclb_sound; vm_compute; reflexivity.
Qed.

Lemma combination_tournaments (s : string) :
  In s (map (fun c => snd (fst c)) combinations) <-> In s (map fst tournaments).
Proof.
  split; apply inclb_sound; vm_compute; reflexivity.
Qed.

(** C8: the generated dataset has the twelve players and the three
    tournaments and no others; its records are, in order, the combinations
    of a player, a tournament and a game of that tournament, each
    combination once (the list of combinations has no repetition); and in
    every record the net score lies in -15..19, the birdies in 0..4, the
    pars in 5..14, the bogeys in 0..7 and the double bogeys in 0..3. *)
Theorem sample_data_covers_every_combination (rs : RandomState) :
  let df := fst (create_sample_data rs) in
  columns df = sample_columns
  /\ map (fun r => (cell 0 r, cell 1 r, cell 2 r)) (rows df)
     = map (fun c => (VStr (fst (fst c)), VStr (snd (fst c)), VStr (snd c)))
           combinations
  /\ NoDup combinations
  /\ NoDup players /\ NoDup (map fst tournaments)
  /\ length players = 12%nat /\ length tournaments = 3%nat
  /\ len df = 144%nat
  /\ (forall s, In (VStr s) (map (cell 0) (rows df)) <-> In s players)
  /\ (forall s, In (VStr s) (map (cell 1) (rows df)) <-> In s (map fst tournaments))
  /\ Forall (fun r => in_range (-15) 20 (cell 3 r)
                      /\ in_range 0 5 (cell 4 r)
                      /\ in_range 5 15 (cell 5 r)
                      /\ in_range 0 8 (cell 6 r)
                      /\ in_range 0 4 (cell 7 r))
            (rows df).
Proof.
  intros df. unfold df, len. rewrite create_sample_data_frame. cbn [columns rows].
  pose proof (sample_records_keys rs) as Hk.
  assert (Hkeys : map (fun r => (cell 0 r, cell 1 r, cell 2 r))
                      (map (map snd) (fst (sample_records rs)))
                  = map (fun c => (VStr (fst (fst c)), VStr (snd (fst c)), VStr (snd c)))
                        combinations).
  { rewrite map_map. exact Hk. }
  assert (H0 : map (cell 0) (map (map snd) (fst (sample_records rs)))
               = map (fun c => VStr (fst (fst c))) combinations).
  { apply (f_equal (map (fun k => fst (fst k)))) in Hkeys.
    rewrite !map_map in Hkeys. cbn [fst snd] in Hkeys. now rewrite map_map. }
  assert (H1 : map (cell 1) (map (map snd) (fst (sample_records rs)))
               = map (fun c => VStr (snd (fst c))) combinations).
  { apply (f_equal (map (fun k => snd (fst k)))) in Hkeys.
    rewrite !map_map in Hkeys. cbn [fst snd] in Hkeys. now rewrite map_map. }
  split; [reflexivity|]. split; [exact Hkeys|]. split; [exact combinations_NoDup|].
  split; [exact players_NoDup|]. split; [exact tournaments_NoDup|].
  split; [reflexivity|]. split; [reflexivity|]. split; [|split; [|split]].
  - apply (f_equal (@length _)) in Hkeys. rewrite !length_map in Hkeys.
    rewrite length_map, Hkeys. reflexivity.
  - intros s. rewrite H0, In_VStr_map. apply combination_players.
  - intros s. rewrite H1, In_VStr_map. apply combination_tournaments.
  - apply Forall_map. eapply Forall_impl; [|exact (sample_records_generated rs)].
    intros r (_ & H3 & H4 & H5 & H6 & H7). repeat split; assumption.
Qed.

(** ** The loader *)

Lemma sample_data_validates (rs : RandomState) :
  validate (fst (create_sample_data rs)) = true.
Proof.
  rewrite create_sample_data_frame. unfold validate, empty. cbn [columns rows].
  pose proof (sample_records_nonempty rs) as Hne.
  destruct (fst (sample_records rs)); [congruence|reflexivity].
Qed.

Lemma try_local_file_valid (w : World) (df : DataFrame) :
  try_local_file w = Ok (Some df) ->
  read_csv_file w local_file = Ok df /\ validate df = true.
Proof.
  unfold try_local_file. intros H.
  destruct (read_csv_file w local_file) as [df'|e]; simpl in H; [|discriminate].
  destruct (validate df') eqn:Hv; inversion H; subst. auto.
Qed.

Lemma try_url_valid (w : World) (url : string) (df : DataFrame) :
  try_url w url = Ok (Some df) ->
  validate df = true
  /\ exists resp, requests_get w url = Ok resp
                  /\ read_csv_text w (response_text resp) = Ok df.
Proof.
  unfold try_url. intros H.
  destruct (requests_get w url) as [resp|e]; cbn [Py.bind] in H; [|discriminate].
  destruct (raise_for_status resp); cbn [Py.bind] in H; [|discriminate].
  destruct (response_text resp) as [|c cs] eqn:Ht; [discriminate|].
  destruct (negb (startswith doctype (strip (c :: cs)))); [|discriminate].
  destruct (read_csv_text w (c :: cs)) as [df'|e] eqn:Hr; cbn [Py.bind] in H;
    [|discriminate].
  destruct (validate df') eqn:Hv; [|discriminate].
  destruct (to_csv w df' local_file); cbn [Py.bind] in H; inversion H; subst.
  split; [exact Hv|]. exists resp. rewrite Ht. auto.
Qed.

Lemma try_urls_valid (w : World) (urls : list string) (df : DataFrame) :
  try_urls w urls = Some df ->
  exists url, In url urls /\ try_url w url = Ok (Some df).
Proof.
  induction urls as [|url rest IH]; simpl; [discriminate|].
  destruct (try_url w url) as [[df'|]|e] eqn:Hu; intros H.
  - inversion H; subst. exists url. auto.
  - destruct (IH H) as (u & Hin & Hu'). exists u. auto.
  - destruct (IH H) as (u & Hin & Hu'). exists u. auto.
Qed.

Lemma try_urls_none (w : World) (urls : list string) :
  (forall url, In url urls -> forall df, try_url w url <> Ok (Some df)) ->
  try_urls w urls = None.
Proof.
  induction urls as [|url rest IH]; simpl; intros H; [reflexivity|].
  destruct (try_url w url) as [[df|]|e] eqn:Hu.
  - exfalso. exact (H url (or_introl eq_refl) df Hu).
  - apply IH. intros u Hin. apply H. now right.
  - apply IH. intros u Hin. apply H. now right.
Qed.

Lemma validate_spec (df : DataFrame) :
  validate df = true <->
  (forall c, In c required_columns -> has_column df c = true) /\ empty df = false.
Proof.
  unfold validate. rewrite andb_true_iff, forallb_forall, negb_true_iff. tauto.
Qed.

(** The outcome of the part of the loader that follows the local file. *)
Lemma load_remote_or_sample_cases (w : World) (shown : list notice) :
  (exists df, try_urls w urls_to_try = Some df
              /\ load_remote_or_sample w shown
                 = Ok (mkOutcome df (Some df) (shown ++ [LoadedGoogleSheets])))
  \/ (try_urls w urls_to_try = None
      /\ load_remote_or_sample w shown
         = Ok (mkOutcome (fst (create_sample_data (random_state w))) None
                 (shown ++ [CouldNotAccessGoogleSheets; UsingSampleData]))).
Proof.
  unfold load_remote_or_sample.
  destruct (try_urls w urls_to_try) as [df|]; [left; eauto|right].
  split; [reflexivity|]. now destruct (create_sample_data (random_state w)).
Qed.

Lemma load_gco_data_cases (w : World) :
  exists out, load_gco_data w = Ok out /\ load_case w out.
Proof.
  unfold load_gco_data.
  assert (Hrest : forall shown,
             only_warnings shown ->
             (path_exists w local_file = false
              \/ forall df, try_local_file w <> Ok (Some df)) ->
             exists out, load_remote_or_sample w shown = Ok out /\ load_case w out).
  { intros shown Hs Hl.
    destruct (load_remote_or_sample_cases w shown) as [(df & Hu & ->)|(Hu & ->)];
      eexists; (split; [reflexivity|]).
    - now apply (FromGoogleSheets _ _ shown).
    - now apply (FromSampleData _ _ shown). }
  destruct (path_exists w local_file) eqn:Hp.
  - destruct (try_local_file w) as [[df|]|e] eqn:Hl.
    + eexists. split; [reflexivity|]. now apply FromLocalFile.
    + apply Hrest; [now left|right; congruence].
    + apply Hrest; [right; eauto|right; congruence].
  - apply Hrest; [now left|now left].
Qed.

Lemma only_warnings_after (shown tail : list notice) (n : notice) :
  only_warnings shown ->
  In n (shown ++ tail)%list ->
  (exists e, n = CouldNotReadLocalFile e) \/ In n tail.
Proof.
  intros Hs H. apply in_app_or in H as [H|H]; [left|now right].
  destruct Hs as [->|[e ->]]; [destruct H|].
  destruct H as [<-|[]]. eauto.
Qed.

Lemma load_case_valid (w : World) (out : Outcome) :
  load_case w out -> validate (returned out) = true.
Proof.
  intros [_ Hl _|shown _ Hu _|shown _ _ _ Hs _].
  - now apply try_local_file_valid in Hl.
  - apply try_urls_valid in Hu as (url & _ & Hu). now apply try_url_valid in Hu.
  - rewrite Hs. apply sample_data_validates.
Qed.

(** C1: whatever the file system and the network do, the loader returns a
    dataset and raises nothing; the dataset has the columns Player,
    Tournament, Game and Net_Score and is not empty; and it is the
    synthetic sample when the local file and every URL fail. *)
Theorem load_never_fails (w : World) :
  exists out,
    load_gco_data w = Ok out
    /\ (forall c, In c ["Player"; "Tournament"; "Game"; "Net_Score"] ->
                  has_column (returned out) c = true)
    /\ empty (returned out) = false
    /\ ((path_exists w local_file = false
         \/ forall df, try_local_file w <> Ok (Some df)) ->
        (forall url, In url urls_to_try -> forall df, try_url w url <> Ok (Some df)) ->
        returned out = fst (create_sample_data (random_state w))).
Proof.
  destruct (load_gco_data_cases w) as (out & Hload & Hcase).
  exists out. split; [exact Hload|].
  pose proof (load_case_valid w out Hcase) as Hv.
  apply validate_spec in Hv as [Hcols Hne]. split; [exact Hcols|].
  split; [exact Hne|]. intros Hlocal Hurls.
  destruct Hcase as [Hp Hl _|shown _ Hu _|shown _ _ _ Hs _].
  - destruct Hlocal as [Hp'|Hl']; [congruence|]. now elim (Hl' (returned out)).
  - rewrite (try_urls_none w urls_to_try Hurls) in Hu. discriminate.
  - exact Hs.
Qed.

Lemma load_never_fails_witness :
  (path_exists offline_world local_file = false
   \/ forall df, try_local_file offline_world <> Ok (Some df))
  /\ (forall url, In url urls_to_try ->
                  forall df, try_url offline_world url <> Ok (Some df))
  /\ exists out,
       load_gco_data offline_world = Ok out
       /\ returned out = fst (create_sample_data (random_state offline_world)).
Proof.
  assert (H1 : path_exists offline_world local_file = false
               \/ forall df, try_local_file offline_world <> Ok (Some df))
    by (left; reflexivity).
  assert (H2 : forall url, In url urls_to_try ->
                           forall df, try_url offline_world url <> Ok (Some df))
    by (intros url _ df; discriminate).
  split; [exact H1|]. split; [exact H2|].
  destruct (load_never_fails offline_world) as (out & Hload & _ & _ & Hs).
  exists out. split; [exact Hload|exact (Hs H1 H2)].
Defined.

(** C7, as stated, fails: the loader accepts a sheet that has the four
    required columns only, and the dataset it returns has none of Birdies,
    Pars, Bogeys and Double_Bogeys. *)
Lemma load_may_lack_count_columns :
  ~ (forall w out, load_gco_data w = Ok out ->
                   forall c, In c count_columns -> has_column (returned out) c = true).
Proof.
  intros H.
  specialize (H sheets_world (mkOutcome four_column_frame (Some four_column_frame)
                                        [LoadedGoogleSheets]) eq_refl "Birdies").
  assert (Hin : In "Birdies" count_columns) by (right; left; reflexivity).
  specialize (H Hin). discriminate H.
Qed.

Lemma sample_data_count_columns (rs : RandomState) (c : string) :
  In c count_columns -> has_column (fst (create_sample_data rs)) c = true.
Proof.
  rewrite create_sample_data_frame. unfold has_column. cbn [columns].
  intros H. repeat (destruct H as [<-|H]; [reflexivity|]). contradiction.
Qed.

Lemma try_url_rejects (w : World) (url : string) (resp : Response)
    (df df' : DataFrame) :
  requests_get w url = Ok resp ->
  read_csv_text w (response_text resp) = Ok df ->
  validate df = false ->
  try_url w url <> Ok (Some df').
Proof.
  intros Hg Hr Hv. unfold try_url. rewrite Hg. cbn [Py.bind].
  destruct (raise_for_status resp); cbn [Py.bind]; [|discriminate].
  destruct (response_text resp) as [|c cs]; [discriminate|].
  destruct (negb (startswith doctype (strip (c :: cs)))); [|discriminate].
  rewrite Hr. cbn [Py.bind]. rewrite Hv. discriminate.
Qed.

(** C7, amended: every dataset the loader returns has the four required
    columns Player, Tournament, Game and Net_Score and is not empty; it is
    either the local file as read, or the sheet read from one of the URLs,
    or the synthetic sample, and the synthetic sample has all five score
    and count columns; a candidate from the local file or from a URL that
    lacks a required column or is empty is never the one returned from
    that source. *)
Theorem load_accepts_only_valid_candidates (w : World) (out : Outcome) :
  load_gco_data w = Ok out ->
  (forall c, In c required_columns -> has_column (returned out) c = true)
  /\ empty (returned out) = false
  /\ (In LoadedLocalFile (notices out)
      \/ In LoadedGoogleSheets (notices out)
      \/ In UsingSampleData (notices out))
  /\ (In LoadedLocalFile (notices out) ->
      read_csv_file w local_file = Ok (returned out))
  /\ (In LoadedGoogleSheets (notices out) ->
      exists url resp,
        In url urls_to_try /\ requests_get w url = Ok resp
        /\ read_csv_text w (response_text resp) = Ok (returned out))
  /\ (In UsingSampleData (notices out) ->
      returned out = fst (create_sample_data (random_state w))
      /\ forall c, In c count_columns -> has_column (returned out) c = true)
  /\ (forall df, read_csv_file w local_file = Ok df -> validate df = false ->
                 ~ In LoadedLocalFile (notices out))
  /\ (forall url resp df df',
        requests_get w url = Ok resp ->
        read_csv_text w (response_text resp) = Ok df ->
        validate df = false ->
        try_url w url <> Ok (Some df')).
Proof.
  intros Hload. destruct (load_gco_data_cases w) as (out' & Hload' & Hcase).
  assert (out' = out) by congruence. subst out'. clear Hload'.
  pose proof (load_case_valid w out Hcase) as Hv.
  apply validate_spec in Hv as [Hcols Hne].
  split; [exact Hcols|]. split; [exact Hne|].
  assert (Hreject : forall url resp df df',
             requests_get w url = Ok resp ->
             read_csv_text w (response_text resp) = Ok df ->
             validate df = false -> try_url w url <> Ok (Some df'))
    by (intros; eapply try_url_rejects; eauto).
  destruct Hcase as [Hp Hl Hn|shown Hs Hu Hn|shown Hs Hlocal Hu Hr Hn]; rewrite Hn.
  - apply try_local_file_valid in Hl as [Hread Hv].
    split; [left; now left|]. split; [intros _; exact Hread|].
    split; [intros [H|[]]; discriminate H|].
    split; [intros [H|[]]; discriminate H|].
    split; [|exact Hreject].
    intros df Hdf Hbad. congruence.
  - apply try_urls_valid in Hu as (url & Hin & Hu).
    apply try_url_valid in Hu as (Hv & resp & Hg & Hread).
    assert (Hno : forall n, In n (shown ++ [LoadedGoogleSheets])%list ->
                            n <> LoadedLocalFile /\ n <> UsingSampleData).
    { intros n H. apply (only_warnings_after _ _ _ Hs) in H as [[e ->]|[<-|[]]];
        split; discriminate. }
    split; [right; left; apply in_or_app; right; now left|].
    split; [intros H; apply Hno in H as [H _]; congruence|].
    split; [intros _; exists url, resp; auto|].
    split; [intros H; apply Hno in H as [_ H]; congruence|].
    split; [|exact Hreject].
    intros df Hdf Hbad H. apply Hno in H as [H _]. congruence.
  - assert (Hno : forall n, In n (shown ++ [CouldNotAccessGoogleSheets;
                                             UsingSampleData])%list ->
                            n <> LoadedLocalFile /\ n <> LoadedGoogleSheets).
    { intros n H.
      apply (only_warnings_after _ _ _ Hs) in H as [[e ->]|[<-|[<-|[]]]];
        split; discriminate. }
    split; [right; right; apply in_or_app; right; right; now left|].
    split; [intros H; apply Hno in H as [H _]; congruence|].
    split; [intros H; apply Hno in H as [_ H]; congruence|].
    split.
    + intros _. split; [exact Hr|].
      intros c Hc. rewrite Hr. now apply sample_data_count_columns.
    + split; [|exact Hreject].
      intros df Hdf Hbad H. apply Hno in H as [H _]. congruence.
Qed.

Lemma load_accepts_only_valid_candidates_witness :
  load_gco_data sheets_world = Ok sheets_outcome
  /\ (forall c, In c required_columns -> has_column (returned sheets_outcome) c = true)
  /\ empty (returned sheets_outcome) = false.
Proof.
  split; [reflexivity|].
  destruct (load_accepts_only_valid_candidates sheets_world sheets_outcome eq_refl)
    as (Hcols & Hne & _).
  split; [exact Hcols|exact Hne].
Defined.

(** * Further properties of the code *)

(** ** Missing columns in [calculate_player_stats] *)

Lemma getitem_filtered (df : DataFrame) (rs : list (list value)) (name : string) :
  getitem (mkDataFrame (columns df) rs) name
  = match index_of name (columns df) with
    | Some j => Ok (map (cell j) rs)
    | None => Raise (KeyError name)
    end.
Proof. reflexivity. Qed.

Lemma numeric_series_values (df : DataFrame) (name : string) (j : nat)
    (g : list value -> bool) :
  index_of name (columns df) = Some j ->
  numeric_if_present df name = true ->
  exists xs,
    to_numeric (map (cell j) (filter g (rows df))) = Ok xs
    /\ dropna xs = field_values df name (filter g (rows df)).
Proof.
  intros Hj Hn. unfold numeric_if_present in Hn. rewrite Hj in Hn.
  destruct (to_numeric_ok (map (cell j) (filter g (rows df)))) as [xs Hxs].
  { rewrite forallb_over_map. now apply forallb_filter. }
  exists xs. split; [exact Hxs|].
  rewrite (dropna_to_numeric _ _ Hxs). unfold field_values. rewrite Hj.
  now rewrite flat_map_over_map.
Qed.

Lemma numeric_if_present_all (df : DataFrame) :
  forallb (numeric_if_present df) stat_columns = true ->
  numeric_if_present df "Net_Score" = true
  /\ numeric_if_present df "Birdies" = true
  /\ numeric_if_present df "Pars" = true
  /\ numeric_if_present df "Bogeys" = true
  /\ numeric_if_present df "Double_Bogeys" = true.
Proof.
  cbn [forallb stat_columns]. intros H.
  repeat (apply andb_prop in H as [? H]). auto.
Qed.

(** X1: without a Player column [calculate_player_stats] raises KeyError
    'Player'; with one, for a player that has rows, it raises KeyError for
    the first of Net_Score, Birdies, Pars, Bogeys and Double_Bogeys that
    the frame lacks, and answers the statistics when none is lacking. *)
Theorem player_stats_first_missing_column (df : DataFrame) (p : string) :
  (has_column df "Player" = false ->
   calculate_player_stats df p = Raise (KeyError "Player"))
  /\ (has_column df "Player" = true ->
      rows_where df "Player" p <> [] ->
      forallb (numeric_if_present df) stat_columns = true ->
      calculate_player_stats df p
      = match first_missing df with
        | Some c => Raise (KeyError c)
        | None => Ok (Some (stats_of df p))
        end).
Proof.
  split.
  - unfold has_column, calculate_player_stats, getitem.
    destruct (index_of "Player" (columns df)); [discriminate|reflexivity].
  - intros Hp Hr Hnum.
    destruct (numeric_if_present_all df Hnum) as (Nn & Nb & Np & Nbo & Nd).
    destruct (has_column_index _ _ Hp) as [i Hi].
    destruct (player_data_rows df p i Hi) as [Hget Hmask].
    unfold calculate_player_stats. rewrite Hget. cbn [Py.bind]. rewrite Hmask.
    rewrite empty_filtered by (eapply index_of_nonempty; eauto).
    unfold stats_of, first_missing, has_column. cbn [stat_columns find].
    destruct (rows_where df "Player" p) as [|r rs] eqn:Hrs; [congruence|].
    clear Hr. rewrite <- Hrs. unfold rows_where in *. rewrite Hi in *.
    set (g := fun r0 : list value => value_eq_str p (cell i r0)) in *.
    unfold len. cbn [rows]. rewrite getitem_filtered.
    destruct (index_of "Net_Score" (columns df)) as [j1|] eqn:H1; [|reflexivity].
    destruct (numeric_series_values df _ j1 g H1 Nn) as (x1 & T1 & D1).
    cbn [Py.bind negb]. unfold Series_mean, Series_min, Series_max.
    rewrite T1. cbn [Py.bind]. rewrite getitem_filtered.
    destruct (index_of "Birdies" (columns df)) as [j2|] eqn:H2; [|reflexivity].
    destruct (numeric_series_values df _ j2 g H2 Nb) as (x2 & T2 & D2).
    cbn [Py.bind negb]. unfold Series_sum. rewrite T2. cbn [Py.bind].
    rewrite getitem_filtered.
    destruct (index_of "Pars" (columns df)) as [j3|] eqn:H3; [|reflexivity].
    destruct (numeric_series_values df _ j3 g H3 Np) as (x3 & T3 & D3).
    cbn [Py.bind negb]. rewrite T3. cbn [Py.bind]. rewrite getitem_filtered.
    destruct (index_of "Bogeys" (columns df)) as [j4|] eqn:H4; [|reflexivity].
    destruct (numeric_series_values df _ j4 g H4 Nbo) as (x4 & T4 & D4).
    cbn [Py.bind negb]. rewrite T4. cbn [Py.bind]. rewrite getitem_filtered.
    destruct (index_of "Double_Bogeys" (columns df)) as [j5|] eqn:H5; [|reflexivity].
    destruct (numeric_series_values df _ j5 g H5 Nd) as (x5 & T5 & D5).
    cbn [Py.bind negb]. rewrite T5. cbn [Py.bind].
    unfold Series_std. rewrite T1. cbn [Py.bind].
    rewrite D1, D2, D3, D4, D5. reflexivity.
Qed.

Lemma player_stats_first_missing_column_witness :
  has_column two_column_frame "Player" = true
  /\ rows_where two_column_frame "Player" "Player1" <> []
  /\ forallb (numeric_if_present two_column_frame) stat_columns = true
  /\ calculate_player_stats two_column_frame "Player1" = Raise (KeyError "Birdies").
Proof.
  split; [reflexivity|]. split; [discriminate|]. split; [reflexivity|].
  apply (proj2 (player_stats_first_missing_column two_column_frame "Player1"));
    [reflexivity|discriminate|reflexivity].
Defined.

(** ** Bounds on the statistics of a player *)

Lemma fold_min_spec (xs : list Q) (a : Q) :
  let m := fold_left (fun a b => if Qle_bool b a then b else a) xs a in
  (m = a \/ In m xs) /\ (m <= a)%Q /\ (forall x, In x xs -> (m <= x)%Q).
Proof.
  revert a. induction xs as [|x xs IH]; intros a; cbn [fold_left].
  - split; [now left|]. split; [apply Qle_refl|intros x []].
  - destruct (Qle_bool x a) eqn:Hxa.
    + destruct (IH x) as (Hin & Hle & Hall). apply Qle_bool_iff in Hxa.
      split; [right; destruct Hin as [->|Hin]; [now left|now right]|].
      split; [eapply Qle_trans; eauto|].
      intros y [<-|Hy]; auto.
    + destruct (IH a) as (Hin & Hle & Hall).
      assert (Hax : (a <= x)%Q).
      { destruct (Qlt_le_dec a x) as [H|H]; [now apply Qlt_le_weak|].
        apply Qle_bool_iff in H. congruence. }
      split; [destruct Hin as [->|Hin]; [now left|right; now right]|].
      split; [exact Hle|].
      intros y [<-|Hy]; [eapply Qle_trans; eauto|auto].
Qed.

Lemma fold_max_spec (xs : list Q) (a : Q) :
  let m := fold_left (fun a b => if Qle_bool a b then b else a) xs a in
  (m = a \/ In m xs) /\ (a <= m)%Q /\ (forall x, In x xs -> (x <= m)%Q).
Proof.
  revert a. induction xs as [|x xs IH]; intros a; cbn [fold_left].
  - split; [now left|]. split; [apply Qle_refl|intros x []].
  - destruct (Qle_bool a x) eqn:Hax.
    + destruct (IH x) as (Hin & Hle & Hall). apply Qle_bool_iff in Hax.
      split; [right; destruct Hin as [->|Hin]; [now left|now right]|].
      split; [eapply Qle_trans; eauto|].
      intros y [<-|Hy]; auto.
    + destruct (IH a) as (Hin & Hle & Hall).
      assert (Hxa : (x <= a)%Q).
      { destruct (Qlt_le_dec x a) as [H|H]; [now apply Qlt_le_weak|].
        apply Qle_bool_iff in H. congruence. }
      split; [destruct Hin as [->|Hin]; [now left|right; now right]|].
      split; [exact Hle|].
      intros y [<-|Hy]; [eapply Qle_trans; eauto|auto].
Qed.

Lemma Qmin_list_spec (l : list Q) :
  l <> [] ->
  exists m, Qmin_list l = Some m /\ In m l /\ forall x, In x l -> (m <= x)%Q.
Proof.
  destruct l as [|a xs]; [congruence|]. intros _.
  destruct (fold_min_spec xs a) as (Hin & Hle & Hall).
  eexists. split; [reflexivity|]. split.
  - destruct Hin as [->|Hin]; [now left|now right].
  - intros x [<-|Hx]; auto.
Qed.

Lemma Qmax_list_spec (l : list Q) :
  l <> [] ->
  exists m, Qmax_list l = Some m /\ In m l /\ forall x, In x l -> (x <= m)%Q.
Proof.
  destruct l as [|a xs]; [congruence|]. intros _.
  destruct (fold_max_spec xs a) as (Hin & Hle & Hall).
  eexists. split; [reflexivity|]. split.
  - destruct Hin as [->|Hin]; [now left|now right].
  - intros x [<-|Hx]; auto.
Qed.

Lemma Qlen_cons (x : Q) (l : list Q) : (Qlen (x :: l) == 1 + Qlen l)%Q.
Proof.
  unfold Qlen. cbn [length]. rewrite Nat2Z.inj_succ, <- Z.add_1_l.
  now rewrite inject_Z_plus.
Qed.

Lemma Qlen_nonneg (l : list Q) : (0 <= Qlen l)%Q.
Proof.
  unfold Qlen. change 0%Q with (inject_Z 0). rewrite <- Zle_Qle. lia.
Qed.

Lemma Qsum_bounds (lo hi : Q) (l : list Q) :
  (forall x, In x l -> (lo <= x <= hi)%Q) ->
  (lo * Qlen l <= Qsum l <= hi * Qlen l)%Q.
Proof.
  induction l as [|x xs IH]; intros H.
  - unfold Qlen; cbn. split; ring_simplify; apply Qle_refl.
  - cbn [Qsum fold_right]. fold (Qsum xs). rewrite Qlen_cons.
    destruct (H x (or_introl eq_refl)) as [H1 H2].
    destruct IH as [I1 I2]; [intros y Hy; apply H; now right|].
    split; lra.
Qed.

Lemma mean_bounds (lo hi : Q) (l : list Q) :
  l <> [] ->
  (forall x, In x l -> (lo <= x <= hi)%Q) ->
  exists a, mean l = Num a /\ (lo <= a <= hi)%Q.
Proof.
  intros Hne H. destruct l as [|x xs]; [congruence|].
  eexists. split; [reflexivity|]. rewrite Qred_correct.
  pose proof (Qsum_bounds lo hi (x :: xs) H) as [H1 H2].
  assert (Hpos : (0 < Qlen (x :: xs))%Q).
  { rewrite Qlen_cons. pose proof (Qlen_nonneg xs). lra. }
  split.
  - apply Qle_shift_div_l; [exact Hpos|exact H1].
  - apply Qle_shift_div_r; [exact Hpos|exact H2].
Qed.

(** X2: for a player with at least one recorded net score, the best score
    and the worst score are scores of that player, no score of the player
    is below the best or above the worst, and the average lies between the
    two. *)
Theorem player_stats_bounds (df : DataFrame) (p : string) :
  conforms df = true ->
  field_values df "Net_Score" (rows_where df "Player" p) <> [] ->
  exists st best avg worst,
    calculate_player_stats df p = Ok (Some st)
    /\ best_score st = Num best
    /\ avg_net_score st = Num avg
    /\ worst_score st = Num worst
    /\ In best (field_values df "Net_Score" (rows_where df "Player" p))
    /\ In worst (field_values df "Net_Score" (rows_where df "Player" p))
    /\ (forall x, In x (field_values df "Net_Score" (rows_where df "Player" p)) ->
                  (best <= x <= worst)%Q)
    /\ (best <= avg <= worst)%Q.
Proof.
  intros Hc Hne.
  assert (Hr : rows_where df "Player" p <> []).
  { intros H. apply Hne. rewrite H. unfold field_values.
    now destruct (index_of "Net_Score" (columns df)). }
  set (scores := field_values df "Net_Score" (rows_where df "Player" p)) in *.
  destruct (Qmin_list_spec scores Hne) as (b & Hb & Hbin & Hball).
  destruct (Qmax_list_spec scores Hne) as (w & Hw & Hwin & Hwall).
  destruct (mean_bounds b w scores Hne) as (a & Ha & Hab).
  { intros x Hx. split; auto. }
  exists (stats_of df p), b, a, w.
  split; [now apply calculate_player_stats_some|].
  cbn [stats_of best_score avg_net_score worst_score]. fold scores.
  rewrite Hb, Hw, Ha. repeat split; auto; apply Hab.
Qed.

Lemma player_stats_bounds_witness :
  conforms test_player_data = true
  /\ field_values test_player_data "Net_Score"
       (rows_where test_player_data "Player" "TestPlayer") <> []
  /\ exists st best avg worst,
       calculate_player_stats test_player_data "TestPlayer" = Ok (Some st)
       /\ best_score st = Num best /\ avg_net_score st = Num avg
       /\ worst_score st = Num worst /\ (best <= avg <= worst)%Q.
Proof.
  split; [reflexivity|]. split; [discriminate|].
  destruct (player_stats_bounds test_player_data "TestPlayer" eq_refl
              ltac:(discriminate))
    as (st & b & a & w & H1 & H2 & H3 & H4 & _ & _ & _ & H5).
  exists st, b, a, w. repeat split; try assumption; apply H5.
Defined.

(** X3: a player whose rows all lack the net score is not absent: the
    statistics are returned with the number of rows as [total_games] and
    NaN as average, best, worst and consistency. *)
Theorem player_stats_of_missing_scores (df : DataFrame) (p : string) :
  conforms df = true ->
  rows_where df "Player" p <> [] ->
  field_values df "Net_Score" (rows_where df "Player" p) = [] ->
  exists st,
    calculate_player_stats df p = Ok (Some st)
    /\ total_games st = length (rows_where df "Player" p)
    /\ avg_net_score st = NaN /\ best_score st = NaN
    /\ worst_score st = NaN /\ consistency st = NaN.
Proof.
  intros Hc Hr Hnone. exists (stats_of df p).
  split; [now apply calculate_player_stats_some|].
  cbn [stats_of total_games avg_net_score best_score worst_score consistency].
  rewrite Hnone. repeat split.
Qed.

Lemma player_stats_of_missing_scores_witness :
  conforms data_with_nan = true
  /\ rows_where data_with_nan "Player" "Player2" <> []
  /\ field_values data_with_nan "Net_Score"
       (rows_where data_with_nan "Player" "Player2") = []
  /\ exists st,
       calculate_player_stats data_with_nan "Player2" = Ok (Some st)
       /\ total_games st = 1%nat /\ avg_net_score st = NaN.
Proof.
  split; [reflexivity|]. split; [discriminate|]. split; [reflexivity|].
  destruct (player_stats_of_missing_scores data_with_nan "Player2" eq_refl
              ltac:(discriminate) eq_refl) as (st & H1 & H2 & H3 & _).
  exists st. repeat split; assumption.
Defined.

(** ** Side effects and order of the loader *)

Lemma Ok_injective {A : Type} (a b : A) : Ok a = Ok b -> a = b.
Proof. intros H. now injection H. Qed.

Lemma try_url_writes (w : World) (url : string) (df : DataFrame) :
  try_url w url = Ok (Some df) -> to_csv w df local_file = Ok tt.
Proof.
  unfold try_url. intros H.
  destruct (requests_get w url) as [resp|e]; cbn [Py.bind] in H; [|discriminate].
  destruct (raise_for_status resp); cbn [Py.bind] in H; [|discriminate].
  destruct (response_text resp) as [|c cs]; [discriminate|].
  destruct (negb (startswith doctype (strip (c :: cs)))); [|discriminate].
  destruct (read_csv_text w (c :: cs)) as [df'|e]; cbn [Py.bind] in H;
    [|discriminate].
  destruct (validate df'); [|discriminate].
  destruct (to_csv w df' local_file) as [[]|e] eqn:Hw; cbn [Py.bind] in H;
    inversion H; subst. exact Hw.
Qed.

Lemma try_urls_first (w : World) (urls : list string) (df : DataFrame) :
  try_urls w urls = Some df ->
  exists pre url post,
    urls = (pre ++ url :: post)%list
    /\ try_url w url = Ok (Some df)
    /\ forall u, In u pre -> forall d, try_url w u <> Ok (Some d).
Proof.
  induction urls as [|url rest IH]; cbn [try_urls]; [discriminate|].
  destruct (try_url w url) as [[df'|]|e] eqn:Hu; intros H.
  - inversion H; subst. exists [], url, rest. repeat split; auto.
  - destruct (IH H) as (pre & u & post & -> & Hu' & Hpre).
    exists (url :: pre), u, post. repeat split; auto.
    intros v [<-|Hv] d; [congruence|now apply Hpre].
  - destruct (IH H) as (pre & u & post & -> & Hu' & Hpre).
    exists (url :: pre), u, post. repeat split; auto.
    intros v [<-|Hv] d; [congruence|now apply Hpre].
Qed.

(** The three ways a call of the loader can end, with all it leaves
    behind. *)
Lemma load_outcome_cases (w : World) (out : Outcome) :
  load_gco_data w = Ok out ->
  (exists df, path_exists w local_file = true
              /\ try_local_file w = Ok (Some df)
              /\ out = mkOutcome df None [LoadedLocalFile])
  \/ (exists shown df,
        only_warnings shown
        /\ (path_exists w local_file = false
            \/ forall d, try_local_file w <> Ok (Some d))
        /\ try_urls w urls_to_try = Some df
        /\ out = mkOutcome df (Some df) (shown ++ [LoadedGoogleSheets]))
  \/ (exists shown,
        only_warnings shown
        /\ (path_exists w local_file = false
            \/ forall d, try_local_file w <> Ok (Some d))
        /\ try_urls w urls_to_try = None
        /\ out = mkOutcome (fst (create_sample_data (random_state w))) None
                   (shown ++ [CouldNotAccessGoogleSheets; UsingSampleData])).
Proof.
  unfold load_gco_data.
  assert (Hrest : forall shown,
             only_warnings shown ->
             (path_exists w local_file = false
              \/ forall d, try_local_file w <> Ok (Some d)) ->
             load_remote_or_sample w shown = Ok out ->
             (exists shown df,
                 only_warnings shown
                 /\ (path_exists w local_file = false
                     \/ forall d, try_local_file w <> Ok (Some d))
                 /\ try_urls w urls_to_try = Some df
                 /\ out = mkOutcome df (Some df) (shown ++ [LoadedGoogleSheets]))
             \/ (exists shown,
                    only_warnings shown
                    /\ (path_exists w local_file = false
                        \/ forall d, try_local_file w <> Ok (Some d))
                    /\ try_urls w urls_to_try = None
                    /\ out = mkOutcome (fst (create_sample_data (random_state w)))
                               None
                               (shown ++ [CouldNotAccessGoogleSheets;
                                          UsingSampleData]))).
  { intros shown Hs Hl H.
    destruct (load_remote_or_sample_cases w shown) as [(df & Hu & E)|(Hu & E)];
      pose proof (Ok_injective _ _ (eq_trans (eq_sym H) E)) as Hout;
      [left|right].
    - exists shown, df. split; [exact Hs|]. split; [exact Hl|].
      split; [exact Hu|exact Hout].
    - exists shown. split; [exact Hs|]. split; [exact Hl|].
      split; [exact Hu|exact Hout]. }
  destruct (path_exists w local_file) eqn:Hp.
  - destruct (try_local_file w) as [[df|]|e] eqn:Hl; intros H.
    + left. inversion H; subst. eauto.
    + right. apply (Hrest []); [now left|right; congruence|exact H].
    + right. apply (Hrest [CouldNotReadLocalFile e]);
        [right; eauto|right; congruence|exact H].
  - intros H. right. apply (Hrest []); [now left|now left|exact H].
Qed.

Lemma not_sheets_in_warnings (shown : list notice) (tail : list notice) :
  only_warnings shown ->
  ~ In LoadedGoogleSheets tail ->
  ~ In LoadedGoogleSheets (shown ++ tail)%list.
Proof.
  intros Hs Ht H. apply (only_warnings_after _ _ _ Hs) in H as [[e H]|H];
    [discriminate H|auto].
Qed.

(** X4: the loader writes the cache file only for a sheet it has just
    downloaded and is about to return, and the write has succeeded; when
    the file cannot be written no downloaded sheet is ever returned. *)
Theorem load_writes_cache_only_after_download (w : World) (out : Outcome) :
  load_gco_data w = Ok out ->
  match cache_written out with
  | Some df => df = returned out
               /\ to_csv w df local_file = Ok tt
               /\ In LoadedGoogleSheets (notices out)
  | None => ~ In LoadedGoogleSheets (notices out)
  end
  /\ ((forall df, to_csv w df local_file <> Ok tt) ->
      cache_written out = None /\ ~ In LoadedGoogleSheets (notices out)).
Proof.
  intros H.
  assert (Hmain : match cache_written out with
                  | Some df => df = returned out
                               /\ to_csv w df local_file = Ok tt
                               /\ In LoadedGoogleSheets (notices out)
                  | None => ~ In LoadedGoogleSheets (notices out)
                  end).
  { destruct (load_outcome_cases w out H)
      as [(df & _ & _ & ->)|[(shown & df & Hs & _ & Hu & ->)|(shown & Hs & _ & _ & ->)]];
      cbn [cache_written returned notices].
    - intros [E|[]]. discriminate E.
    - split; [reflexivity|]. split.
      + apply try_urls_valid in Hu as (url & _ & Hu). now apply try_url_writes in Hu.
      + apply in_or_app. right. now left.
    - apply not_sheets_in_warnings; [exact Hs|].
      intros [E|[E|[]]]; discriminate E. }
  split; [exact Hmain|]. intros Hro.
  destruct (cache_written out) as [df|]; [|now split].
  destruct Hmain as (_ & Hw & _). now elim (Hro df).
Qed.

Lemma load_writes_cache_only_after_download_witness :
  exists out,
    load_gco_data read_only_world = Ok out
    /\ cache_written out = None /\ ~ In LoadedGoogleSheets (notices out).
Proof.
  destruct (load_gco_data_cases read_only_world) as (out & Hload & _).
  exists out. split; [exact Hload|].
  apply (load_writes_cache_only_after_download read_only_world out Hload).
  intros df. discriminate.
Defined.

(** X5: the first source that succeeds wins: a cache file that exists,
    parses and validates is returned whatever the network would answer,
    and a downloaded sheet comes from the first URL, in the order of the
    list, whose attempt succeeds. *)
Theorem load_first_success_wins (w : World) (out : Outcome) :
  load_gco_data w = Ok out ->
  (path_exists w local_file = true ->
   forall df, read_csv_file w local_file = Ok df -> validate df = true ->
              out = mkOutcome df None [LoadedLocalFile])
  /\ (In LoadedGoogleSheets (notices out) ->
      exists pre url post,
        urls_to_try = (pre ++ url :: post)%list
        /\ try_url w url = Ok (Some (returned out))
        /\ forall u, In u pre -> forall d, try_url w u <> Ok (Some d)).
Proof.
  intros H. split.
  - intros Hp df Hr Hv. unfold load_gco_data, try_local_file in H.
    rewrite Hp, Hr in H. cbn [Py.bind] in H. rewrite Hv in H. congruence.
  - intros Hin.
    destruct (load_outcome_cases w out H)
      as [(df & _ & _ & ->)|[(shown & df & Hs & _ & Hu & ->)|(shown & Hs & _ & _ & ->)]];
      cbn [returned notices] in *.
    + destruct Hin as [E|[]]. discriminate E.
    + now apply try_urls_first.
    + exfalso. revert Hin. apply not_sheets_in_warnings; [exact Hs|].
      intros [E|[E|[]]]; discriminate E.
Qed.

Lemma load_first_success_wins_witness :
  exists out,
    load_gco_data second_url_world = Ok out
    /\ In LoadedGoogleSheets (notices out)
    /\ exists pre url post,
         urls_to_try = (pre ++ url :: post)%list
         /\ try_url second_url_world url = Ok (Some (returned out))
         /\ forall u, In u pre -> forall d, try_url second_url_world u <> Ok (Some d).
Proof.
  exists sheets_outcome.
  assert (Hload : load_gco_data second_url_world = Ok sheets_outcome)
    by (vm_compute; reflexivity).
  assert (Hin : In LoadedGoogleSheets (notices sheets_outcome)) by (now left).
  split; [exact Hload|]. split; [exact Hin|].
  exact (proj2 (load_first_success_wins second_url_world sheets_outcome Hload) Hin).
Defined.

(** ** Error pages *)

Lemma lstrip_spaces (ws t : text) :
  forallb isspace ws = true -> lstrip (ws ++ t)%list = lstrip t.
Proof.
  induction ws as [|c ws IH]; cbn [forallb app lstrip]; intros H; [reflexivity|].
  apply andb_prop in H as [Hc Hws]. rewrite Hc. now apply IH.
Qed.

Lemma lstrip_keeps_tail (r t : text) (c : N) :
  isspace c = false ->
  exists r', lstrip (r ++ c :: t)%list = (r' ++ c :: t)%list.
Proof.
  intros Hc. induction r as [|x r IH]; cbn [app lstrip].
  - rewrite Hc. now exists [].
  - destruct (isspace x); [exact IH|]. now exists (x :: r).
Qed.

Lemma startswith_app (a t : text) : startswith a (a ++ t)%list = true.
Proof.
  induction a as [|c a IH]; cbn [app startswith]; [reflexivity|].
  now rewrite N.eqb_refl, IH.
Qed.

Lemma strip_doctype (ws rest : text) :
  forallb isspace ws = true ->
  startswith doctype (strip (ws ++ doctype ++ rest)%list) = true.
Proof.
  intros Hws. unfold strip. rewrite (lstrip_spaces ws _ Hws).
  change (lstrip (doctype ++ rest)%list) with (doctype ++ rest)%list.
  rewrite rev_app_distr.
  change (rev doctype) with (69 :: rev [60; 33; 68; 79; 67; 84; 89; 80])%N.
  destruct (lstrip_keeps_tail (rev rest) (rev [60; 33; 68; 79; 67; 84; 89; 80]%N)
              69%N eq_refl) as [r' Hr'].
  rewrite Hr', rev_app_distr.
  change (rev (69 :: rev [60; 33; 68; 79; 67; 84; 89; 80]))%N with doctype.
  apply startswith_app.
Qed.

(** X6: a response whose body, after any leading white space, begins with
    '<!DOCTYPE' is never parsed nor accepted, whatever [read_csv] would
    make of it: the attempt ends without a frame (or with the HTTP error of
    the status line) and the loop goes on to the next URL. *)
Theorem html_page_never_accepted (w : World) (url : string) (resp : Response)
    (ws rest : text) :
  requests_get w url = Ok resp ->
  response_text resp = (ws ++ doctype ++ rest)%list ->
  forallb isspace ws = true ->
  try_url w url = (if status_ok resp then Ok None else Raise HTTPError)
  /\ forall urls, try_urls w (url :: urls) = try_urls w urls.
Proof.
  intros Hg Ht Hws.
  assert (Hu : try_url w url = (if status_ok resp then Ok None else Raise HTTPError)).
  { unfold try_url. rewrite Hg. cbn [Py.bind]. unfold raise_for_status.
    destruct (status_ok resp); cbn [Py.bind]; [|reflexivity].
    rewrite Ht, (strip_doctype ws rest Hws). cbn [negb].
    now destruct (ws ++ doctype ++ rest)%list. }
  split; [exact Hu|]. intros urls. cbn [try_urls]. rewrite Hu.
  now destruct (status_ok resp).
Qed.

Lemma html_page_never_accepted_witness :
  requests_get html_world (hd "" urls_to_try) = Ok (mkResponse true html_text)
  /\ html_text = ([32; 32]%N ++ doctype ++ [32; 104; 116; 109; 108; 62]%N)%list
  /\ forallb isspace [32; 32]%N = true
  /\ try_url html_world (hd "" urls_to_try) = Ok None.
Proof.
  split; [reflexivity|]. split; [reflexivity|]. split; [reflexivity|].
  exact (proj1 (html_page_never_accepted html_world (hd "" urls_to_try)
                  (mkResponse true html_text) [32; 32]%N
                  [32; 104; 116; 109; 108; 62]%N eq_refl eq_refl eq_refl)).
Defined.

(** ** The order of strings *)

Lemma ascii_compare_lt_trans (a b c : ascii) :
  Ascii.compare a b = Lt -> Ascii.compare b c = Lt -> Ascii.compare a c = Lt.
Proof.
  unfold Ascii.compare. rewrite !N.compare_lt_iff. lia.
Qed.

Lemma string_compare_refl (s : string) : String.compare s s = Eq.
Proof.
  induction s as [|c s IH]; cbn [String.compare]; [reflexivity|].
  unfold Ascii.compare. now rewrite N.compare_refl.
Qed.

Lemma string_lt_trans (a b c : string) :
  string_lt a b -> string_lt b c -> string_lt a c.
Proof.
  unfold string_lt. revert b c.
  induction a as [|x a IH]; intros [|y b] [|z c]; cbn [String.compare];
    try discriminate; try reflexivity.
  destruct (Ascii.compare x y) eqn:Hxy; try discriminate;
    destruct (Ascii.compare y z) eqn:Hyz; try discriminate; intros H1 H2.
  - apply Ascii.compare_eq_iff in Hxy, Hyz. subst.
    unfold Ascii.compare at 1. rewrite N.compare_refl. eapply IH; eauto.
  - apply Ascii.compare_eq_iff in Hxy. subst. now rewrite Hyz.
  - apply Ascii.compare_eq_iff in Hyz. subst. now rewrite Hxy.
  - now rewrite (ascii_compare_lt_trans x y z).
Qed.

Lemma string_lt_irrefl (a : string) : ~ string_lt a a.
Proof. unfold string_lt. now rewrite string_compare_refl. Qed.

Lemma string_compare_gt_lt (a b : string) :
  String.compare a b = Gt -> string_lt b a.
Proof.
  unfold string_lt. intros H. rewrite String.compare_antisym, H. reflexivity.
Qed.

Lemma string_lt_sorted_NoDup (l : list string) :
  StronglySorted string_lt l -> NoDup l.
Proof.
  induction 1 as [|x xs Hs IH Hx]; constructor; [|exact IH].
  intros Hin. rewrite Forall_forall in Hx. exact (string_lt_irrefl x (Hx x Hin)).
Qed.

(** ** The groups of [groupby] *)

Lemma insert_key_In (k x : string) (ks : list string) :
  In x (insert_key k ks) <-> x = k \/ In x ks.
Proof.
  induction ks as [|k' ks IH]; cbn [insert_key].
  - cbn. intuition.
  - destruct (String.compare k k') eqn:Hc.
    + apply String.compare_eq_iff in Hc. subst. cbn. intuition.
    + cbn. intuition.
    + cbn [In]. rewrite IH. intuition.
Qed.

Lemma insert_key_sorted (k : string) (ks : list string) :
  StronglySorted string_lt ks -> StronglySorted string_lt (insert_key k ks).
Proof.
  induction 1 as [|k' ks Hs IH Hk']; cbn [insert_key].
  - repeat constructor.
  - destruct (String.compare k k') eqn:Hc.
    + now constructor.
    + constructor; [now constructor|]. constructor; [exact Hc|].
      eapply Forall_impl; [|exact Hk']. intros y Hy.
      eapply string_lt_trans; eauto.
    + constructor; [exact IH|]. apply Forall_forall. intros y Hy.
      apply insert_key_In in Hy as [->|Hy].
      * now apply string_compare_gt_lt.
      * rewrite Forall_forall in Hk'. now apply Hk'.
Qed.

Lemma group_keys_spec (ser : Series) (ks : list string) :
  group_keys ser = Ok ks ->
  StronglySorted string_lt ks /\ forall k, In k ks <-> In (VStr k) ser.
Proof.
  revert ks. induction ser as [|v ser IH]; cbn [group_keys]; intros ks H.
  - inversion H; subst. split; [constructor|]. intros k. cbn. tauto.
  - destruct v as [q|s|]; [discriminate| |].
    + destruct (group_keys ser) as [ks'|e]; cbn [Py.bind] in H; [|discriminate].
      inversion H; subst. destruct (IH ks' eq_refl) as [Hs Hin]. split.
      * now apply insert_key_sorted.
      * intros k. rewrite insert_key_In, Hin. cbn [In].
        split; [intros [->|Hk]; auto|intros [E|Hk]; [inversion E|]; auto].
    + destruct (IH ks H) as [Hs Hin]. split; [exact Hs|].
      intros k. rewrite Hin. cbn [In]. split; [auto|intros [E|Hk]; [discriminate E|auto]].
Qed.

(** ** Who is on the leaderboard *)

Lemma ranked_players (sorted : list (string * list value)) :
  map (cell 0) (ranked sorted) = map VStr (map fst sorted).
Proof.
  unfold ranked.
  assert (Hlen : length (range1 (length sorted)) = length sorted)
    by (unfold range1; now rewrite length_map, length_seq).
  revert Hlen. generalize (range1 (length sorted)).
  induction sorted as [|e es IH]; intros [|r rs] Hlen; cbn in *;
    try discriminate; [reflexivity|].
  now rewrite IH by lia.
Qed.

Lemma rows_where_In (df : DataFrame) (name s : string) (i : nat) (r : list value) :
  index_of name (columns df) = Some i ->
  In r (rows_where df name s) <-> In r (rows df) /\ cell i r = VStr s.
Proof.
  intros Hi. unfold rows_where. rewrite Hi, filter_In.
  unfold value_eq_str. destruct (cell i r) as [q|s'|]; try (intuition discriminate).
  rewrite String.eqb_eq. split; intros [H1 H2]; split; congruence.
Qed.

(** X7: the leaderboard lists every player that has a record in the
    tournament, once, and nobody else. *)
Theorem leaderboard_one_row_per_player (df : DataFrame) (t : string) :
  conforms df = true ->
  exists lb names,
    create_tournament_leaderboard df t = Ok lb
    /\ getitem lb "Player" = Ok (map VStr names)
    /\ length names = len lb
    /\ NoDup names
    /\ forall p, In p names <-> has_record df p t.
Proof.
  intros Hc. destruct (leaderboard_closed_form df t Hc) as (i & ks & Hi & Hks & Hlb).
  destruct (conforms_label df Hc) as (_ & Ht & _).
  destruct (label_column_index _ _ Ht) as [it Hit].
  set (td := mkDataFrame (columns df) (rows_where df "Tournament" t)) in *.
  set (sorted := sort_by (sort_key 0) (map (rounded_entry td) ks)) in *.
  destruct (group_keys_spec _ _ Hks) as [Hsorted Hin].
  assert (Hperm : Permutation ks (map fst sorted)).
  { unfold sorted. rewrite <- (sort_by_perm (sort_key 0)), map_map. cbn [rounded_entry fst].
    now rewrite map_id. }
  eexists. exists (map fst sorted). split; [exact Hlb|]. repeat split.
  - unfold getitem. cbn [columns rows].
    change (index_of "Player" final_columns) with (Some 0%nat). cbv iota beta.
    now rewrite ranked_players.
  - unfold len. cbn [rows]. now rewrite ranked_length, length_map.
  - apply (Permutation_NoDup Hperm). now apply string_lt_sorted_NoDup.
  - intros Hp. apply (Permutation_in _ (Permutation_sym Hperm)), Hin in Hp.
    cbn [rows td] in Hp. apply in_map_iff in Hp as (r & Hr & Hrin).
    exists r. split; [|exact Hrin].
    apply (rows_where_In df "Tournament" t it r Hit) in Hrin as [Hrin _].
    now apply (rows_where_In df "Player" p i r Hi).
  - intros (r & Hrp & Hrt). apply (Permutation_in _ Hperm), Hin.
    cbn [rows td]. apply in_map_iff. exists r. split; [|exact Hrt].
    now apply (rows_where_In df "Player" p i r Hi) in Hrp as [_ Hrp].
Qed.

Lemma leaderboard_one_row_per_player_witness :
  conforms tournament_data = true
  /\ exists lb names,
       create_tournament_leaderboard tournament_data "提提卡卡杯" = Ok lb
       /\ getitem lb "Player" = Ok (map VStr names)
       /\ length names = 3%nat /\ NoDup names.
Proof.
  split; [reflexivity|].
  destruct (leaderboard_one_row_per_player tournament_data "提提卡卡杯" eq_refl)
    as (lb & names & H1 & H2 & H3 & H4 & _).
  exists lb, names. repeat split; try assumption.
  rewrite H3. rewrite leaderboard_of_test_data in H1. inversion H1. reflexivity.
Defined.

(** ** Sorting on a key *)

Section SortOnFacts.
Context {A K : Type} (le : K -> K -> bool) (key : A -> K).
Hypothesis le_total : forall a b, le a b = false -> le b a = true.
Hypothesis le_trans : forall a b c, le a b = true -> le b c = true -> le a c = true.

Lemma insert_on_perm (x : A) (l : list A) :
  Permutation (x :: l) (insert_on le key x l).
Proof.
  induction l as [|y ys IH]; cbn [insert_on]; [reflexivity|].
  destruct (le (key x) (key y)); [reflexivity|].
  rewrite perm_swap. now constructor.
Qed.

Lemma sort_on_perm (l : list A) : Permutation l (sort_on le key l).
Proof.
  induction l as [|x xs IH]; cbn [sort_on fold_right]; [constructor|].
  rewrite <- insert_on_perm. now constructor.
Qed.

Lemma insert_on_sorted (x : A) (l : list A) :
  StronglySorted (fun a b => le (key a) (key b) = true) l ->
  StronglySorted (fun a b => le (key a) (key b) = true) (insert_on le key x l).
Proof.
  induction 1 as [|y ys Hs IH Hy]; cbn [insert_on].
  - repeat constructor.
  - destruct (le (key x) (key y)) eqn:Hxy.
    + constructor; [now constructor|].
      constructor; [exact Hxy|].
      eapply Forall_impl; [|exact Hy]. intros z Hz. eapply le_trans; eauto.
    + constructor; [exact IH|].
      apply (Permutation_Forall (insert_on_perm x ys)).
      constructor; [|exact Hy]. now apply le_total.
Qed.

Lemma sort_on_sorted (l : list A) :
  StronglySorted (fun a b => le (key a) (key b) = true) (sort_on le key l).
Proof.
  induction l as [|x xs IH]; cbn [sort_on fold_right]; [constructor|].
  now apply insert_on_sorted.
Qed.
End SortOnFacts.

Lemma insert_on_map {A B K : Type} (le : K -> K -> bool) (key : B -> K)
    (f : A -> B) (x : A) (l : list A) :
  map f (insert_on le (fun a => key (f a)) x l) = insert_on le key (f x) (map f l).
Proof.
  induction l as [|y ys IH]; cbn [insert_on map]; [reflexivity|].
  destruct (le (key (f x)) (key (f y))); cbn [map]; [reflexivity|now rewrite IH].
Qed.

Lemma sort_on_map {A B K : Type} (le : K -> K -> bool) (key : B -> K)
    (f : A -> B) (l : list A) :
  map f (sort_on le (fun a => key (f a)) l) = sort_on le key (map f l).
Proof.
  induction l as [|x xs IH]; cbn [sort_on fold_right map]; [reflexivity|].
  rewrite insert_on_map. f_equal. exact IH.
Qed.

Lemma string_leb_trans (a b c : string) :
  String.leb a b = true -> String.leb b c = true -> String.leb a c = true.
Proof.
  unfold String.leb.
  destruct (String.compare a b) eqn:Hab; try discriminate;
    destruct (String.compare b c) eqn:Hbc; try discriminate; intros _ _.
  - apply String.compare_eq_iff in Hab, Hbc. subst.
    now rewrite string_compare_refl.
  - apply String.compare_eq_iff in Hab. subst. now rewrite Hbc.
  - apply String.compare_eq_iff in Hbc. subst. now rewrite Hab.
  - now rewrite (string_lt_trans a b c Hab Hbc).
Qed.

Lemma label_le_total (a b : option string) :
  label_le a b = false -> label_le b a = true.
Proof.
  destruct a as [x|], b as [y|]; cbn; try congruence.
  intros H. destruct (String.leb_total x y); congruence.
Qed.

Lemma label_le_trans (a b c : option string) :
  label_le a b = true -> label_le b c = true -> label_le a c = true.
Proof.
  destruct a as [x|], b as [y|], c as [z|]; cbn; try congruence.
  apply string_leb_trans.
Qed.

(** ** [create_player_performance_chart] *)

Lemma combine_maps {A B C : Type} (f : A -> B) (g : A -> C) (l : list A) :
  combine (map f l) (map g l) = map (fun a => (f a, g a)) l.
Proof. induction l as [|x xs IH]; cbn; [reflexivity|now rewrite IH]. Qed.

Lemma label_column_keys (df : DataFrame) (name : string) (i : nat)
    (g : list value -> bool) :
  label_column df name = true ->
  index_of name (columns df) = Some i ->
  forallb is_label (map (cell i) (filter g (rows df))) = true.
Proof.
  unfold label_column. intros H Hi. rewrite Hi in H.
  rewrite forallb_over_map. now apply forallb_filter.
Qed.

(** The chart of a conforming dataset, in closed form. *)
Lemma performance_chart_closed_form (df : DataFrame) (p : string) :
  conforms df = true ->
  exists ip ig inn,
    index_of "Player" (columns df) = Some ip
    /\ index_of "Game" (columns df) = Some ig
    /\ index_of "Net_Score" (columns df) = Some inn
    /\ let sorted := sort_on label_le (fun r => label_key (cell ig r))
                             (rows_where df "Player" p) in
       create_player_performance_chart df p
       = Ok (mkFigure [mkScatter (map (cell ig) sorted) (map (cell inn) sorted)
                                 "Net Score"]
                      [0%Q] (p ++ " - Performance Trend")).
Proof.
  intros Hc. destruct (conforms_label df Hc) as (Hl & _ & Hg).
  destruct (conforms_numeric df Hc) as (Hn & _).
  destruct (label_column_index _ _ Hl) as [ip Hip].
  destruct (label_column_index _ _ Hg) as [ig Hig].
  pose proof Hn as Hn'. unfold numeric_column in Hn'.
  destruct (index_of "Net_Score" (columns df)) as [inn|] eqn:Hinn; [|discriminate].
  exists ip, ig, inn. repeat split; auto.
  destruct (player_data_rows df p ip Hip) as [Hget Hmask].
  unfold create_player_performance_chart. rewrite Hget. cbn [Py.bind].
  rewrite Hmask. unfold rows_where. rewrite Hip.
  unfold DataFrame_sort_values. cbn [columns rows]. rewrite Hig.
  rewrite (label_column_keys df "Game" ig _ Hg Hig). cbn [Py.bind].
  unfold getitem. cbn [columns rows]. rewrite Hig, Hinn. reflexivity.
Qed.

(** X8: the performance chart of a player plots each of the player's
    records once, as the pair of its game and its net score, nothing else,
    in ascending order of the game labels compared as strings (missing
    labels last); a player without records gets an empty trace, not an
    error. *)
Theorem performance_chart_plots_every_record (df : DataFrame) (p : string) :
  conforms df = true ->
  exists x y,
    create_player_performance_chart df p
    = Ok (mkFigure [mkScatter x y "Net Score"] [0%Q] (p ++ " - Performance Trend"))
    /\ Permutation (combine x y)
                   (map (fun r => (field df "Game" r, field df "Net_Score" r))
                        (rows_where df "Player" p))
    /\ label_sorted x
    /\ (rows_where df "Player" p = [] -> x = [] /\ y = []).
Proof.
  intros Hc.
  destruct (performance_chart_closed_form df p Hc)
    as (ip & ig & inn & Hip & Hig & Hinn & Hfig).
  cbv zeta in Hfig.
  set (sorted := sort_on label_le (fun r => label_key (cell ig r))
                         (rows_where df "Player" p)) in *.
  exists (map (cell ig) sorted), (map (cell inn) sorted).
  split; [exact Hfig|]. split; [|split].
  - rewrite combine_maps. unfold field. rewrite Hig, Hinn.
    apply Permutation_map, Permutation_sym, sort_on_perm.
  - unfold label_sorted.
    apply (StronglySorted_map
             (fun a b => label_le (label_key (cell ig a)) (label_key (cell ig b)) = true)
             _ (fun _ => True)).
    + auto.
    + apply Forall_forall. auto.
    + apply (sort_on_sorted label_le (fun r => label_key (cell ig r))
               label_le_total label_le_trans).
  - intros Hnone. unfold sorted. rewrite Hnone. split; reflexivity.
Qed.

Lemma performance_chart_plots_every_record_witness :
  conforms tournament_data = true
  /\ exists x y,
       create_player_performance_chart tournament_data "Player2"
       = Ok (mkFigure [mkScatter x y "Net Score"] [0%Q]
                      "Player2 - Performance Trend")
       /\ label_sorted x.
Proof.
  split; [reflexivity|].
  destruct (performance_chart_plots_every_record tournament_data "Player2" eq_refl)
    as (x & y & H1 & _ & H3 & _).
  exists x, y. split; assumption.
Defined.

(** ** The sample data conform to the data model *)

Lemma sample_record_labelled (p t g : string) (rs : RandomState) :
  Forall labelled (fst (sample_record p t g rs)).
Proof. constructor; [|constructor]. exists p, t, g. reflexivity. Qed.

Lemma sample_records_labelled (rs : RandomState) :
  Forall labelled (fst (sample_records rs)).
Proof.
  unfold sample_records.
  apply for_each_Forall. intros p rs1.
  apply for_each_Forall. intros t rs2.
  apply for_each_Forall. intros g rs3.
  apply sample_record_labelled.
Qed.

Lemma generated_row_kinds (r : record) :
  generated r -> labelled r ->
  is_label (cell 0 (map snd r)) = true /\ is_label (cell 1 (map snd r)) = true
  /\ is_label (cell 2 (map snd r)) = true /\ is_numeric (cell 3 (map snd r)) = true
  /\ is_numeric (cell 4 (map snd r)) = true /\ is_numeric (cell 5 (map snd r)) = true
  /\ is_numeric (cell 6 (map snd r)) = true /\ is_numeric (cell 7 (map snd r)) = true.
Proof.
  intros (Hk & (z3 & H3 & _) & (z4 & H4 & _) & (z5 & H5 & _) & (z6 & H6 & _)
          & (z7 & H7 & _)) (p & t & g & Hl).
  destruct (generated_shape r Hk) as (v0 & v1 & v2 & v3 & v4 & v5 & v6 & v7 & ->).
  cbn in *. inversion Hl; subst. repeat split; reflexivity.
Qed.

Lemma sample_data_conforms (rs : RandomState) :
  conforms (fst (create_sample_data rs)) = true.
Proof.
  rewrite create_sample_data_frame.
  pose proof (sample_records_generated rs) as Hg.
  pose proof (sample_records_labelled rs) as Hl.
  assert (Hrows : forall row, In row (map (map snd) (fst (sample_records rs))) ->
            is_label (cell 0 row) = true /\ is_label (cell 1 row) = true
            /\ is_label (cell 2 row) = true /\ is_numeric (cell 3 row) = true
            /\ is_numeric (cell 4 row) = true /\ is_numeric (cell 5 row) = true
            /\ is_numeric (cell 6 row) = true /\ is_numeric (cell 7 row) = true).
  { intros row Hin. rewrite in_map_iff in Hin. destruct Hin as (r & <- & Hr).
    rewrite Forall_forall in Hg, Hl. apply generated_row_kinds; auto. }
  clear Hg Hl. set (rws := map (map snd) (fst (sample_records rs))) in *.
  clearbody rws.
  unfold conforms, label_column, numeric_column. cbn [columns rows forallb].
  change (index_of "Player" sample_columns) with (Some 0%nat).
  change (index_of "Tournament" sample_columns) with (Some 1%nat).
  change (index_of "Game" sample_columns) with (Some 2%nat).
  change (index_of "Net_Score" sample_columns) with (Some 3%nat).
  change (index_of "Birdies" sample_columns) with (Some 4%nat).
  change (index_of "Pars" sample_columns) with (Some 5%nat).
  change (index_of "Bogeys" sample_columns) with (Some 6%nat).
  change (index_of "Double_Bogeys" sample_columns) with (Some 7%nat).
  cbv iota beta.
  repeat (apply andb_true_intro; split);
    first [ apply forallb_forall; intros row Hin; apply Hrows in Hin; tauto
          | exact eq_refl ].
Qed.

(** The player and the game of the generated rows, in order. *)
Lemma sample_player_game_columns (rs : RandomState) :
  map (fun r => (cell 0 r, cell 2 r)) (rows (fst (create_sample_data rs)))
  = map (fun c => (VStr (fst (fst c)), VStr (snd c))) combinations.
Proof.
  rewrite create_sample_data_frame. cbn [rows].
  pose proof (sample_records_keys rs) as Hk.
  apply (f_equal (map (fun k => (fst (fst k), snd k)))) in Hk.
  rewrite !map_map in Hk. rewrite map_map. exact Hk.
Qed.

Lemma map_filter_pairs {A B C : Type} (f : A -> B) (h : A -> C) (g : C -> bool)
    (l : list A) :
  map f (filter (fun a => g (h a)) l)
  = map snd (filter (fun kv => g (fst kv)) (map (fun a => (h a, f a)) l)).
Proof.
  induction l as [|a l IH]; cbn [map filter fst]; [reflexivity|].
  destruct (g (h a)); cbn [map snd]; now rewrite IH.
Qed.

(** X9: on the synthetic data the chart of every player shows the twelve
    games in the order of their labels as strings, 'Game 10' to 'Game 12'
    before 'Game 2', whatever the random draws. *)
Theorem sample_chart_orders_games_as_strings (rs : RandomState) (p : string) :
  In p players ->
  exists y,
    create_player_performance_chart (fst (create_sample_data rs)) p
    = Ok (mkFigure [mkScatter (map VStr games_in_string_order) y "Net Score"]
                   [0%Q] (p ++ " - Performance Trend"))
    /\ length y = 12%nat.
Proof.
  intros Hp.
  destruct (performance_chart_closed_form _ p (sample_data_conforms rs))
    as (ip & ig & inn & Hip & Hig & Hinn & Hfig).
  cbv zeta in Hfig. revert Hip Hig Hinn Hfig.
  unfold rows_where.
  replace (columns (fst (create_sample_data rs))) with sample_columns
    by (now rewrite create_sample_data_frame).
  intros Hip Hig Hinn. inversion Hip; inversion Hig; inversion Hinn. subst.
  change (index_of "Player" sample_columns) with (Some 0%nat). cbv iota beta.
  intros Hfig.
  assert (Hx : map (cell 2)
                 (sort_on label_le (fun r => label_key (cell 2 r))
                    (filter (fun r => value_eq_str p (cell 0 r))
                            (rows (fst (create_sample_data rs)))))
               = map VStr games_in_string_order).
  { rewrite (sort_on_map label_le label_key (cell 2)).
    rewrite (map_filter_pairs (cell 2) (cell 0) (value_eq_str p)).
    rewrite sample_player_game_columns.
    cbn [players In] in Hp.
    repeat (destruct Hp as [<-|Hp]; [vm_compute; reflexivity|]).
    contradiction. }
  rewrite Hx in Hfig. eexists. split; [exact Hfig|].
  rewrite length_map.
  apply (f_equal (@length _)) in Hx. rewrite !length_map in Hx. exact Hx.
Qed.

Lemma sample_chart_orders_games_as_strings_witness :
  In "Neo" players
  /\ exists y,
       create_player_performance_chart (fst (create_sample_data (fun _ => 0))) "Neo"
       = Ok (mkFigure [mkScatter (map VStr games_in_string_order) y "Net Score"]
                      [0%Q] "Neo - Performance Trend").
Proof.
  assert (Hin : In "Neo" players) by (do 4 right; left; reflexivity).
  split; [exact Hin|].
  destruct (sample_chart_orders_games_as_strings (fun _ => 0) "Neo" Hin)
    as (y & Hy & _).
  exists y. exact Hy.
Defined.

(** ** [create_comparison_chart] *)

Lemma has_column_of_conforms (df : DataFrame) :
  conforms df = true -> has_column df "Player" = true.
Proof.
  intros Hc. destruct (conforms_label df Hc) as (Hl & _).
  destruct (label_column_index _ _ Hl) as [i Hi].
  unfold has_column. now rewrite Hi.
Qed.

(** The rows of the comparison, in closed form. *)
Lemma comparison_data_closed_form (df : DataFrame) (ps : list string) :
  conforms df = true ->
  comparison_data df ps = Ok (map (comparison_row df) (filter (has_rows df) ps)).
Proof.
  intros Hc. induction ps as [|p ps IH]; [reflexivity|].
  cbn [comparison_data filter]. rewrite IH. unfold has_rows at 2.
  destruct (rows_where df "Player" p) as [|r rs] eqn:Hr.
  - rewrite calculate_player_stats_none;
      [reflexivity|now apply has_column_of_conforms|exact Hr].
  - rewrite calculate_player_stats_some by (auto; congruence). reflexivity.
Qed.

(** X10: the comparison figure cannot be built when none of the requested
    players has a record (in particular for an empty request): reading the
    Player column of the empty comparison frame raises KeyError 'Player'.
    As soon as one of them has a record, the figure has its four bar
    traces, each over the requested players that have records, in the order
    of the request. *)
Theorem comparison_chart_needs_one_player (df : DataFrame) (ps : list string) :
  conforms df = true ->
  (filter (has_rows df) ps = [] ->
   create_comparison_chart df ps = Raise (KeyError "Player"))
  /\ (filter (has_rows df) ps <> [] ->
      exists bars,
        create_comparison_chart df ps = Ok bars
        /\ map bar_name bars
           = ["Avg Net Score"; "Total Birdies"; "Birdie Rate"; "Consistency"]
        /\ forall b, In b bars ->
                     bar_x b = filter (has_rows df) ps
                     /\ length (bar_y b) = length (bar_x b)).
Proof.
  intros Hc. unfold create_comparison_chart.
  rewrite (comparison_data_closed_form df ps Hc). cbn [Py.bind].
  assert (Hx : map Player (map (comparison_row df) (filter (has_rows df) ps))
               = filter (has_rows df) ps).
  { rewrite map_map. cbn [comparison_row Player]. apply map_id. }
  split.
  - intros ->. reflexivity.
  - intros Hne. destruct (filter (has_rows df) ps) as [|p0 rest] eqn:Hf;
      [congruence|].
    unfold comparison_getitem. cbn [map comparison_columns index_of String.eqb].
    cbn [Py.bind]. eexists. split; [reflexivity|]. split; [reflexivity|].
    cbn [map] in Hx.
    intros b [<-|[<-|[<-|[<-|[]]]]]; cbn [bar_x bar_y];
      (split; [exact Hx|cbn [length]; now rewrite !length_map]).
Qed.

Lemma comparison_chart_needs_one_player_witness :
  conforms tournament_data = true
  /\ filter (has_rows tournament_data) ["Ghost"; "Nobody"] = []
  /\ create_comparison_chart tournament_data ["Ghost"; "Nobody"]
     = Raise (KeyError "Player").
Proof.
  split; [reflexivity|]. split; [reflexivity|].
  apply (proj1 (comparison_chart_needs_one_player tournament_data
                  ["Ghost"; "Nobody"] eq_refl)).
  reflexivity.
Defined.

(** ** The options of the player widgets *)

Lemma existsb_VStr (s : string) (seen : list string) :
  existsb (value_eqb (VStr s)) (map VStr seen) = existsb (String.eqb s) seen.
Proof.
  induction seen as [|x seen IH]; cbn; [reflexivity|]. now rewrite IH.
Qed.

Lemma unique_from_strings (seen ss : list string) :
  unique_from (map VStr seen) (map VStr ss) = map VStr (dedupe_from seen ss).
Proof.
  revert seen. induction ss as [|s ss IH]; intros seen; cbn [map unique_from dedupe_from];
    [reflexivity|].
  rewrite existsb_VStr. destruct (existsb (String.eqb s) seen).
  - apply IH.
  - cbn [map]. f_equal. apply (IH (s :: seen)).
Qed.

Lemma existsb_eqb_In (s : string) (l : list string) :
  existsb (String.eqb s) l = true <-> In s l.
Proof.
  rewrite existsb_exists. split.
  - intros (x & Hx & E). apply String.eqb_eq in E. now subst.
  - intros H. exists s. split; [exact H|apply String.eqb_refl].
Qed.

Lemma dedupe_from_In (seen ss : list string) (x : string) :
  In x (dedupe_from seen ss) <-> In x ss /\ ~ In x seen.
Proof.
  revert seen. induction ss as [|s ss IH]; intros seen; cbn [dedupe_from].
  - cbn. tauto.
  - destruct (existsb (String.eqb s) seen) eqn:Hs.
    + apply existsb_eqb_In in Hs. rewrite IH. cbn [In].
      split; [tauto|]. intros [[<-|H] Hn]; [contradiction|tauto].
    + assert (Hn : ~ In s seen).
      { intros H. apply existsb_eqb_In in H. congruence. }
      cbn [In]. rewrite IH. cbn [In].
      destruct (String.eqb_spec s x) as [->|Hne]; [tauto|]. tauto.
Qed.

Lemma dedupe_from_NoDup (seen ss : list string) : NoDup (dedupe_from seen ss).
Proof.
  revert seen. induction ss as [|s ss IH]; intros seen; cbn [dedupe_from];
    [constructor|].
  destruct (existsb (String.eqb s) seen); [apply IH|].
  constructor; [|apply IH]. rewrite dedupe_from_In. cbn [In]. tauto.
Qed.

Lemma sorted_of_strings (l : list string) :
  sorted (map VStr l) = Ok (sort_on String.leb (fun s => s) l).
Proof.
  unfold sorted.
  assert (H : mapM (fun v => match v with
                             | VStr s => Ok s
                             | _ => Raise OutOfModel
                             end) (map VStr l) = Ok l).
  { induction l as [|s l IH]; cbn [map mapM Py.bind]; [reflexivity|].
    now rewrite IH. }
  now rewrite H.
Qed.

Lemma series_of_strings (ser : Series) :
  forallb is_label ser = true -> forallb notna ser = true ->
  ser = map VStr (strings_of ser).
Proof.
  induction ser as [|v ser IH]; cbn [forallb strings_of map]; [reflexivity|].
  intros H1 H2. apply andb_prop in H1 as [Hv1 H1]. apply andb_prop in H2 as [Hv2 H2].
  destruct v; try discriminate. cbn [map]. f_equal. now apply IH.
Qed.

Lemma rows_where_nonempty (df : DataFrame) (name s : string) (i : nat) :
  index_of name (columns df) = Some i ->
  rows_where df name s <> [] <-> In (VStr s) (map (cell i) (rows df)).
Proof.
  intros Hi. rewrite in_map_iff. split.
  - intros Hne. destruct (rows_where df name s) as [|r rs] eqn:Hr; [congruence|].
    assert (Hin : In r (rows_where df name s)) by (rewrite Hr; now left).
    apply (rows_where_In df name s i r Hi) in Hin as [Hin Hc]. eauto.
  - intros (r & Hc & Hin) Hnone.
    assert (H : In r (rows_where df name s))
      by (apply (rows_where_In df name s i r Hi); auto).
    rewrite Hnone in H. destruct H.
Qed.

Lemma In_strings_of (ser : Series) (s : string) :
  In s (strings_of ser) <-> In (VStr s) ser.
Proof.
  induction ser as [|v ser IH]; cbn [strings_of]; [tauto|].
  destruct v as [q|s'|]; cbn [In]; rewrite IH.
  - split; [auto|intros [E|H]; [discriminate E|auto]].
  - split; [intros [->|H]; auto|intros [E|H]; [inversion E|]; auto].
  - split; [auto|intros [E|H]; [discriminate E|auto]].
Qed.

Lemma string_leb_false (a b : string) :
  String.leb a b = false -> String.leb b a = true.
Proof. intros H. destruct (String.leb_total a b); congruence. Qed.

(** The options, in closed form. *)
Lemma player_options_closed_form (df : DataFrame) :
  label_column df "Player" = true ->
  no_missing df "Player" = true ->
  exists i,
    index_of "Player" (columns df) = Some i
    /\ player_options df
       = Ok (sort_on String.leb (fun s => s)
               (dedupe_from [] (strings_of (map (cell i) (rows df))))).
Proof.
  unfold label_column, no_missing, player_options, getitem.
  destruct (index_of "Player" (columns df)) as [i|]; [|discriminate].
  intros Hl Hn. exists i. split; [reflexivity|]. cbn [Py.bind].
  rewrite (series_of_strings (map (cell i) (rows df)))
    by (rewrite forallb_over_map; assumption).
  unfold unique. change (@nil value) with (map VStr []).
  rewrite unique_from_strings, sorted_of_strings.
  rewrite <- series_of_strings by (rewrite forallb_over_map; assumption).
  reflexivity.
Qed.

Lemma player_options_spec (df : DataFrame) :
  label_column df "Player" = true ->
  no_missing df "Player" = true ->
  exists ps,
    player_options df = Ok ps
    /\ NoDup ps
    /\ StronglySorted (fun a b => String.leb a b = true) ps
    /\ forall p, In p ps <-> rows_where df "Player" p <> [].
Proof.
  intros Hl Hn. destruct (player_options_closed_form df Hl Hn) as (i & Hi & Hopt).
  eexists. split; [exact Hopt|].
  set (ss := strings_of (map (cell i) (rows df))).
  pose proof (sort_on_perm String.leb (fun s : string => s) (dedupe_from [] ss)) as Hperm.
  split; [|split].
  - apply (Permutation_NoDup Hperm), dedupe_from_NoDup.
  - apply (sort_on_sorted String.leb (fun s : string => s)
             string_leb_false string_leb_trans).
  - intros p. rewrite (rows_where_nonempty df "Player" p i Hi).
    rewrite <- In_strings_of. fold ss. split.
    + intros H. apply (Permutation_in _ (Permutation_sym Hperm)) in H.
      now apply dedupe_from_In in H as [H _].
    + intros H. apply (Permutation_in _ Hperm), dedupe_from_In. cbn [In]. tauto.
Qed.

(** X11: on a conforming dataset without missing player the options of
    the player widgets are the players that have records, each once, in
    ascending order; [calculate_player_stats] has statistics for every one
    of them, so the 'if stats' test of the pages never fails on a player
    picked from the options. *)
Theorem offered_players_have_statistics (df : DataFrame) :
  conforms df = true ->
  no_missing df "Player" = true ->
  exists ps,
    player_options df = Ok ps
    /\ NoDup ps
    /\ StronglySorted (fun a b => String.leb a b = true) ps
    /\ (forall p, In p ps <-> rows_where df "Player" p <> [])
    /\ (forall p, In p ps ->
                  calculate_player_stats df p = Ok (Some (stats_of df p))).
Proof.
  intros Hc Hn. destruct (conforms_label df Hc) as (Hl & _).
  destruct (player_options_spec df Hl Hn) as (ps & Hopt & Hnd & Hs & Hin).
  exists ps. repeat split; auto; try apply Hin.
  intros p Hp. apply calculate_player_stats_some; [exact Hc|now apply Hin].
Qed.

Lemma offered_players_have_statistics_witness :
  conforms tournament_data = true
  /\ no_missing tournament_data "Player" = true
  /\ player_options tournament_data = Ok ["Player1"; "Player2"; "Player3"]
  /\ exists st, calculate_player_stats tournament_data "Player2" = Ok (Some st).
Proof.
  split; [reflexivity|]. split; [reflexivity|]. split; [reflexivity|].
  destruct (offered_players_have_statistics tournament_data eq_refl eq_refl)
    as (ps & Hopt & _ & _ & _ & Hst).
  exists (stats_of tournament_data "Player2"). apply Hst.
  assert (E : ps = ["Player1"; "Player2"; "Player3"]).
  { assert (H : Ok ps = Ok ["Player1"; "Player2"; "Player3"])
      by (rewrite <- Hopt; reflexivity).
    now injection H. }
  rewrite E. right. left. reflexivity.
Defined.

(** ** The pages of [main] *)

Lemma mapM_exists {A B : Type} (f : A -> result B) (l : list A) :
  (forall x, In x l -> exists y, f x = Ok y) -> exists ys, mapM f l = Ok ys.
Proof.
  induction l as [|x xs IH]; intros H; [now exists []|].
  destruct (H x (or_introl eq_refl)) as [y Hy].
  destruct IH as [ys Hys]; [intros z Hz; apply H; now right|].
  exists (y :: ys). cbn [mapM]. now rewrite Hy, Hys.
Qed.

Lemma numeric_column_reduces (df : DataFrame) (name : string) :
  numeric_column df name = true ->
  exists ser xs, getitem df name = Ok ser /\ to_numeric ser = Ok xs.
Proof.
  unfold numeric_column, getitem.
  destruct (index_of name (columns df)) as [j|]; [|discriminate]. intros H.
  destruct (to_numeric_ok (map (cell j) (rows df))) as [xs Hxs].
  { now rewrite forallb_over_map. }
  eauto.
Qed.

Lemma leaderboard_runs (df : DataFrame) (t : string) :
  conforms df = true ->
  exists rws, create_tournament_leaderboard df t = Ok (mkDataFrame final_columns rws).
Proof.
  intros Hc. destruct (leaderboard_closed_form df t Hc) as (i & ks & _ & _ & H).
  eauto.
Qed.

Lemma overview_page_runs (df : DataFrame) :
  conforms df = true -> exists r, overview_page df = Ok r.
Proof.
  intros Hc. destruct (conforms_label df Hc) as (Hp & _ & Hg).
  destruct (conforms_numeric df Hc) as (Hn & Hb & _).
  destruct (label_column_index _ _ Hp) as [ip Hip].
  destruct (label_column_index _ _ Hg) as [ig Hig].
  destruct (numeric_column_reduces df _ Hn) as (sn & xn & Gn & Tn).
  destruct (numeric_column_reduces df _ Hb) as (sb & xb & Gb & Tb).
  destruct (mapM_exists (create_tournament_leaderboard df) tournament_names)
    as [lbs Hlbs].
  { intros t _. destruct (leaderboard_runs df t Hc) as [rws H]. eauto. }
  unfold overview_page. unfold getitem at 1 2. rewrite Hip, Hig. cbn [Py.bind].
  rewrite Gn. cbn [Py.bind]. unfold Series_mean. rewrite Tn. cbn [Py.bind].
  rewrite Gb. cbn [Py.bind]. unfold Series_sum. rewrite Tb. cbn [Py.bind].
  rewrite Hlbs. cbn [Py.bind]. eauto.
Qed.

Lemma truthy_Some (selected : option string) (p : string) :
  truthy selected = Some p -> selected = Some p.
Proof.
  destruct selected as [s|]; [|discriminate].
  destruct s; [discriminate|]. auto.
Qed.

Lemma performance_chart_runs (df : DataFrame) (p : string) :
  conforms df = true -> exists fig, create_player_performance_chart df p = Ok fig.
Proof.
  intros Hc. destruct (performance_chart_closed_form df p Hc)
    as (ip & ig & inn & _ & _ & _ & H). eauto.
Qed.

Lemma player_statistics_page_runs (df : DataFrame)
    (selectbox : list string -> option string) :
  conforms df = true ->
  no_missing df "Player" = true ->
  (forall options p, selectbox options = Some p -> In p options) ->
  exists r, player_statistics_page df selectbox = Ok r.
Proof.
  intros Hc Hn Hsel. destruct (conforms_label df Hc) as (Hl & _).
  destruct (player_options_spec df Hl Hn) as (ps & Hopt & _ & _ & Hin).
  unfold player_statistics_page. rewrite Hopt. cbn [Py.bind].
  destruct (truthy (selectbox ps)) as [p|] eqn:Ht; [|eauto].
  apply truthy_Some, Hsel, Hin in Ht.
  rewrite (calculate_player_stats_some df p Hc Ht). cbn [Py.bind].
  destruct (performance_chart_runs df p Hc) as [fig Hfig]. rewrite Hfig.
  cbn [Py.bind]. eauto.
Qed.

Lemma tournament_analysis_page_runs (df : DataFrame)
    (selectbox : list string -> option string) :
  conforms df = true -> exists r, tournament_analysis_page df selectbox = Ok r.
Proof.
  intros Hc. unfold tournament_analysis_page.
  destruct (truthy (selectbox tournament_names)) as [t|]; [|eauto].
  destruct (leaderboard_runs df t Hc) as [rws H]. rewrite H. cbn [Py.bind].
  unfold head, getitem. cbn [columns rows].
  change (index_of "Player" final_columns) with (Some 0%nat).
  change (index_of "Total_Score" final_columns) with (Some 1%nat).
  cbn [Py.bind]. eauto.
Qed.

Lemma comparison_table_runs (df : DataFrame) (ps : list string) :
  conforms df = true -> exists rows, comparison_table df ps = Ok rows.
Proof.
  intros Hc. induction ps as [|p ps [rws IH]]; [now exists []|].
  cbn [comparison_table]. rewrite IH.
  destruct (rows_where df "Player" p) as [|r rs] eqn:Hr.
  - rewrite calculate_player_stats_none;
      [cbn [Py.bind]; eauto|now apply has_column_of_conforms|exact Hr].
  - rewrite calculate_player_stats_some by (auto; congruence).
    cbn [Py.bind]. eauto.
Qed.

Lemma comparison_chart_runs (df : DataFrame) (ps : list string) :
  conforms df = true ->
  filter (has_rows df) ps <> [] ->
  exists bars, create_comparison_chart df ps = Ok bars.
Proof.
  intros Hc Hne. unfold create_comparison_chart.
  rewrite (comparison_data_closed_form df ps Hc). cbn [Py.bind].
  destruct (filter (has_rows df) ps) as [|p0 rest]; [congruence|].
  unfold comparison_getitem. cbn [map comparison_columns index_of String.eqb].
  cbn [Py.bind]. eexists. reflexivity.
Qed.

Lemma filter_all {A : Type} (f : A -> bool) (l : list A) :
  (forall x, In x l -> f x = true) -> filter f l = l.
Proof.
  induction l as [|x xs IH]; intros H; cbn [filter]; [reflexivity|].
  rewrite (H x (or_introl eq_refl)). f_equal. apply IH. intros y Hy. apply H.
  now right.
Qed.

Lemma player_comparison_page_runs (df : DataFrame)
    (multiselect : list string -> list string -> list string) :
  conforms df = true ->
  no_missing df "Player" = true ->
  (forall options default,
      incl default options -> incl (multiselect options default) options) ->
  exists r, player_comparison_page df multiselect = Ok r.
Proof.
  intros Hc Hn Hsel. destruct (conforms_label df Hc) as (Hl & _).
  destruct (player_options_spec df Hl Hn) as (ps & Hopt & _ & _ & Hin).
  unfold player_comparison_page. rewrite Hopt. cbn [Py.bind].
  set (default := if (3 <=? length ps)%nat then firstn 3 ps else ps).
  set (selected := multiselect ps default).
  assert (Hdef : incl default ps).
  { unfold default. destruct (3 <=? length ps)%nat; [|apply incl_refl].
    intros x Hx. rewrite <- (firstn_skipn 3 ps). apply in_or_app. now left. }
  destruct (2 <=? length selected)%nat eqn:Hlen; [|eauto].
  assert (Hall : filter (has_rows df) selected = selected).
  { apply filter_all. intros p Hp. apply (Hsel ps default Hdef), Hin in Hp.
    unfold has_rows. now destruct (rows_where df "Player" p). }
  destruct (comparison_chart_runs df selected Hc) as [bars Hbars].
  { rewrite Hall. intros E. rewrite E in Hlen. discriminate. }
  destruct (comparison_table_runs df selected Hc) as [tbl Htbl].
  rewrite Hbars. cbn [Py.bind]. rewrite Htbl. cbn [Py.bind]. eauto.
Qed.

Lemma live_data_page_runs (df : DataFrame)
    (tms : list value -> list value -> list value)
    (pms : list string -> list string -> list string) :
  conforms df = true ->
  no_missing df "Player" = true ->
  exists r, live_data_page df tms pms = Ok r.
Proof.
  intros Hc Hn. destruct (conforms_label df Hc) as (Hl & Ht & _).
  destruct (player_options_spec df Hl Hn) as (ps & Hopt & _).
  destruct (label_column_index _ _ Ht) as [it Hit].
  destruct (label_column_index _ _ Hl) as [ip Hip].
  unfold live_data_page, getitem. rewrite Hit. cbn [Py.bind].
  rewrite Hopt. cbn [Py.bind]. rewrite Hip. cbn [Py.bind]. eauto.
Qed.

(** ** [main] *)

Lemma default_widgets_sound (p : Page) : widgets_sound (default_widgets p).
Proof.
  split.
  - intros [|o options] q; cbn; [discriminate|]. intros H. inversion H. now left.
  - intros options default H. exact H.
Qed.

(** X12: [main] never displays 'No data available': the frame the loader
    hands over is never empty, whatever the machine and the widgets, so the
    run ends on the chosen page or with the exception of that page. *)
Theorem main_never_reports_no_data (w : World) (ui : Widgets) :
  main w ui <> Ok NoDataAvailable.
Proof.
  destruct (load_gco_data_cases w) as (out & Hload & Hcase).
  pose proof (load_case_valid w out Hcase) as Hv.
  apply validate_spec in Hv as [_ Hne].
  unfold main. rewrite Hload. cbn [Py.bind]. rewrite Hne.
  destruct (page ui).
  - destruct (overview_page (returned out)); cbn [Py.bind]; discriminate.
  - destruct (player_statistics_page (returned out) (player_selectbox ui));
      cbn [Py.bind]; discriminate.
  - destruct (tournament_analysis_page (returned out) (tournament_selectbox ui));
      cbn [Py.bind]; discriminate.
  - destruct (player_comparison_page (returned out) (players_multiselect ui));
      cbn [Py.bind]; discriminate.
  - destruct (live_data_page (returned out) (tournament_filter_multiselect ui)
                (player_filter_multiselect ui)); cbn [Py.bind]; discriminate.
Qed.

(** X13: the loader accepts a sheet without the Birdies column, but the
    overview, the first page of the application, cannot show it: once the
    players, the games and the average score are computed, reading Birdies
    raises KeyError 'Birdies' out of [main]. *)
Theorem main_overview_needs_birdies (w : World) (ui : Widgets) (out : Outcome) :
  load_gco_data w = Ok out ->
  page ui = Overview ->
  has_column (returned out) "Birdies" = false ->
  numeric_if_present (returned out) "Net_Score" = true ->
  main w ui = Raise (KeyError "Birdies").
Proof.
  intros Hload Hpage Hb Hnum.
  destruct (load_gco_data_cases w) as (out' & Hload' & Hcase).
  assert (E : out' = out) by (apply Ok_injective; congruence). subst out'.
  pose proof (load_case_valid w out Hcase) as Hv.
  apply validate_spec in Hv as [Hcols Hne].
  unfold main. rewrite Hload. cbn [Py.bind]. rewrite Hne, Hpage.
  set (df := returned out) in *. clearbody df.
  assert (Hp : has_column df "Player" = true) by (apply Hcols; now left).
  assert (Hg : has_column df "Game" = true)
    by (apply Hcols; right; right; now left).
  assert (Hn : has_column df "Net_Score" = true)
    by (apply Hcols; right; right; right; now left).
  destruct (has_column_index _ _ Hp) as [ip Hip].
  destruct (has_column_index _ _ Hg) as [ig Hig].
  destruct (has_column_index _ _ Hn) as [inn Hinn].
  unfold numeric_if_present in Hnum. rewrite Hinn in Hnum.
  destruct (to_numeric_ok (map (cell inn) (rows df))) as [xs Hxs].
  { now rewrite forallb_over_map. }
  unfold has_column in Hb.
  destruct (index_of "Birdies" (columns df)) eqn:Hib; [discriminate|].
  unfold overview_page, getitem. rewrite Hip, Hig, Hinn, Hib. cbn [Py.bind].
  unfold Series_mean. rewrite Hxs. reflexivity.
Qed.

Lemma main_overview_needs_birdies_witness :
  load_gco_data sheets_world = Ok sheets_outcome
  /\ page (default_widgets Overview) = Overview
  /\ has_column (returned sheets_outcome) "Birdies" = false
  /\ numeric_if_present (returned sheets_outcome) "Net_Score" = true
  /\ main sheets_world (default_widgets Overview) = Raise (KeyError "Birdies").
Proof.
  split; [reflexivity|]. split; [reflexivity|]. split; [reflexivity|].
  split; [reflexivity|].
  exact (main_overview_needs_birdies sheets_world (default_widgets Overview)
           sheets_outcome eq_refl eq_refl eq_refl eq_refl).
Defined.

(** X14: when the loaded dataset conforms to the data model and no row
    lacks its player, [main] raises nothing on any page: whatever the user
    picks among the options offered, a screen other than 'No data
    available' is displayed. *)
Theorem main_runs_on_conforming_data (w : World) (ui : Widgets) (out : Outcome) :
  load_gco_data w = Ok out ->
  conforms (returned out) = true ->
  no_missing (returned out) "Player" = true ->
  widgets_sound ui ->
  exists screen, main w ui = Ok screen /\ screen <> NoDataAvailable.
Proof.
  intros Hload Hc Hn [Hsel Hmulti].
  destruct (load_gco_data_cases w) as (out' & Hload' & Hcase).
  assert (E : out' = out) by (apply Ok_injective; congruence). subst out'.
  pose proof (load_case_valid w out Hcase) as Hv.
  apply validate_spec in Hv as [_ Hne].
  unfold main. rewrite Hload. cbn [Py.bind]. rewrite Hne.
  destruct (page ui).
  - destruct (overview_page_runs _ Hc) as [r ->]. cbn [Py.bind].
    eexists. split; [reflexivity|discriminate].
  - destruct (player_statistics_page_runs _ (player_selectbox ui) Hc Hn Hsel)
      as [r ->]. cbn [Py.bind]. eexists. split; [reflexivity|discriminate].
  - destruct (tournament_analysis_page_runs _ (tournament_selectbox ui) Hc)
      as [r ->]. cbn [Py.bind]. eexists. split; [reflexivity|discriminate].
  - destruct (player_comparison_page_runs _ (players_multiselect ui) Hc Hn Hmulti)
      as [r ->]. cbn [Py.bind]. eexists. split; [reflexivity|discriminate].
  - destruct (live_data_page_runs _ (tournament_filter_multiselect ui)
                (player_filter_multiselect ui) Hc Hn) as [r ->].
    cbn [Py.bind]. eexists. split; [reflexivity|discriminate].
Qed.

Lemma main_runs_on_conforming_data_witness :
  load_gco_data cached_world = Ok cached_outcome
  /\ conforms (returned cached_outcome) = true
  /\ no_missing (returned cached_outcome) "Player" = true
  /\ widgets_sound (default_widgets PlayerComparison)
  /\ exists screen,
       main cached_world (default_widgets PlayerComparison) = Ok screen
       /\ screen <> NoDataAvailable.
Proof.
  split; [reflexivity|]. split; [reflexivity|]. split; [reflexivity|].
  split; [apply default_widgets_sound|].
  exact (main_runs_on_conforming_data cached_world
           (default_widgets PlayerComparison) cached_outcome
           eq_refl eq_refl eq_refl (default_widgets_sound PlayerComparison)).
Defined.

(** ** [main] on the synthetic data *)

Lemma sample_data_no_missing_player (rs : RandomState) :
  no_missing (fst (create_sample_data rs)) "Player" = true.
Proof.
  rewrite create_sample_data_frame.
  pose proof (sample_records_generated rs) as Hg.
  pose proof (sample_records_labelled rs) as Hl.
  assert (Hrows : forall row, In row (map (map snd) (fst (sample_records rs))) ->
                              notna (cell 0 row) = true).
  { intros row Hin. rewrite in_map_iff in Hin. destruct Hin as (r & <- & Hr).
    rewrite Forall_forall in Hg, Hl.
    destruct (Hg r Hr) as (Hk & _). destruct (Hl r Hr) as (p & t & g & Hlab).
    destruct (generated_shape r Hk) as (v0 & v1 & v2 & v3 & v4 & v5 & v6 & v7 & ->).
    cbn in Hlab. inversion Hlab. reflexivity. }
  clear Hg Hl. set (rws := map (map snd) (fst (sample_records rs))) in *.
  clearbody rws. unfold no_missing. cbn [columns rows].
  change (index_of "Player" sample_columns) with (Some 0%nat). cbv iota beta.
  apply forallb_forall. exact Hrows.
Qed.

(** X15: in demonstration mode, when the loader has fallen back to the
    synthetic data, [main] raises nothing on any page, whatever the random
    draws and whatever the user picks among the options offered. *)
Theorem main_runs_on_sample_data (w : World) (ui : Widgets) (out : Outcome) :
  load_gco_data w = Ok out ->
  In UsingSampleData (notices out) ->
  widgets_sound ui ->
  exists screen, main w ui = Ok screen /\ screen <> NoDataAvailable.
Proof.
  intros Hload Hsample [Hsel Hmulti].
  assert (Hdf : returned out = fst (create_sample_data (random_state w))).
  { destruct (load_outcome_cases w out Hload)
      as [(df & _ & _ & E)|[(shown & df & Hs & _ & _ & E)|(shown & _ & _ & _ & E)]];
      rewrite E in *; cbn [notices returned] in *.
    - destruct Hsample as [H|[]]. discriminate H.
    - exfalso. apply (only_warnings_after _ _ _ Hs) in Hsample as [[e H]|[H|[]]];
        discriminate H.
    - reflexivity. }
  assert (Hc : conforms (returned out) = true)
    by (rewrite Hdf; apply sample_data_conforms).
  assert (Hn : no_missing (returned out) "Player" = true)
    by (rewrite Hdf; apply sample_data_no_missing_player).
  assert (Hne : empty (returned out) = false).
  { pose proof (sample_data_validates (random_state w)) as Hv.
    rewrite <- Hdf in Hv. now apply validate_spec in Hv as [_ Hv]. }
  clear Hdf. unfold main. rewrite Hload. cbn [Py.bind]. rewrite Hne.
  set (df := returned out) in *. clearbody df.
  destruct (page ui).
  - destruct (overview_page_runs _ Hc) as [r ->]. cbn [Py.bind].
    eexists. split; [reflexivity|discriminate].
  - destruct (player_statistics_page_runs _ (player_selectbox ui) Hc Hn Hsel)
      as [r ->]. cbn [Py.bind]. eexists. split; [reflexivity|discriminate].
  - destruct (tournament_analysis_page_runs _ (tournament_selectbox ui) Hc)
      as [r ->]. cbn [Py.bind]. eexists. split; [reflexivity|discriminate].
  - destruct (player_comparison_page_runs _ (players_multiselect ui) Hc Hn Hmulti)
      as [r ->]. cbn [Py.bind]. eexists. split; [reflexivity|discriminate].
  - destruct (live_data_page_runs _ (tournament_filter_multiselect ui)
                (player_filter_multiselect ui) Hc Hn) as [r ->].
    cbn [Py.bind]. eexists. split; [reflexivity|discriminate].
Qed.

Lemma main_runs_on_sample_data_witness :
  widgets_sound (default_widgets PlayerStatistics)
  /\ exists out screen,
       load_gco_data offline_world = Ok out
       /\ In UsingSampleData (notices out)
       /\ main offline_world (default_widgets PlayerStatistics) = Ok screen.
Proof.
  split; [apply default_widgets_sound|].
  destruct (load_gco_data_cases offline_world) as (out & Hload & Hcase).
  assert (Hin : In UsingSampleData (notices out)).
  { destruct Hcase as [Hp _ _|shown _ Hu _|shown _ _ _ _ Hn].
    - discriminate Hp.
    - exfalso. rewrite (try_urls_none offline_world urls_to_try) in Hu;
        [discriminate Hu|]. intros url _ df. discriminate.
    - rewrite Hn. apply in_or_app. right. right. now left. }
  destruct (main_runs_on_sample_data offline_world
              (default_widgets PlayerStatistics) out Hload Hin
              (default_widgets_sound PlayerStatistics)) as (screen & Hs & _).
  exists out, screen. repeat split; assumption.
Defined.

(** ** The filter of the live data view *)

Lemma value_eqb_refl (v : value) : value_eqb v v = true.
Proof.
  destruct v as [q|s|]; cbn; [|apply String.eqb_refl|reflexivity].
  apply Qeq_bool_iff. reflexivity.
Qed.

Lemma unique_from_covers (seen : list value) (ser : Series) (v : value) :
  In v ser ->
  existsb (value_eqb v) seen = true
  \/ existsb (value_eqb v) (unique_from seen ser) = true.
Proof.
  revert seen. induction ser as [|x ser IH]; intros seen Hin; [destruct Hin|].
  cbn [unique_from]. destruct Hin as [->|Hin].
  - destruct (existsb (value_eqb v) seen) eqn:Hs; [now left|right].
    cbn [existsb]. now rewrite value_eqb_refl.
  - destruct (existsb (value_eqb x) seen) eqn:Hs; [now apply IH|].
    destruct (IH (x :: seen) Hin) as [H|H].
    + cbn [existsb] in H. apply orb_prop in H as [H|H]; [right|now left].
      cbn [existsb]. now rewrite H.
    + right. cbn [existsb]. rewrite H. apply orb_true_r.
Qed.

Lemma isin_unique (ser : Series) :
  isin ser (unique ser) = map (fun _ => true) ser.
Proof.
  unfold isin. apply map_ext_Forall, Forall_forall. intros v Hv.
  destruct (unique_from_covers [] ser v Hv) as [H|H]; [discriminate H|exact H].
Qed.

Lemma select_masks (f1 f2 : list value -> bool) (rws : list (list value)) :
  select (mask_and (map f1 rws) (map f2 rws)) rws
  = filter (fun r => f1 r && f2 r) rws.
Proof.
  unfold mask_and. rewrite combine_maps, map_map. cbn [fst snd].
  apply (select_map (fun r => f1 r && f2 r)).
Qed.

Lemma live_data_page_closed_form (df : DataFrame)
    (tms : list value -> list value -> list value)
    (pms : list string -> list string -> list string) (ps : list string) :
  has_column df "Tournament" = true ->
  player_options df = Ok ps ->
  live_data_page df tms pms
  = Ok (mkDataFrame (columns df)
          (filter (fun r =>
                     existsb (value_eqb (field df "Tournament" r))
                             (tms (unique (map (field df "Tournament") (rows df)))
                                  (unique (map (field df "Tournament") (rows df))))
                     && existsb (value_eqb (field df "Player" r))
                                (map VStr (pms ps ps)))
                  (rows df))).
Proof.
  intros Ht Hopt. destruct (has_column_index _ _ Ht) as [it Hit].
  assert (Hp : exists ip, index_of "Player" (columns df) = Some ip).
  { unfold player_options, getitem in Hopt.
    destruct (index_of "Player" (columns df)) as [ip|]; [eauto|discriminate]. }
  destruct Hp as [ip Hip].
  unfold live_data_page, getitem. rewrite Hit. cbn [Py.bind]. rewrite Hopt.
  cbn [Py.bind]. rewrite Hip. cbn [Py.bind]. unfold getitem_mask, isin, field.
  rewrite Hit, Hip. rewrite !map_map.
  now rewrite (select_masks
                 (fun r => existsb (value_eqb (cell it r))
                             (tms (unique (map (cell it) (rows df)))
                                  (unique (map (cell it) (rows df)))))
                 (fun r => existsb (value_eqb (cell ip r)) (map VStr (pms ps ps)))).
Qed.

(** X16: the live data view shows the rows whose tournament and whose
    player are both among the selected ones, in their order and with all
    the columns; with the default selections, which are all the options,
    it shows the whole dataset. *)
Theorem live_data_filter_keeps_selected_rows (df : DataFrame)
    (tms : list value -> list value -> list value)
    (pms : list string -> list string -> list string) :
  has_column df "Tournament" = true ->
  label_column df "Player" = true ->
  no_missing df "Player" = true ->
  exists ps,
    player_options df = Ok ps
    /\ live_data_page df tms pms
       = Ok (mkDataFrame (columns df)
               (filter (fun r =>
                          existsb (value_eqb (field df "Tournament" r))
                                  (tms (unique (map (field df "Tournament") (rows df)))
                                       (unique (map (field df "Tournament") (rows df))))
                          && existsb (value_eqb (field df "Player" r))
                                     (map VStr (pms ps ps)))
                       (rows df)))
    /\ live_data_page df (fun _ default => default) (fun _ default => default)
       = Ok df.
Proof.
  intros Ht Hl Hn. destruct (player_options_spec df Hl Hn) as (ps & Hopt & _ & _ & Hin).
  exists ps. split; [exact Hopt|]. split.
  - now apply live_data_page_closed_form.
  - rewrite (live_data_page_closed_form df _ _ ps Ht Hopt).
    destruct (label_column_index _ _ Hl) as [ip Hip].
    rewrite filter_all; [now destruct df|].
    intros r Hr. apply andb_true_intro. split.
    + destruct (unique_from_covers [] (map (field df "Tournament") (rows df))
                  (field df "Tournament" r)) as [H|H];
        [now apply in_map|discriminate H|exact H].
    + unfold no_missing, label_column in Hn, Hl. unfold field. rewrite Hip in *.
      rewrite forallb_forall in Hn, Hl. specialize (Hn r Hr). specialize (Hl r Hr).
      destruct (cell ip r) as [q|s|] eqn:Hc; try discriminate.
      rewrite existsb_VStr. apply existsb_eqb_In, Hin.
      apply (rows_where_nonempty df "Player" s ip Hip), in_map_iff. eauto.
Qed.

Lemma live_data_filter_keeps_selected_rows_witness :
  has_column tournament_data "Tournament" = true
  /\ label_column tournament_data "Player" = true
  /\ no_missing tournament_data "Player" = true
  /\ live_data_page tournament_data (fun _ default => default)
                    (fun _ default => default)
     = Ok tournament_data.
Proof.
  split; [reflexivity|]. split; [reflexivity|]. split; [reflexivity|].
  destruct (live_data_filter_keeps_selected_rows tournament_data
              (fun _ default => default) (fun _ default => default)
              eq_refl eq_refl eq_refl) as (ps & _ & _ & H).
  exact H.
Defined.

(** ** The overview of the synthetic data *)

(** All that the properties below use of the generated frame. *)
Lemma sample_frame_facts (rs : RandomState) :
  exists rws,
    fst (create_sample_data rs) = mkDataFrame sample_columns rws
    /\ conforms (mkDataFrame sample_columns rws) = true
    /\ map (fun r => (cell 0 r, cell 1 r, cell 2 r)) rws
       = map (fun c => (VStr (fst (fst c)), VStr (snd (fst c)), VStr (snd c)))
             combinations
    /\ Forall (fun row => in_range (-15) 20 (cell 3 row)
                          /\ in_range 0 5 (cell 4 row)) rws.
Proof.
  exists (map (map snd) (fst (sample_records rs))).
  split; [apply create_sample_data_frame|]. split; [|split].
  - rewrite <- create_sample_data_frame. apply sample_data_conforms.
  - rewrite map_map. apply sample_records_keys.
  - apply Forall_map. eapply Forall_impl; [|exact (sample_records_generated rs)].
    intros r (_ & H3 & H4 & _). split; assumption.
Qed.

Lemma field_values_in_range (cols : list string) (name : string) (j : nat)
    (lo hi : Z) (rws : list (list value)) :
  index_of name cols = Some j ->
  Forall (fun row => in_range lo hi (cell j row)) rws ->
  length (field_values (mkDataFrame cols rws) name rws) = length rws
  /\ forall x, In x (field_values (mkDataFrame cols rws) name rws) ->
               (inject_Z lo <= x <= inject_Z (hi - 1))%Q.
Proof.
  intros Hj H. unfold field_values. cbn [columns]. rewrite Hj.
  induction H as [|row rws (z & Hz & Hlo) Hall [IH1 IH2]]; cbn [flat_map].
  - split; [reflexivity|intros x []].
  - rewrite Hz. cbn [app length In]. split; [now rewrite IH1|].
    intros x [<-|Hx]; [|now apply IH2].
    rewrite <- !Zle_Qle. lia.
Qed.

Lemma getitem_whole (cols : list string) (rws : list (list value))
    (name : string) (j : nat) :
  index_of name cols = Some j ->
  getitem (mkDataFrame cols rws) name = Ok (map (cell j) rws).
Proof. intros Hj. unfold getitem. cbn [columns rows]. now rewrite Hj. Qed.

Lemma to_numeric_field_values (cols : list string) (rws : list (list value))
    (name : string) (j : nat) (xs : list (option Q)) :
  index_of name cols = Some j ->
  to_numeric (map (cell j) rws) = Ok xs ->
  dropna xs = field_values (mkDataFrame cols rws) name rws.
Proof.
  intros Hj Hx. rewrite (dropna_to_numeric _ _ Hx). unfold field_values.
  cbn [columns]. rewrite Hj. now rewrite flat_map_over_map.
Qed.

(** X17: in demonstration mode the overview always counts 12 players and
    12 games, shows an average net score between -15 and 19 and a total of
    birdies between 0 and 576, and lists three leaderboards, whatever the
    random draws. *)
Theorem sample_overview_metrics (rs : RandomState) :
  exists m lbs avg,
    overview_page (fst (create_sample_data rs)) = Ok (m, lbs)
    /\ metric_players m = 12%nat
    /\ metric_games m = 12%nat
    /\ metric_avg_score m = Num avg
    /\ (-15 <= avg <= 19)%Q
    /\ (0 <= metric_birdies m <= 576)%Q
    /\ length lbs = 3%nat.
Proof.
  destruct (sample_frame_facts rs) as (rws & -> & Hc & Hkeys & Hrange).
  assert (H0 : map (cell 0) rws = map (fun c => VStr (fst (fst c))) combinations).
  { apply (f_equal (map (fun k => fst (fst k)))) in Hkeys.
    now rewrite !map_map in Hkeys. }
  assert (H2 : map (cell 2) rws = map (fun c => VStr (snd c)) combinations).
  { apply (f_equal (map (fun k => snd k))) in Hkeys.
    now rewrite !map_map in Hkeys. }
  assert (Hlen : length rws = 144%nat).
  { apply (f_equal (@length _)) in Hkeys. now rewrite !length_map in Hkeys. }
  destruct (conforms_numeric _ Hc) as (Hn & Hb & _).
  destruct (numeric_column_reduces _ _ Hn) as (sn & xn & Gn & Tn).
  destruct (numeric_column_reduces _ _ Hb) as (sb & xb & Gb & Tb).
  rewrite (getitem_whole sample_columns rws "Net_Score" 3 eq_refl) in Gn.
  rewrite (getitem_whole sample_columns rws "Birdies" 4 eq_refl) in Gb.
  apply Ok_injective in Gn, Gb. subst sn sb.
  pose proof (to_numeric_field_values sample_columns rws "Net_Score" 3 xn eq_refl Tn)
    as Dn.
  pose proof (to_numeric_field_values sample_columns rws "Birdies" 4 xb eq_refl Tb)
    as Db.
  destruct (field_values_in_range sample_columns "Net_Score" 3 (-15) 20 rws eq_refl)
    as [Ln Rn].
  { eapply Forall_impl; [|exact Hrange]. now intros row [H _]. }
  destruct (field_values_in_range sample_columns "Birdies" 4 0 5 rws eq_refl)
    as [Lb Rb].
  { eapply Forall_impl; [|exact Hrange]. now intros row [_ H]. }
  destruct (mapM_exists (create_tournament_leaderboard
                           (mkDataFrame sample_columns rws)) tournament_names)
    as [lbs Hlbs].
  { intros t _. destruct (leaderboard_runs _ t Hc) as [r H]. eauto. }
  assert (Hl3 : length lbs = 3%nat).
  { revert Hlbs. cbn [tournament_names mapM].
    destruct (create_tournament_leaderboard _ "提提卡卡杯"); [|discriminate].
    destruct (create_tournament_leaderboard _ "暖男杯"); [|discriminate].
    destruct (create_tournament_leaderboard _ "凯尔特人杯"); [|discriminate].
    cbn [Py.bind]. intros H. apply Ok_injective in H. now subst. }
  set (net := field_values (mkDataFrame sample_columns rws) "Net_Score" rws) in *.
  set (birdies := field_values (mkDataFrame sample_columns rws) "Birdies" rws) in *.
  assert (Hnne : net <> []) by (intros E; rewrite E, Hlen in Ln; discriminate).
  destruct (mean_bounds (inject_Z (-15)) (inject_Z (20 - 1)) net Hnne Rn)
    as (avg & Havg & Hab).
  pose proof (Qsum_bounds (inject_Z 0) (inject_Z (5 - 1)) birdies Rb) as [S1 S2].
  assert (Hq : (Qlen birdies == 144)%Q).
  { unfold Qlen. rewrite Lb, Hlen. reflexivity. }
  rewrite Hq in S1, S2.
  exists (mkMetrics (nunique (map (cell 0) rws)) (nunique (map (cell 2) rws))
                    (mean net) (Qred (Qsum birdies))), lbs, avg.
  split.
  - unfold overview_page.
    rewrite (getitem_whole sample_columns rws "Player" 0 eq_refl).
    rewrite (getitem_whole sample_columns rws "Game" 2 eq_refl).
    rewrite (getitem_whole sample_columns rws "Net_Score" 3 eq_refl).
    rewrite (getitem_whole sample_columns rws "Birdies" 4 eq_refl).
    cbn [Py.bind]. unfold Series_mean, Series_sum. rewrite Tn, Tb. cbn [Py.bind].
    rewrite Dn, Db. fold net birdies. rewrite Hlbs. reflexivity.
  - cbn [metric_players metric_games metric_avg_score metric_birdies].
    split; [rewrite H0; vm_compute; reflexivity|].
    split; [rewrite H2; vm_compute; reflexivity|].
    split; [exact Havg|]. split; [exact Hab|]. split; [|exact Hl3].
    rewrite Qred_correct. change (inject_Z 0) with 0%Q in S1.
    change (inject_Z (5 - 1)) with 4%Q in S2. lra.
Qed.

(** ** Leaderboards and statistics of the synthetic data *)

Lemma length_filter_map {A B : Type} (h : A -> B) (g : B -> bool) (l : list A) :
  length (filter (fun a => g (h a)) l) = length (filter g (map h l)).
Proof.
  induction l as [|a l IH]; cbn [filter map]; [reflexivity|].
  destruct (g (h a)); cbn [length]; now rewrite IH.
Qed.

(** X18: in demonstration mode each of the three tournaments has a
    leaderboard that ranks all twelve players, from 1 to 12, and the
    statistics of each of the twelve players count twelve games, whatever
    the random draws. *)
Theorem sample_leaderboards_rank_everyone (rs : RandomState) :
  (forall t, In t tournament_names ->
     exists lb,
       create_tournament_leaderboard (fst (create_sample_data rs)) t = Ok lb
       /\ len lb = 12%nat
       /\ getitem lb "Rank" = Ok (range1 12))
  /\ (forall p, In p players ->
        exists st,
          calculate_player_stats (fst (create_sample_data rs)) p = Ok (Some st)
          /\ total_games st = 12%nat).
Proof.
  destruct (sample_frame_facts rs) as (rws & -> & Hc & Hkeys & _).
  assert (H10 : map (fun r => (cell 1 r, cell 0 r)) rws
                = map (fun c => (VStr (snd (fst c)), VStr (fst (fst c)))) combinations).
  { apply (f_equal (map (fun k => (snd (fst k), fst (fst k))))) in Hkeys.
    now rewrite !map_map in Hkeys. }
  assert (H0 : map (cell 0) rws = map (fun c => VStr (fst (fst c))) combinations).
  { apply (f_equal (map (fun k => fst (fst k)))) in Hkeys.
    now rewrite !map_map in Hkeys. }
  split.
  - intros t Ht.
    destruct (leaderboard_closed_form _ t Hc) as (i & ks & Hi & Hks & Hlb).
    cbn [columns] in Hi. change (index_of "Player" sample_columns) with (Some 0%nat) in Hi.
    apply (f_equal (fun o => match o with Some n => n | None => O end)) in Hi.
    cbn in Hi. subst i.
    revert Hks Hlb. unfold rows_where. cbn [columns rows].
    change (index_of "Tournament" sample_columns) with (Some 1%nat). cbv iota beta.
    rewrite (map_filter_pairs (cell 0) (cell 1) (value_eq_str t)), H10.
    intros Hks Hlb.
    assert (Hlen : length ks = 12%nat).
    { cbn [tournament_names In] in Ht.
      destruct Ht as [<-|[<-|[<-|[]]]]; vm_compute in Hks;
        apply Ok_injective in Hks; now subst ks. }
    eexists. split; [exact Hlb|].
    assert (Hl : len (mkDataFrame final_columns
                        (ranked (sort_by (sort_key 0)
                           (map (rounded_entry
                                   (mkDataFrame sample_columns
                                      (filter (fun r => value_eq_str t (cell 1 r)) rws)))
                                ks)))) = 12%nat).
    { unfold len. cbn [rows]. now rewrite ranked_length, sort_by_length, length_map. }
    split; [exact Hl|].
    unfold getitem. cbn [columns rows].
    change (index_of "Rank" final_columns) with (Some 8%nat). cbv iota beta.
    rewrite ranked_ranks by apply sorted_entries_seven.
    now rewrite sort_by_length, length_map, Hlen.
  - intros p Hp.
    assert (Hrows : length (rows_where (mkDataFrame sample_columns rws) "Player" p)
                    = 12%nat).
    { unfold rows_where. cbn [columns rows].
      change (index_of "Player" sample_columns) with (Some 0%nat). cbv iota beta.
      rewrite (length_filter_map (cell 0) (value_eq_str p)), H0.
      cbn [players In] in Hp.
      repeat (destruct Hp as [<-|Hp]; [vm_compute; reflexivity|]).
      contradiction. }
    exists (stats_of (mkDataFrame sample_columns rws) p). split; [|exact Hrows].
    apply calculate_player_stats_some; [exact Hc|].
    intros E. rewrite E in Hrows. discriminate.
Qed.

Lemma sample_leaderboards_rank_everyone_witness :
  In "暖男杯" tournament_names
  /\ In "Justin" players
  /\ (exists lb,
        create_tournament_leaderboard (fst (create_sample_data (fun _ => 0))) "暖男杯"
        = Ok lb /\ len lb = 12%nat)
  /\ exists st,
       calculate_player_stats (fst (create_sample_data (fun _ => 0))) "Justin"
       = Ok (Some st) /\ total_games st = 12%nat.
Proof.
  assert (Ht : In "暖男杯" tournament_names) by (right; left; reflexivity).
  assert (Hp : In "Justin" players) by (do 11 right; left; reflexivity).
  split; [exact Ht|]. split; [exact Hp|].
  destruct (sample_leaderboards_rank_everyone (fun _ => 0)) as [H1 H2].
  split.
  - destruct (H1 _ Ht) as (lb & Hlb & Hlen & _). exists lb. split; assumption.
  - destruct (H2 _ Hp) as (st & Hst & Hg). exists st. split; assumption.
Defined.

(** ** Rounding whole numbers *)

Lemma rint_comp (q q' : Q) : (q == q')%Q -> rint q = rint q'.
Proof.
  intros H. unfold rint. rewrite (Qfloor_comp _ _ H).
  assert (E : Qcompare (q - inject_Z (Qfloor q')) (1 # 2)
              = Qcompare (q' - inject_Z (Qfloor q')) (1 # 2)).
  { apply Qcompare_comp; [now rewrite H|reflexivity]. }
  now rewrite E.
Qed.

Lemma rint_whole (z : Z) : rint (inject_Z z) = z.
Proof.
  unfold rint. rewrite Qfloor_Z.
  destruct (Qcompare_spec (inject_Z z - inject_Z z) (1 # 2)) as [E|E|E];
    [lra|reflexivity|lra].
Qed.

Lemma round2_whole (q : Q) (z : Z) : (q == inject_Z z)%Q -> (round2 q == q)%Q.
Proof.
  intros H. unfold round2. rewrite Qred_correct.
  assert (H100 : (q * 100 == inject_Z (z * 100))%Q).
  { rewrite H, inject_Z_mult. reflexivity. }
  rewrite (rint_comp _ _ H100), rint_whole, inject_Z_mult, H.
  change (inject_Z 100) with 100%Q. field.
Qed.

Lemma Qsum_whole (l : list Q) :
  Forall (fun x => exists z, (x == inject_Z z)%Q) l ->
  exists z, (Qsum l == inject_Z z)%Q.
Proof.
  induction 1 as [|x xs (a & Ha) Hxs (b & Hb)]; cbn [Qsum fold_right].
  - now exists 0.
  - exists (a + b). fold (Qsum xs). now rewrite Ha, Hb, inject_Z_plus.
Qed.

Lemma field_values_whole (df : DataFrame) (name : string)
    (rs : list (list value)) :
  whole_column df name = true ->
  incl rs (rows df) ->
  Forall (fun x => exists z, (x == inject_Z z)%Q) (field_values df name rs).
Proof.
  unfold whole_column, field_values.
  destruct (index_of name (columns df)) as [i|]; [|discriminate].
  rewrite forallb_forall. intros Hw Hincl.
  induction rs as [|r rs IH]; cbn [flat_map]; [constructor|].
  assert (Hr : is_whole (cell i r) = true) by (apply Hw, Hincl; now left).
  apply Forall_app. split.
  - destruct (cell i r) as [q|s|]; try constructor; [|constructor].
    exists (Qfloor q). now apply Qeq_bool_iff.
  - apply IH. intros x Hx. apply Hincl. now right.
Qed.

Lemma rows_where_incl (df : DataFrame) (name s : string) :
  incl (rows_where df name s) (rows df).
Proof.
  unfold rows_where. destruct (index_of name (columns df)); [|intros x []].
  intros x Hx. now apply filter_In in Hx as [Hx _].
Qed.

(** X19: in every row of the leaderboard Games_Played is the number of
    recorded net scores of the player in the tournament, and, when the net
    scores of the dataset are whole numbers, Total_Score is exactly their
    sum: rounding to two decimals leaves both unchanged. *)
Theorem leaderboard_totals_are_sums (df : DataFrame) (t : string) :
  conforms df = true ->
  whole_column df "Net_Score" = true ->
  let td := mkDataFrame (columns df) (rows_where df "Tournament" t) in
  exists lb,
    create_tournament_leaderboard df t = Ok lb
    /\ Forall (fun row =>
                 exists k total games,
                   cell 0 row = VStr k
                   /\ cell 1 row = VNum total
                   /\ cell 3 row = VNum games
                   /\ (total == Qsum (field_values td "Net_Score"
                                        (rows_where td "Player" k)))%Q
                   /\ (games == Qlen (field_values td "Net_Score"
                                        (rows_where td "Player" k)))%Q)
              (rows lb).
Proof.
  intros Hc Hw td.
  destruct (leaderboard_closed_form df t Hc) as (i & ks & _ & _ & Hlb).
  fold td in Hlb. eexists. split; [exact Hlb|]. cbn [rows].
  apply Forall_forall. intros row Hrow. unfold ranked in Hrow.
  apply in_map_iff in Hrow as ([e r] & <- & Hin). apply in_combine_l in Hin.
  apply (Permutation_in _ (Permutation_sym (sort_by_perm _ _))) in Hin.
  apply in_map_iff in Hin as (k & <- & _).
  set (net := field_values td "Net_Score" (rows_where td "Player" k)).
  exists k, (round2 (Qred (Qsum net))),
         (round2 (inject_Z (Z.of_nat (length net)))).
  split; [reflexivity|]. split; [reflexivity|]. split; [reflexivity|].
  assert (Hwtd : whole_column td "Net_Score" = true).
  { unfold whole_column in *. cbn [columns rows td].
    destruct (index_of "Net_Score" (columns df)); [|discriminate].
    rewrite forallb_forall in *. intros x Hx. apply Hw.
    now apply (rows_where_incl df "Tournament" t). }
  destruct (Qsum_whole net) as [z Hz].
  { apply field_values_whole; [exact Hwtd|apply rows_where_incl]. }
  split.
  - rewrite (round2_whole (Qred (Qsum net)) z) by (now rewrite Qred_correct).
    apply Qred_correct.
  - now rewrite (round2_whole _ (Z.of_nat (length net))).
Qed.

Lemma leaderboard_totals_are_sums_witness :
  conforms tournament_data = true
  /\ whole_column tournament_data "Net_Score" = true
  /\ exists lb,
       create_tournament_leaderboard tournament_data "提提卡卡杯" = Ok lb
       /\ Forall (fun row => exists k total, cell 0 row = VStr k
                                             /\ cell 1 row = VNum total)
                 (rows lb).
Proof.
  split; [reflexivity|]. split; [reflexivity|].
  destruct (leaderboard_totals_are_sums tournament_data "提提卡卡杯" eq_refl eq_refl)
    as (lb & Hlb & Hrows).
  exists lb. split; [exact Hlb|].
  eapply Forall_impl; [|exact Hrows].
  intros row (k & total & games & H0 & H1 & _). exists k, total. split; assumption.
Defined.

(** * The leaderboard against the records *)


Section StableSort.
Context {A : Type} (key : A -> option Q) (R : A -> A -> Prop).

Lemma insert_sorted_stable (x : A) (l : list A) :
  Forall (R x) l ->
  StronglySorted (tie_ordered key R) l ->
  StronglySorted (tie_ordered key R) (insert_sorted key x l).
Proof.
  intros HR Hs. induction Hs as [|y ys Hs IH Hy]; simpl.
  - repeat constructor.
  - inversion HR as [|? ? Rxy Rxys]; subst.
    destruct (key_le (key x) (key y)) eqn:Hxy.
    + constructor; [now constructor|].
      constructor; [split; [exact Hxy|intros _; exact Rxy]|].
      apply Forall_forall. intros z Hz. rewrite Forall_forall in Hy, Rxys.
      split; [|intros _; now apply Rxys].
      destruct (Hy z Hz) as [Hyz _]. unfold ordered in *.
      eapply key_le_trans; eauto.
    + constructor; [now apply IH|].
      apply (Permutation_Forall (insert_sorted_perm key x ys)).
      constructor; [|exact Hy].
      split; [now apply key_le_total|]. unfold ordered. congruence.
Qed.

Lemma sort_by_stable (l : list A) :
  StronglySorted R l -> StronglySorted (tie_ordered key R) (sort_by key l).
Proof.
  induction 1 as [|x xs Hs IH Hx]; simpl; [constructor|].
  apply insert_sorted_stable; [|exact IH].
  now apply (Permutation_Forall (sort_by_perm key xs)).
Qed.
End StableSort.

Lemma round2_comp (q q' : Q) : (q == q')%Q -> round2 q = round2 q'.
Proof.
  intros H. unfold round2.
  rewrite (rint_comp (q * 100) (q' * 100)); [reflexivity|].
  now rewrite H.
Qed.

Lemma rounded_entry_total (df : DataFrame) (t k : string) :
  total_of (rounded_entry (mkDataFrame (columns df) (rows_where df "Tournament" t)) k)
  = round2 (total_net_score df t k).
Proof.
  unfold total_of, sort_key, rounded_entry, agg_cells, cell. cbn [snd map nth].
  apply round2_comp, Qred_correct.
Qed.

Lemma Forall2_map_both {A B C : Type} (P : B -> C -> Prop) (f : A -> B) (g : A -> C)
    (l : list A) :
  Forall (fun x => P (f x) (g x)) l -> Forall2 P (map f l) (map g l).
Proof. induction 1; simpl; constructor; auto. Qed.

(** The group keys of the leaderboard are the players with a record in the
    tournament, in ascending order. *)
Lemma leaderboard_keys_records (df : DataFrame) (t : string) (i : nat)
    (ks : list string) :
  conforms df = true ->
  index_of "Player" (columns df) = Some i ->
  group_keys (map (cell i) (rows_where df "Tournament" t)) = Ok ks ->
  StronglySorted string_lt ks /\ forall p, In p ks <-> has_record df p t.
Proof.
  intros Hc Hi Hks.
  destruct (conforms_label df Hc) as (_ & Ht & _).
  destruct (label_column_index _ _ Ht) as [it Hit].
  destruct (group_keys_spec _ _ Hks) as [Hsorted Hin].
  split; [exact Hsorted|]. intros p. rewrite Hin. split.
  - intros Hp. apply in_map_iff in Hp as (r & Hr & Hrin).
    exists r. split; [|exact Hrin].
    apply (rows_where_In df "Tournament" t it r Hit) in Hrin as [Hrin _].
    now apply (rows_where_In df "Player" p i r Hi).
  - intros (r & Hrp & Hrt). apply in_map_iff. exists r. split; [|exact Hrt].
    now apply (rows_where_In df "Player" p i r Hi) in Hrp as [_ Hrp].
Qed.

(** The sorted entries of the leaderboard, with what ties them to the
    records: who they are, what their totals are, and in which order equal
    totals come. *)
Lemma sorted_entries_facts (df : DataFrame) (t : string) (ks : list string) :
  StronglySorted string_lt ks ->
  let td := mkDataFrame (columns df) (rows_where df "Tournament" t) in
  let sorted := sort_by (sort_key 0) (map (rounded_entry td) ks) in
  Permutation ks (map fst sorted)
  /\ Forall2 (fun p total => total = round2 (total_net_score df t p))
             (map fst sorted) (map total_of sorted)
  /\ StronglySorted (tie_ordered (sort_key 0) by_player) sorted.
Proof.
  intros Hs td sorted. split; [|split].
  - unfold sorted. rewrite <- (sort_by_perm (sort_key 0)), map_map.
    cbn [rounded_entry fst]. now rewrite map_id.
  - apply Forall2_map_both. unfold sorted. apply sort_by_Forall, Forall_forall.
    intros e He. apply in_map_iff in He as (k & <- & _).
    symmetry. cbn [rounded_entry fst]. symmetry. apply rounded_entry_total.
  - apply sort_by_stable.
    apply (StronglySorted_map string_lt by_player (fun _ => True)).
    + intros x y _ _ H. exact H.
    + apply Forall_forall. intros; exact I.
    + exact Hs.
Qed.


Lemma whole_totals (df : DataFrame) (t p : string) :
  whole_column df "Net_Score" = true ->
  (round2 (total_net_score df t p) == total_net_score df t p)%Q.
Proof.
  intros Hw. set (td := mkDataFrame (columns df) (rows_where df "Tournament" t)).
  assert (Hwtd : whole_column td "Net_Score" = true).
  { unfold whole_column in *. cbn [columns rows td].
    destruct (index_of "Net_Score" (columns df)); [|discriminate].
    rewrite forallb_forall in *. intros x Hx. apply Hw.
    now apply (rows_where_incl df "Tournament" t). }
  destruct (Qsum_whole (field_values td "Net_Score" (rows_where td "Player" p)))
    as [z Hz].
  { apply field_values_whole; [exact Hwtd|apply rows_where_incl]. }
  now apply (round2_whole _ z).
Qed.

Lemma Forall2_in_left {A B : Type} (P : A -> B -> Prop) (l : list A) (l' : list B)
    (x : A) :
  Forall2 P l l' -> In x l -> exists y, In y l' /\ P x y.
Proof.
  induction 1 as [|a b l l' Hab H IH]; intros Hx; [contradiction|].
  destruct Hx as [<-|Hx].
  - exists b. split; [now left|exact Hab].
  - destruct (IH Hx) as (y & Hy & Hxy). exists y. split; [now right|exact Hxy].
Qed.

(** C2: the leaderboard has one row for each player with a record in the
    tournament; the Total_Score of a row is the total net score of its
    player (rounded to two decimals, which changes nothing when the net
    scores are whole numbers); the rows are in ascending order of that
    total; the Rank column is 1..k by position, whatever the ties; the row
    of rank 1 holds a minimum among the totals of all the players of the
    tournament; and between neighbouring rows the rank increases exactly
    when the total does not decrease. *)
Theorem leaderboard_sorted_and_ranked (df : DataFrame) (t : string) :
  conforms df = true ->
  exists lb names totals,
    create_tournament_leaderboard df t = Ok lb
    /\ getitem lb "Player" = Ok (map VStr names)
    /\ getitem lb "Total_Score" = Ok (map VNum totals)
    /\ getitem lb "Rank" = Ok (range1 (len lb))
    /\ length names = len lb
    /\ length totals = len lb
    /\ NoDup names
    /\ (forall p, In p names <-> has_record df p t)
    /\ Forall2 (fun p total => total = round2 (total_net_score df t p))
               names totals
    /\ (whole_column df "Net_Score" = true ->
        Forall2 (fun p total => (total == total_net_score df t p)%Q)
                names totals)
    /\ StronglySorted Qle totals
    /\ (forall x, In x totals -> (hd x totals <= x)%Q)
    /\ (forall p, has_record df p t ->
                  (hd 0 totals <= round2 (total_net_score df t p))%Q)
    /\ (whole_column df "Net_Score" = true ->
        forall p, has_record df p t ->
                  (hd 0 totals <= total_net_score df t p)%Q)
    /\ (forall i, (S i < len lb)%nat ->
                  (nth i (seq 1 (len lb)) O < nth (S i) (seq 1 (len lb)) O)%nat
                  <-> (nth i totals 0 <= nth (S i) totals 0)%Q).
Proof.
  intros Hc. destruct (leaderboard_closed_form df t Hc) as (i & ks & Hi & Hks & Hlb).
  cbn [rows] in Hks.
  destruct (leaderboard_keys_records df t i ks Hc Hi Hks) as [Hasc Hrec].
  destruct (sorted_entries_facts df t ks Hasc) as (Hperm & Htot & _).
  set (td := mkDataFrame (columns df) (rows_where df "Tournament" t)) in *.
  set (sorted := sort_by (sort_key 0) (map (rounded_entry td) ks)) in *.
  pose proof (sorted_entries_seven td ks) as Hseven. fold sorted in Hseven.
  pose proof (sorted_totals td ks) as Hsorted. fold sorted in Hsorted.
  assert (Hlen : len (mkDataFrame final_columns (ranked sorted)) = length sorted)
    by apply ranked_length.
  assert (Hmin : forall x, In x (map total_of sorted) ->
                           (hd x (map total_of sorted) <= x)%Q).
  { intros x Hx. destruct (map total_of sorted) as [|y ys]; [contradiction|].
    simpl. destruct Hx as [<-|Hx]; [apply Qle_refl|].
    inversion Hsorted as [|? ? _ Hall]; subst.
    rewrite Forall_forall in Hall. now apply Hall. }
  assert (Hfirst : forall p, has_record df p t ->
            (hd 0 (map total_of sorted) <= round2 (total_net_score df t p))%Q).
  { intros p Hp. apply Hrec, (Permutation_in _ Hperm) in Hp.
    destruct (Forall2_in_left _ _ _ _ Htot Hp) as (total & Hin & ->).
    pose proof (Hmin _ Hin) as H.
    destruct (map total_of sorted); [contradiction|exact H]. }
  eexists. exists (map fst sorted), (map total_of sorted). split; [exact Hlb|].
  rewrite Hlen. repeat split.
  - unfold getitem. cbn [columns rows].
    change (index_of "Player" final_columns) with (Some 0%nat).
    cbv iota beta. now rewrite ranked_players.
  - unfold getitem. cbn [columns rows].
    change (index_of "Total_Score" final_columns) with (Some 1%nat).
    cbv iota beta. now rewrite ranked_totals.
  - unfold getitem. cbn [columns rows].
    change (index_of "Rank" final_columns) with (Some 8%nat).
    cbv iota beta. now rewrite ranked_ranks.
  - apply length_map.
  - apply length_map.
  - apply (Permutation_NoDup Hperm). now apply string_lt_sorted_NoDup.
  - intros Hp. now apply Hrec, (Permutation_in _ (Permutation_sym Hperm)).
  - intros Hp. now apply (Permutation_in _ Hperm), Hrec.
  - exact Htot.
  - intros Hw. eapply Forall2_impl; [|exact Htot].
    intros p total ->. now apply whole_totals.
  - exact Hsorted.
  - exact Hmin.
  - intros p Hp. now apply Hfirst.
  - intros Hw p Hp. rewrite <- (whole_totals df t p Hw). now apply Hfirst.
  - intros _. apply StronglySorted_nth; [exact Hsorted|lia|].
    rewrite length_map. assumption.
  - intros _. rewrite !seq_nth by lia. lia.
Qed.

Lemma leaderboard_sorted_and_ranked_witness :
  conforms tournament_data = true
  /\ exists lb names totals,
       create_tournament_leaderboard tournament_data "提提卡卡杯" = Ok lb
       /\ getitem lb "Player" = Ok (map VStr names)
       /\ getitem lb "Total_Score" = Ok (map VNum totals)
       /\ getitem lb "Rank" = Ok (range1 (len lb))
       /\ length names = 3%nat
       /\ Forall2 (fun p total =>
                     (total == total_net_score tournament_data "提提卡卡杯" p)%Q)
                  names totals
       /\ StronglySorted Qle totals.
Proof.
  split; [reflexivity|].
  destruct (leaderboard_sorted_and_ranked tournament_data "提提卡卡杯" eq_refl)
    as (lb & names & totals & H1 & H2 & H3 & H4 & H5 & _ & _ & _ & _ & H10 & H11 & _).
  exists lb, names, totals. repeat split; try assumption.
  - rewrite H5. rewrite leaderboard_of_test_data in H1. inversion H1. reflexivity.
  - apply H10. reflexivity.
Defined.


